(** * X-Feed-Reader: feed acquisition, extraction, ingestion and scheduling

    A shallow embedding of the core of the repository:
    - [src/scraper.py]   the DOM extraction engine and the acquisition loop,
    - [src/database.py]  retention trimming of the single-tenant store,
    - [web/services/pipeline_service.py]  batch ingestion and the orchestrator,
    - [web/services/feed_providers/twitter_api.py]  the live-API transformer,
    - [web/scheduler_tasks.py]  the hourly scheduler.

    Python values are dynamically typed: the canonical tweet dictionary is a
    finite map from field names to [pyval]; browser access goes through a
    fake DOM whose calls are recorded in a trace. *)

From Stdlib Require Import ZArith List String Ascii Lia Permutation Sorted.
From stdpp Require Import base option gmap sets list strings sorting.

Local Open Scope string_scope.
Local Open Scope list_scope.
Local Open Scope Z_scope.

(** ** Python strings (ASCII fragment)

    Strings are [string]; the operations work on their character lists.
    Characters outside ASCII are neither digits, spaces nor letters here. *)
Module PyStr.

Definition chars (s : string) : list ascii := list_ascii_of_string s.
Definition of_chars (l : list ascii) : string := string_of_list_ascii l.

Definition code (c : ascii) : N := N_of_ascii c.

  (** [c.isdigit()] on ASCII: '0' .. '9'. *)
Definition is_digit (c : ascii) : bool :=
    ((48 <=? code c) && (code c <=? 57))%N.

  (** Whitespace removed by [str.strip()]: TAB, LF, VT, FF, CR, FS, GS, RS,
      US and the space. *)
Definition is_space (c : ascii) : bool :=
    (((9 <=? code c) && (code c <=? 13))
     || ((28 <=? code c) && (code c <=? 32)))%N.

Definition to_upper (c : ascii) : ascii :=
    if ((97 <=? code c) && (code c <=? 122))%N
    then ascii_of_N (code c - 32) else c.

Definition to_lower (c : ascii) : ascii :=
    if ((65 <=? code c) && (code c <=? 90))%N
    then ascii_of_N (code c + 32) else c.

Definition upper (s : string) : string := of_chars (map to_upper (chars s)).
Definition lower (s : string) : string := of_chars (map to_lower (chars s)).

Fixpoint lstrip_chars (l : list ascii) : list ascii :=
    match l with
    | c :: l' => if is_space c then lstrip_chars l' else l
    | [] => []
    end.

Definition strip (s : string) : string :=
    of_chars (rev (lstrip_chars (rev (lstrip_chars (chars s))))).

Fixpoint prefix_chars (p l : list ascii) : bool :=
    match p, l with
    | [], _ => true
    | a :: p', b :: l' => bool_decide (a = b) && prefix_chars p' l'
    | _ :: _, [] => false
    end.

  (** [s.startswith(p)] and [s.endswith(p)]. *)
Definition startswith (s p : string) : bool := prefix_chars (chars p) (chars s).
Definition endswith (s p : string) : bool :=
    prefix_chars (rev (chars p)) (rev (chars s)).

  (** [s[1:]] and [s[:-1]]. *)
Definition tail (s : string) : string := of_chars (drop 1 (chars s)).
Definition drop_last (s : string) : string :=
    of_chars (rev (drop 1 (rev (chars s)))).

  (** [s.replace(c, "")] for a one-character [c]. *)
Definition remove_char (c : ascii) (s : string) : string :=
    of_chars (List.filter (fun x => negb (bool_decide (x = c))) (chars s)).

  (** [s.replace(a, b)] for one-character [a]. *)
Definition replace_char (a : ascii) (b : string) (s : string) : string :=
    of_chars (flat_map (fun x => if bool_decide (x = a) then chars b else [x])
                       (chars s)).

  (** [s.isdigit()]: non-empty and every character a digit. *)
Definition isdigit (s : string) : bool :=
    match chars s with
    | [] => false
    | l => forallb is_digit l
    end.

Definition digit_val (c : ascii) : Z := Z.of_N (code c - 48).

Definition digits_val (l : list ascii) : Z :=
    fold_left (fun acc c => 10 * acc + digit_val c) l 0.

  (** [int(s)] for the strings the extraction engine passes to it (digit
      runs); [None] stands for the [ValueError] raised otherwise. *)
Definition int (s : string) : option Z :=
    if isdigit s then Some (digits_val (chars s)) else None.

Fixpoint contains_chars (n h : list ascii) : bool :=
    prefix_chars n h ||
    match h with
    | [] => false
    | _ :: h' => contains_chars n h'
    end.

  (** [needle in hay]. *)
Definition contains (needle hay : string) : bool :=
    contains_chars (chars needle) (chars hay).

Fixpoint span_chars (p : ascii -> bool) (l : list ascii) : list ascii * list ascii :=
    match l with
    | c :: l' => if p c then let '(a, b) := span_chars p l' in (c :: a, b)
                 else ([], l)
    | [] => ([], [])
    end.

  (** First match of [re.findall(r"[\d,]+", s)], if any. *)
Fixpoint first_number_chars (l : list ascii) : option (list ascii) :=
    match l with
    | [] => None
    | c :: l' =>
        if is_digit c || bool_decide (c = ","%char)
        then Some (fst (span_chars (fun x => is_digit x || bool_decide (x = ","%char)) l))
        else first_number_chars l'
    end.

Definition first_number (s : string) : option string :=
    of_chars <$> first_number_chars (chars s).

  (** [re.search(r"/status/(\d+)", s)]: group 1 of the leftmost match. *)
Fixpoint search_status_chars (l : list ascii) : option (list ascii) :=
    match (if prefix_chars (chars "/status/") l
           then match fst (span_chars is_digit (drop 8 l)) with
                | [] => None
                | ds => Some ds
                end
           else None) with
    | Some ds => Some ds
    | None => match l with
              | [] => None
              | _ :: l' => search_status_chars l'
              end
    end.

Definition search_status (s : string) : option string :=
    of_chars <$> search_status_chars (chars s).

End PyStr.

(** ** Engagement counts: the K/M fallback of [_extract_engagement] *)

(** The body of [if text:] in [XFeedScraper._extract_engagement]: the text
    of the inner span, with K and M suffixes. *)
Definition parse_compact_count (text : string) : option Z :=
  let text := PyStr.upper (PyStr.strip text) in
  let '(multiplier, text) :=
    if PyStr.endswith text "K" then (1000, PyStr.drop_last text)
    else if PyStr.endswith text "M" then (1000000, PyStr.drop_last text)
    else (1, text) in
  let cleaned := PyStr.remove_char "."%char (PyStr.remove_char ","%char text) in
  if PyStr.isdigit cleaned
  then (fun n => n * multiplier) <$> PyStr.int cleaned
  else None.

Example parse_compact_count_1_2K : parse_compact_count "1.2K" = Some 12000.
Proof. reflexivity. Qed.

(** ** Python values and the canonical tweet dictionary *)

Inductive pyval : Type :=
  | PNone
  | PBool (b : bool)
  | PInt (n : Z)
  | PStr (s : string)
  | PList (l : list string)
  | PDatetime (t : Z).

Global Instance pyval_eq_dec : EqDecision pyval.
Proof. solve_decision. Defined.

Definition pyval_code (v : pyval) : unit + bool + Z + string + list string + Z :=
  match v with
  | PNone => inl (inl (inl (inl (inl tt))))
  | PBool b => inl (inl (inl (inl (inr b))))
  | PInt n => inl (inl (inl (inr n)))
  | PStr s => inl (inl (inr s))
  | PList l => inl (inr l)
  | PDatetime t => inr t
  end.

Definition pyval_decode (c : unit + bool + Z + string + list string + Z) : pyval :=
  match c with
  | inl (inl (inl (inl (inl _)))) => PNone
  | inl (inl (inl (inl (inr b)))) => PBool b
  | inl (inl (inl (inr n))) => PInt n
  | inl (inl (inr s)) => PStr s
  | inl (inr l) => PList l
  | inr t => PDatetime t
  end.

Global Instance pyval_countable : Countable pyval.
Proof.
  refine (inj_countable' pyval_code pyval_decode _).
  intros []; reflexivity.
Defined.

(** Python truthiness: [if v:]. *)
Definition truthy (v : pyval) : bool :=
  match v with
  | PNone => false
  | PBool b => b
  | PInt n => negb (n =? 0)
  | PStr s => negb (bool_decide (s = ""))
  | PList l => negb (bool_decide (l = []))
  | PDatetime _ => true
  end.

Definition of_opt_str (o : option string) : pyval := from_option PStr PNone o.
Definition of_opt_int (o : option Z) : pyval := from_option PInt PNone o.

(** A tweet dictionary, [dict[str, Any]]. *)
Abbreviation dict := (gmap string pyval).

(** [d.get(k)]; also [d[k]] for the keys the dictionary always holds. *)
Definition dict_get (d : dict) (k : string) : pyval := default PNone (d !! k).

(** [d.get(k, dflt)]. *)
Definition dict_get_default (d : dict) (k : string) (dflt : pyval) : pyval :=
  default dflt (d !! k).

(** The field names of the canonical tweet shape. *)
Definition canonical_fields : list string :=
  [ "id"; "author_handle"; "author_name"; "content"; "timestamp"; "likes";
    "retweets"; "replies"; "media_urls"; "is_retweet"; "original_author";
    "is_reply"; "reply_to_handle" ].

(** ** The fake DOM and the trace of browser calls *)

(** An [ElementHandle]: its attributes, its inner text, what
    [el.closest('a')?.href] evaluates to, and for each selector the elements
    [query_selector_all] finds below it. *)
#[warnings="-register-all"]
Inductive element : Type :=
  Element {
    el_attrs : list (string * string);
    el_text : string;
    el_closest_a : option string;
    el_select : list (string * list element)
  }.

Fixpoint assoc {A : Type} (k : string) (l : list (string * A)) : option A :=
  match l with
  | [] => None
  | (k', v) :: l' => if bool_decide (k' = k) then Some v else assoc k l'
  end.

Inductive dom_call : Type :=
  | QuerySelector (sel : string)
  | QuerySelectorAll (sel : string)
  | GetAttribute (name : string)
  | InnerText
  | Evaluate (js : string).

(** A computation that talks to the page: its value and the calls made. *)
Record Dom (A : Type) : Type := mkDom { value : A; calls : list dom_call }.
Arguments mkDom {A} _ _.
Arguments value {A} _.
Arguments calls {A} _.

Global Instance Dom_ret : MRet Dom := fun A x => mkDom x [].
Global Instance Dom_bind : MBind Dom := fun A B f m =>
  let r := f (value m) in mkDom (value r) (calls m ++ calls r).

Definition query_selector_all (e : element) (sel : string) : Dom (list element) :=
  mkDom (default [] (assoc sel (el_select e))) [QuerySelectorAll sel].

Definition query_selector (e : element) (sel : string) : Dom (option element) :=
  mkDom (head (default [] (assoc sel (el_select e)))) [QuerySelector sel].

Definition get_attribute (e : element) (name : string) : Dom (option string) :=
  mkDom (assoc name (el_attrs e)) [GetAttribute name].

Definition inner_text (e : element) : Dom string :=
  mkDom (el_text e) [InnerText].

Definition evaluate_closest_a_href (e : element) : Dom (option string) :=
  mkDom (el_closest_a e) [Evaluate "el => el.closest('a')?.href"].

(** [if s:] for an optional string. *)
Definition nonempty (o : option string) : option string :=
  match o with
  | Some s => if bool_decide (s = "") then None else Some s
  | None => None
  end.

(** Library functions of the platform the code calls into. *)
Class Platform := {
  (** [urllib.parse.urlparse]: scheme and netloc, [None] when it raises. *)
  urlparse : string -> option (string * string);
  (** [datetime.fromisoformat]: [None] for [ValueError]. *)
  fromisoformat : string -> option Z
}.

(** [src/utils.py] *)
Definition validate_url `{Platform} (url : string) : bool :=
  match urlparse url with
  | Some (scheme, netloc) =>
      (bool_decide (scheme = "http") || bool_decide (scheme = "https"))
      && negb (bool_decide (netloc = ""))
  | None => false
  end.

Definition parse_timestamp `{Platform} (timestamp_str : option string) : pyval :=
  match nonempty timestamp_str with
  | None => PNone
  | Some s => from_option PDatetime PNone
                (fromisoformat (PyStr.replace_char "Z"%char "+00:00" s))
  end.

(** ** The DOM extraction engine ([src/scraper.py]) *)

Definition TWEET_TEXT_SELECTOR : string := "[data-testid='tweetText']".
Definition SOCIAL_CONTEXT_SELECTOR : string := "[data-testid='socialContext']".
Definition USER_LINK_SELECTOR : string := "a[href^='/'][role='link']".
Definition STATUS_LINK_SELECTOR : string := "a[href*='/status/']".

(** The [for link in links] loop of [_extract_tweet_id]. *)
Fixpoint status_id_of_links (links : list element) : Dom (option string) :=
  match links with
  | [] => mret None
  | link :: rest =>
      href ← get_attribute link "href";
      match nonempty href with
      | Some h =>
          match PyStr.search_status h with
          | Some i => mret (Some i)
          | None => status_id_of_links rest
          end
      | None => status_id_of_links rest
      end
  end.

Definition _extract_tweet_id (article : element) : Dom (option string) :=
  links ← query_selector_all article STATUS_LINK_SELECTOR;
  found ← status_id_of_links links;
  match found with
  | Some i => mret (Some i)
  | None =>
      tweet_link ← query_selector article "a time";
      match tweet_link with
      | Some tl =>
          parent_link ← evaluate_closest_a_href tl;
          match nonempty parent_link with
          | Some p => mret (PyStr.search_status p)
          | None => mret None
          end
      | None => mret None
      end
  end.

Definition excluded_prefixes : list string :=
  [ "search"; "explore"; "home"; "notifications"; "messages"; "i/" ].

(** [href and href.startswith("/") and "/" not in href[1:]]: the handle
    [href[1:]] of a profile link. *)
Definition profile_handle (href : option string) : option string :=
  match nonempty href with
  | Some h =>
      if PyStr.startswith h "/" && negb (PyStr.contains "/" (PyStr.tail h))
      then Some (PyStr.tail h) else None
  | None => None
  end.

Definition is_navigational (handle : string) : bool :=
  existsb (PyStr.startswith handle) excluded_prefixes.

(** The [for link in user_links] loop of [_extract_author_info], with its
    [break] after the first profile link that is not navigational. *)
Fixpoint author_loop (user_links : list element) (tweet_data : dict) : Dom dict :=
  match user_links with
  | [] => mret tweet_data
  | link :: rest =>
      href ← get_attribute link "href";
      match profile_handle href with
      | Some handle =>
          if negb (is_navigational handle) then
            if bool_decide (dict_get tweet_data "author_handle" = PNone) then
              let tweet_data := <["author_handle" := PStr handle]> tweet_data in
              name_element ← query_selector link "span";
              match name_element with
              | Some e =>
                  name ← inner_text e;
                  mret (<["author_name" := PStr name]> tweet_data)
              | None => mret tweet_data
              end
            else if truthy (dict_get tweet_data "is_retweet")
                    && bool_decide (dict_get tweet_data "original_author" = PNone) then
              mret (<["author_handle" := PStr handle]>
                      (<["original_author" := dict_get tweet_data "author_handle"]>
                         tweet_data))
            else mret tweet_data
          else author_loop rest tweet_data
      | None => author_loop rest tweet_data
      end
  end.

Definition _extract_author_info (article : element) (tweet_data : dict) : Dom dict :=
  user_links ← query_selector_all article USER_LINK_SELECTOR;
  author_loop user_links tweet_data.

Definition reply_indicators : list string :=
  [ "replying to"; "antwort an"; "in reply to"; "als antwort" ].

(** The [for link in reply_links] loop of [_extract_reply_context]. *)
Fixpoint reply_loop (reply_links : list element) (tweet_data : dict) : Dom dict :=
  match reply_links with
  | [] => mret tweet_data
  | link :: rest =>
      href ← get_attribute link "href";
      text ← inner_text link;
      if PyStr.startswith text "@"
         && bool_decide (is_Some (profile_handle href))
         && negb (bool_decide (PStr (PyStr.tail text) = dict_get tweet_data "author_handle"))
      then mret (<["reply_to_handle" := PStr (PyStr.tail text)]>
                   (<["is_reply" := PBool true]> tweet_data))
      else reply_loop rest tweet_data
  end.

Definition _extract_reply_context (article : element) (tweet_data : dict) : Dom dict :=
  article_text ← inner_text article;
  let article_text := PyStr.lower article_text in
  let is_reply_by_text :=
    existsb (fun indicator => PyStr.contains indicator article_text) reply_indicators in
  tweet_data ←
    (if is_reply_by_text
     then reply_links ← query_selector_all article USER_LINK_SELECTOR;
          reply_loop reply_links tweet_data
     else mret tweet_data);
  if negb (truthy (dict_get tweet_data "is_reply")) then
    user_cells ← query_selector_all article "[data-testid='User-Name']";
    if (1 <? length user_cells)%nat
    then mret (<["is_reply" := PBool true]> tweet_data)
    else mret tweet_data
  else mret tweet_data.

(** [_extract_engagement]: the count in the aria-label first, the compact
    text of the inner span as a fallback. A [ValueError] of [int] is caught
    and gives [None]. *)
Definition _extract_engagement (article : element) (metric_type : string)
  : Dom (option Z) :=
  button ← query_selector article ("[data-testid='" +:+ metric_type +:+ "']");
  match button with
  | None => mret None
  | Some button =>
      aria_label ← get_attribute button "aria-label";
      match nonempty aria_label ≫= PyStr.first_number with
      | Some number => mret (PyStr.int (PyStr.remove_char ","%char number))
      | None =>
          span ← query_selector button "span span";
          match span with
          | Some span =>
              text ← inner_text span;
              match nonempty (Some text) with
              | Some text => mret (parse_compact_count text)
              | None => mret None
              end
          | None => mret None
          end
      end
  end.

(** The [for img in media_images] loop of [_extract_media_urls]. *)
Fixpoint media_loop `{Platform} (media_images : list element) (urls : list string)
  : Dom (list string) :=
  match media_images with
  | [] => mret urls
  | img :: rest =>
      src ← get_attribute img "src";
      match nonempty src with
      | Some src => if validate_url src then media_loop rest (urls ++ [src])
                    else media_loop rest urls
      | None => media_loop rest urls
      end
  end.

Definition _extract_media_urls `{Platform} (article : element) : Dom (list string) :=
  media_images ← query_selector_all article "[data-testid='tweetPhoto'] img";
  media_loop media_images [].

(** The dictionary [_parse_tweet] starts from. *)
Definition empty_tweet_data : dict :=
  <["reply_to_handle" := PNone]> (<["is_reply" := PBool false]> (
  <["original_author" := PNone]> (<["is_retweet" := PBool false]> (
  <["media_urls" := PList []]> (<["replies" := PNone]> (
  <["retweets" := PNone]> (<["likes" := PNone]> (
  <["timestamp" := PNone]> (<["content" := PNone]> (
  <["author_name" := PNone]> (<["author_handle" := PNone]> (
  <["id" := PNone]> ∅)))))))))))).

(** The block [# Check if retweet] of [_parse_tweet]. *)
Definition check_retweet (article : element) (tweet_data : dict) : Dom dict :=
  retweet_indicator ← query_selector article SOCIAL_CONTEXT_SELECTOR;
  match retweet_indicator with
  | Some e =>
      retweet_text ← inner_text e;
      if PyStr.contains "reposted" (PyStr.lower retweet_text)
         || PyStr.contains "retweeted" (PyStr.lower retweet_text)
      then mret (<["is_retweet" := PBool true]> tweet_data)
      else mret tweet_data
  | None => mret tweet_data
  end.

(** The block [# Extract tweet content]. *)
Definition extract_content (article : element) (tweet_data : dict) : Dom dict :=
  tweet_text_element ← query_selector article TWEET_TEXT_SELECTOR;
  match tweet_text_element with
  | Some e => content ← inner_text e;
              mret (<["content" := PStr content]> tweet_data)
  | None => mret tweet_data
  end.

(** The block [# Extract timestamp]. *)
Definition extract_timestamp `{Platform} (article : element) (tweet_data : dict)
  : Dom dict :=
  time_element ← query_selector article "time";
  match time_element with
  | Some e => datetime_attr ← get_attribute e "datetime";
              mret (<["timestamp" := parse_timestamp datetime_attr]> tweet_data)
  | None => mret tweet_data
  end.

(** The blocks [# Extract engagement metrics] and [# Extract media URLs]. *)
Definition extract_metrics_and_media `{Platform} (article : element)
    (tweet_data : dict) : Dom dict :=
  likes ← _extract_engagement article "like";
  let tweet_data := <["likes" := of_opt_int likes]> tweet_data in
  retweets ← _extract_engagement article "retweet";
  let tweet_data := <["retweets" := of_opt_int retweets]> tweet_data in
  replies ← _extract_engagement article "reply";
  let tweet_data := <["replies" := of_opt_int replies]> tweet_data in
  media_urls ← _extract_media_urls article;
  mret (<["media_urls" := PList media_urls]> tweet_data).

Definition _parse_tweet `{Platform} (article : element) : Dom (option dict) :=
  let tweet_data := empty_tweet_data in
  tweet_id ← _extract_tweet_id article;
  let tweet_data := <["id" := of_opt_str tweet_id]> tweet_data in
  if negb (truthy (dict_get tweet_data "id")) then mret None else
  tweet_data ← check_retweet article tweet_data;
  tweet_data ← _extract_author_info article tweet_data;
  tweet_data ← extract_content article tweet_data;
  tweet_data ← _extract_reply_context article tweet_data;
  tweet_data ← extract_timestamp article tweet_data;
  tweet_data ← extract_metrics_and_media article tweet_data;
  mret (Some tweet_data).

(** ** The feed acquisition loop ([XFeedScraper.scrape_feed]) *)

Definition MAX_CONSECUTIVE_KNOWN : nat := 3.
Definition SCROLL_MULTIPLIER : Z := 2.

(** The local variables of [scrape_feed]. *)
Record loop_state : Type := LoopState {
  tweets : list dict;
  seen_ids : gset pyval;
  consecutive_known : nat;
  scroll_count : nat
}.

(** One pass of the simulated page: what [query_selector_all] renders
    ([None] when it raises [PlaywrightError]: the pass then has no article)
    and whether the scroll and the waits after it succeed (a failure there
    leaves the loop through the outer handler). *)
Record pass : Type := Pass {
  rendered : option (list element);
  scroll_ok : bool
}.

(** The simulated page: whether the first navigation succeeds, and the
    pass seen after each number of scrolls. *)
Record page : Type := Page {
  goto_ok : bool;
  passes : nat -> pass
}.

(** How the [for article in articles] loop is left: at its end or by
    [break] ([Continue]), or by [return tweets] ([Return]). *)
Inductive for_result : Type :=
  | Continue (st : loop_state)
  | Return (result : list dict).

Section ScrapeFeed.
Context `{Platform}.
Variable max_tweets : Z.
Variable stop_on_known : bool.
Variable known_checker : option (pyval -> bool).

  (** [stop_on_known and known_checker and known_checker(tweet["id"])]. *)
Definition is_known (tweet_id : pyval) : bool :=
    stop_on_known &&
    match known_checker with
    | Some check => check tweet_id
    | None => false
    end.

  (** The body of the [while]: the [for] loop over the rendered articles.
      A dictionary with a truthy ["id"] is not empty, so [tweet and
      tweet["id"]] is the test on ["id"]. *)
Fixpoint for_articles (articles : list element) (st : loop_state) : for_result :=
    match articles with
    | [] => Continue st
    | article :: rest =>
        if max_tweets <=? Z.of_nat (length (tweets st)) then Continue st
        else
          match value (_parse_tweet article) with
          | Some tweet =>
              let tweet_id := dict_get tweet "id" in
              if truthy tweet_id && negb (bool_decide (tweet_id ∈ seen_ids st)) then
                let seen := {[ tweet_id ]} ∪ seen_ids st in
                if is_known tweet_id then
                  let known := S (consecutive_known st) in
                  if (MAX_CONSECUTIVE_KNOWN <=? known)%nat then Return (tweets st)
                  else for_articles rest
                         (LoopState (tweets st) seen known (scroll_count st))
                else
                  for_articles rest
                    (LoopState (tweets st ++ [tweet]) seen 0 (scroll_count st))
              else for_articles rest st
          | None => for_articles rest st
          end
    end.

Definition max_scrolls : Z := max_tweets * SCROLL_MULTIPLIER.

  (** The [while] loop. The result is the list returned and the number of
      [window.scrollBy] calls issued. [None] only when [fuel] runs out. *)
Fixpoint scrape_loop (pg : page) (fuel : nat) (st : loop_state)
    : option (list dict * nat) :=
    if (Z.of_nat (length (tweets st)) <? max_tweets)
       && (Z.of_nat (scroll_count st) <? max_scrolls) then
      match fuel with
      | O => None
      | S fuel' =>
          let p := passes pg (scroll_count st) in
          match for_articles (default [] (rendered p)) st with
          | Return result => Some (result, scroll_count st)
          | Continue st' =>
              if scroll_ok p then
                scrape_loop pg fuel'
                  (LoopState (tweets st') (seen_ids st') (consecutive_known st')
                             (S (scroll_count st')))
              else Some (tweets st', S (scroll_count st'))
          end
      end
    else Some (tweets st, scroll_count st).

Definition initial_state : loop_state := LoopState [] ∅ 0 0.

  (** [scrape_feed]: a failed navigation is caught and the empty list
      returned; the loop needs at most [max_scrolls] iterations. *)
Definition scrape_feed (pg : page) : option (list dict * nat) :=
    if goto_ok pg then scrape_loop pg (Z.to_nat max_scrolls) initial_state
    else Some ([], 0%nat).

End ScrapeFeed.

(** *** Reading the loop: classes of articles and runs of known records *)

(** How the loop treats an article, given the ids seen so far: skipped (no
    record, or an id already seen in this run), a record the oracle knows,
    or a new record. *)
Inductive item_class : Type := Skipped | Known | New.

Section Classes.
Context `{Platform}.
Variable stop_on_known : bool.
Variable known_checker : option (pyval -> bool).

  (** The id of the record of an article, when it is fresh for [seen]. *)
Definition fresh_id (seen : gset pyval) (article : element) : option pyval :=
    match value (_parse_tweet article) with
    | Some tweet =>
        let i := dict_get tweet "id" in
        if truthy i && negb (bool_decide (i ∈ seen)) then Some i else None
    | None => None
    end.

Definition classify (seen : gset pyval) (article : element) : item_class :=
    match fresh_id seen article with
    | Some i => if is_known stop_on_known known_checker i then Known else New
    | None => Skipped
    end.

  (** The ids seen after an article. *)
Definition see (seen : gset pyval) (article : element) : gset pyval :=
    match fresh_id seen article with
    | Some i => {[ i ]} ∪ seen
    | None => seen
    end.

  (** The classes of the articles of a pass, in order. *)
Fixpoint classes (seen : gset pyval) (articles : list element) : list item_class :=
    match articles with
    | [] => []
    | a :: rest => classify seen a :: classes (see seen a) rest
    end.

  (** The state after an article that does not end the loop. *)
Definition advance (st : loop_state) (article : element) : loop_state :=
    match fresh_id (seen_ids st) article, value (_parse_tweet article) with
    | Some i, Some tweet =>
        if is_known stop_on_known known_checker i
        then LoopState (tweets st) ({[ i ]} ∪ seen_ids st)
                       (S (consecutive_known st)) (scroll_count st)
        else LoopState (tweets st ++ [tweet]) ({[ i ]} ∪ seen_ids st) 0
                       (scroll_count st)
    | _, _ => st
    end.

  (** The article is a known record that takes the counter to the
      threshold. *)
Definition completes_run (st : loop_state) (article : element) : bool :=
    match classify (seen_ids st) article with
    | Known => (MAX_CONSECUTIVE_KNOWN <=? S (consecutive_known st))%nat
    | _ => false
    end.
End Classes.

(** The records after the last new record of a sequence, if it has one. *)
Fixpoint after_last_new (cs : list item_class) : option (list item_class) :=
  match cs with
  | [] => None
  | c :: cs' =>
      match after_last_new cs' with
      | Some r => Some r
      | None => match c with New => Some cs' | _ => None end
      end
  end.

Definition count_known (cs : list item_class) : nat :=
  length (List.filter (fun c => match c with Known => true | _ => false end) cs).

(** The uninterrupted run of known records at the end of a sequence: the
    known records after the last new one; when the sequence has no new
    record the run continues the [before] known records that preceded it. *)
Definition known_run (before : nat) (cs : list item_class) : nat :=
  match after_last_new cs with
  | Some r => count_known r
  | None => (before + count_known cs)%nat
  end.

Definition run_step (run : nat) (c : item_class) : nat :=
  match c with
  | Skipped => run
  | Known => S run
  | New => 0%nat
  end.

(** The id of the record an article parses to. *)
Definition record_id `{Platform} (article : element) : option pyval :=
  fresh_id ∅ article.

(** The articles of the [n]-th pass. *)
Definition articles_of (pg : page) (n : nat) : list element :=
  default [] (rendered (passes pg n)).

(** A feed that keeps yielding new items for as long as it is scrolled:
    the page loads, and each of the first [max_tweets] passes scrolls on,
    shows no record the oracle knows, and shows a record that no earlier
    pass has shown. *)
Definition keeps_yielding `{Platform} (max_tweets : Z) (stop_on_known : bool)
    (known_checker : option (pyval -> bool)) (pg : page) : Prop :=
  goto_ok pg = true /\
  forall n : nat, Z.of_nat n < max_tweets ->
    scroll_ok (passes pg n) = true
    /\ (forall a i, a ∈ articles_of pg n -> record_id a = Some i ->
                    is_known stop_on_known known_checker i = false)
    /\ exists a i, a ∈ articles_of pg n /\ record_id a = Some i
                   /\ forall m b, (m < n)%nat -> b ∈ articles_of pg m ->
                                  record_id b ≠ Some i.

(** ** Exceptions and results *)

Inductive exn : Type :=
  | IntegrityError
  | SessionExpiredError (msg : string)
  | SummaryGenerationError (msg : string)
  | OtherError (msg : string).

(** [str(e)]. *)
Definition exn_str (e : exn) : string :=
  match e with
  | IntegrityError => "UNIQUE constraint failed: uq_tweet_user"
  | SessionExpiredError msg => msg
  | SummaryGenerationError msg => msg
  | OtherError msg => msg
  end.

Inductive result (A : Type) : Type :=
  | Ok (a : A)
  | Raise (e : exn).
Arguments Ok {A} _.
Arguments Raise {A} _.

(** ** The multi-tenant store and the orchestrator ([web/]) *)
Module Web.

  (** [web/models/tweet.py]: a row of [web_tweets]. *)
Record tweet : Type := Tweet {
    tweet_id : pyval;
    user_id : Z;
    author_handle : pyval;
    author_name : pyval;
    content : pyval;
    timestamp : pyval;
    likes : pyval;
    retweets : pyval;
    replies : pyval;
    media_urls : pyval;
    is_retweet : pyval;
    original_author : pyval;
    is_reply : pyval;
    reply_to_handle : pyval;
    scraped_at : Z
  }.

  (** [web/models/scrape_run.py] *)
Record scrape_run : Type := ScrapeRun {
    run_user_id : Z;
    started_at : Z;
    finished_at : Z;
    tweets_found : Z;
    tweets_new : Z;
    run_feed_source : string;
    status : string
  }.

  (** [web/models/briefing.py] *)
Record briefing : Type := Briefing {
    briefing_user_id : Z;
    briefing_content : string;
    tweet_count : Z;
    briefing_llm_provider : string;
    briefing_prompt_preset : string;
    created_at : Z
  }.

Record database : Type := Database {
    web_tweets : list tweet;
    web_scrape_runs : list scrape_run;
    briefings : list briefing
  }.

  (** The columns of [UniqueConstraint("tweet_id", "user_id")]. *)
Definition uq_tweet_user (t : tweet) : pyval * Z := (tweet_id t, user_id t).

Definition unique_rows (rows : list tweet) : Prop := NoDup (uq_tweet_user <$> rows).

  (** [db.commit()] of pending [web_tweets] rows: the inserts are refused
      with [IntegrityError] when the table would break [uq_tweet_user]. *)
Definition commit_tweets (db : database) (pending : list tweet) : result database :=
    if bool_decide (unique_rows (web_tweets db ++ pending))
    then Ok (Database (web_tweets db ++ pending) (web_scrape_runs db) (briefings db))
    else Raise IntegrityError.

  (** The timestamp given to the row: parsed when it is a string. *)
Definition row_timestamp `{Platform} (v : pyval) : pyval :=
    match v with
    | PStr s => parse_timestamp (Some s)
    | _ => v
    end.

Definition new_row `{Platform} (now : Z) (owner : Z) (tweet_data : dict) : tweet :=
    Tweet (dict_get tweet_data "id") owner
          (dict_get tweet_data "author_handle")
          (dict_get tweet_data "author_name")
          (dict_get tweet_data "content")
          (row_timestamp (dict_get tweet_data "timestamp"))
          (dict_get tweet_data "likes")
          (dict_get tweet_data "retweets")
          (dict_get tweet_data "replies")
          (dict_get tweet_data "media_urls")
          (dict_get_default tweet_data "is_retweet" (PBool false))
          (dict_get tweet_data "original_author")
          (dict_get_default tweet_data "is_reply" (PBool false))
          (dict_get tweet_data "reply_to_handle")
          now.

  (** The [for tweet_data in raw_tweets] loop of [_store_tweets_batch]: the
      rows added to the session and [new_count]. *)
Fixpoint store_loop `{Platform} (now : Z) (owner : Z) (existing_ids : gset pyval)
      (raw_tweets : list dict) (pending : list tweet) (new_count : Z)
    : list tweet * Z :=
    match raw_tweets with
    | [] => (pending, new_count)
    | tweet_data :: rest =>
        let tid := dict_get tweet_data "id" in
        if negb (truthy tid) || bool_decide (tid ∈ existing_ids)
        then store_loop now owner existing_ids rest pending new_count
        else store_loop now owner existing_ids rest
               (pending ++ [new_row now owner tweet_data]) (new_count + 1)
    end.

  (** [_store_tweets_batch]: the new count and the database after it.
      [now] is the time the new rows are stamped with. *)
Definition _store_tweets_batch `{Platform} (now : Z) (db : database) (owner : Z)
      (raw_tweets : list dict) : result (Z * database) :=
    let tweet_ids :=
      List.filter truthy ((fun t => dict_get t "id") <$> raw_tweets) in
    if bool_decide (tweet_ids = []) then Ok (0, db) else
    let existing_ids : gset pyval :=
      list_to_set
        (tweet_id <$> List.filter
           (fun r => bool_decide (tweet_id r ∈ tweet_ids) && (user_id r =? owner))
           (web_tweets db)) in
    let '(pending, new_count) := store_loop now owner existing_ids raw_tweets [] 0 in
    if negb (new_count =? 0) then
      match commit_tweets db pending with
      | Ok db' => Ok (new_count, db')
      | Raise e => Raise e
      end
    else Ok (new_count, db).

  (** [_log_scrape_run] *)
Definition _log_scrape_run (now : Z) (db : database) (owner : Z) (started : Z)
      (found new : Z) (feed_source : string) (st : string) : database :=
    Database (web_tweets db)
             (web_scrape_runs db ++ [ScrapeRun owner started now found new feed_source st])
             (briefings db).

  (** [web/models/user_settings.py], the columns the pipeline reads. *)
Record user_settings : Type := UserSettings {
    feed_source : string;
    max_tweets : Z;
    summary_hours : Z;
    llm_provider : string;
    llm_model : option string;
    prompt_preset : string;
    custom_prompt : option string
  }.

  (** What a pipeline run meets outside the orchestrator: the settings row,
      the feed providers, the summarizer, the order the database returns
      rows in for [ORDER BY timestamp DESC], and the reading of the clock at
      each [now_utc()]. *)
Record world : Type := World {
    settings_of : Z -> option user_settings;
    api_fetch_feed : Z -> Z -> result (list dict);
    playwright_fetch_feed : Z -> Z -> result (list dict);
    disable_playwright : bool;
    generate_summary : list dict -> user_settings -> result string;
    order_by_timestamp_desc : list tweet -> list tweet;
    t_started : Z;
    t_stored : Z;
    t_logged : Z;
    t_cutoff : Z;
    t_failed : Z;
    t_briefing : Z
  }.

Definition hours (h : Z) : Z := h * 3600000000.

  (** The dictionary given to the summarizer for a stored row. The
      timestamp is its ISO string, kept here as the stored value. *)
Definition tweet_dict (t : tweet) : dict :=
    <["reply_to_handle" := reply_to_handle t]> (<["is_reply" := is_reply t]> (
    <["original_author" := original_author t]> (<["is_retweet" := is_retweet t]> (
    <["media_urls" := media_urls t]> (<["replies" := replies t]> (
    <["retweets" := retweets t]> (<["likes" := likes t]> (
    <["timestamp" := timestamp t]> (<["content" := content t]> (
    <["author_name" := author_name t]> (<["author_handle" := author_handle t]> (
    <["id" := tweet_id t]> ∅)))))))))))).

  (** The outer [except Exception] of [run_user_pipeline]: roll back, log
      the run as an error, return [None]. [SummaryGenerationError] is
      re-raised instead. *)
Definition pipeline_failed (w : world) (db : database) (owner : Z)
      (feed_source : string) (e : exn) : database * result (option briefing) :=
    match e with
    | SummaryGenerationError _ => (db, Raise e)
    | _ => (_log_scrape_run (t_failed w) db owner (t_started w) 0 0 feed_source
              ("error: " +:+ exn_str e), Ok None)
    end.

  (** Steps 4 and 5 of [run_user_pipeline]: summarize, store the briefing. *)
Definition summarize_and_store (w : world) (db : database) (owner : Z)
      (settings : user_settings) (found new_count : Z) (tweet_dicts : list dict)
    : database * result (option briefing) :=
    match generate_summary w tweet_dicts settings with
    | Ok summary =>
        let b := Briefing owner summary (Z.of_nat (length tweet_dicts))
                          (llm_provider settings) (prompt_preset settings)
                          (t_briefing w) in
        (Database (web_tweets db) (web_scrape_runs db) (briefings db ++ [b]),
         Ok (Some b))
    | Raise (SummaryGenerationError msg) =>
        (_log_scrape_run (t_failed w) db owner (t_started w) found new_count
           (feed_source settings) ("summary_error: " +:+ msg), Ok None)
    | Raise e => pipeline_failed w db owner (feed_source settings) e
    end.

  (** Step 3: the rows of the tenant stored within the summary window,
      latest first. *)
Definition recent_tweets (w : world) (db : database) (owner : Z)
      (settings : user_settings) : list tweet :=
    let cutoff := t_cutoff w - hours (summary_hours settings) in
    order_by_timestamp_desc w
      (List.filter (fun t => (user_id t =? owner) && (cutoff <=? scraped_at t))
                   (web_tweets db)).

  (** Steps 2 and 3: store the batch, log the run, load the recent rows. *)
Definition store_and_summarize `{Platform} (w : world) (db : database) (owner : Z)
      (settings : user_settings) (raw_tweets : list dict)
    : database * result (option briefing) :=
    match raw_tweets with
    | [] => (_log_scrape_run (t_logged w) db owner (t_started w) 0 0
               (feed_source settings) "no_tweets", Ok None)
    | _ =>
        match _store_tweets_batch (t_stored w) db owner raw_tweets with
        | Raise e => pipeline_failed w db owner (feed_source settings) e
        | Ok (new_count, db) =>
            let found := Z.of_nat (length raw_tweets) in
            let db := _log_scrape_run (t_logged w) db owner (t_started w)
                        found new_count (feed_source settings) "completed" in
            match recent_tweets w db owner settings with
            | [] => (db, Ok None)
            | recent => summarize_and_store w db owner settings found new_count
                          (tweet_dict <$> recent)
            end
        end
    end.

  (** [run_user_pipeline]: the database after the run and what the call
      returns or raises. *)
Definition run_user_pipeline `{Platform} (w : world) (owner : Z) (db : database)
    : database * result (option briefing) :=
    match settings_of w owner with
    | None => (db, Ok None)
    | Some settings =>
        let source := feed_source settings in
        if bool_decide (source = "api") then
          match api_fetch_feed w owner (max_tweets settings) with
          | Ok raw_tweets => store_and_summarize w db owner settings raw_tweets
          | Raise e => pipeline_failed w db owner source e
          end
        else if bool_decide (source = "scraper") then
          if disable_playwright w then
            (_log_scrape_run (t_logged w) db owner (t_started w) 0 0 source
               "error: playwright_disabled", Ok None)
          else
            match playwright_fetch_feed w owner (max_tweets settings) with
            | Ok raw_tweets => store_and_summarize w db owner settings raw_tweets
            | Raise (SessionExpiredError msg) =>
                let db := _log_scrape_run (t_logged w) db owner (t_started w) 0 0
                            source ("error: " +:+ msg) in
                pipeline_failed w db owner source (SessionExpiredError msg)
            | Raise e => pipeline_failed w db owner source e
            end
        else store_and_summarize w db owner settings []
    end.

  (** *** Reading the store *)

  (** The test of the insert loop: the record has an id that is not among
      the existing ones. *)
Definition is_new (existing_ids : gset pyval) (tweet_data : dict) : bool :=
    truthy (dict_get tweet_data "id")
    && negb (bool_decide (dict_get tweet_data "id" ∈ existing_ids)).

  (** The ids already stored for the tenant among those of the batch. *)
Definition existing_ids_of (db : database) (owner : Z) (raw_tweets : list dict)
    : gset pyval :=
    list_to_set
      (tweet_id <$> List.filter
         (fun r => bool_decide
                     (tweet_id r ∈ List.filter truthy
                                     ((fun t => dict_get t "id") <$> raw_tweets))
                   && (user_id r =? owner))
         (web_tweets db)).

  (** The database left by a call: a call that raises is rolled back. *)
Definition db_after (db : database) (r : result (Z * database)) : database :=
    match r with
    | Ok (_, db') => db'
    | Raise _ => db
    end.

  (** The second of two calls of [_store_tweets_batch] with the same batch. *)
Definition ingest_again `{Platform} (now now' : Z) (db : database) (owner : Z)
      (raw_tweets : list dict) : result (Z * database) :=
    _store_tweets_batch now'
      (db_after db (_store_tweets_batch now db owner raw_tweets)) owner raw_tweets.

  (** The feed provider chosen by the settings hands a batch to the
      orchestrator. *)
Definition fetched (w : world) (owner : Z) (settings : user_settings)
      (raw_tweets : list dict) : Prop :=
    (feed_source settings = "api"
     /\ api_fetch_feed w owner (max_tweets settings) = Ok raw_tweets)
    \/ (feed_source settings = "scraper" /\ disable_playwright w = false
        /\ playwright_fetch_feed w owner (max_tweets settings) = Ok raw_tweets).

End Web.

(** ** Retention trimming of the single-tenant store ([src/database.py]) *)
Module Cli.

  (** A row of [tweets]: the primary key, the other columns as given to
      [add_tweets], and the storage time. *)
Record tweet : Type := Tweet {
    id : string;
    columns : dict;
    scraped_at : Z
  }.

  (** [ORDER BY scraped_at DESC] on the storage times. *)
Definition desc (x y : Z) : Prop := y <= x.

Global Instance desc_dec : RelDecision desc.
  Proof. intros x y. unfold desc. apply _. Defined.

Definition order_desc (times : list Z) : list Z := merge_sort desc times.

  (** [Database.cleanup_old_tweets]: the number of rows deleted and the
      table after it. SQLite reads a negative [OFFSET] as zero. *)
Definition cleanup_old_tweets (keep_count : Z) (table : list tweet)
    : Z * list tweet :=
    let total := Z.of_nat (length table) in
    if total <=? keep_count then (0, table) else
    match order_desc (scraped_at <$> table) !! Z.to_nat (keep_count - 1) with
    | None => (0, table)
    | Some cutoff_tweet =>
        let deleted := List.filter (fun t => scraped_at t <? cutoff_tweet) table in
        (Z.of_nat (length deleted),
         List.filter (fun t => negb (scraped_at t <? cutoff_tweet)) table)
    end.

End Cli.

(** ** The live-API feed provider ([web/services/feed_providers/twitter_api.py]) *)
Module Api.

  (** The parts of a Twitter API v2 payload [_transform_tweet] reads. An
      absent key and a [null] both read as [None] through [.get]. *)
Record user : Type := User {
    username : option string;
    name : option string
  }.

Record referenced_tweet : Type := ReferencedTweet {
    ref_type : string;
    ref_id : string
  }.

Record public_metrics : Type := PublicMetrics {
    like_count : option Z;
    retweet_count : option Z;
    reply_count : option Z
  }.

Record tweet : Type := Tweet {
    id : string;
    author_id : option string;
    text : option string;
    created_at : option string;
    metrics : option public_metrics;
    referenced_tweets : list referenced_tweet;
    (** [entities.urls]: for each entity its [expanded_url], if any. *)
    entity_urls : option (list (option string))
  }.

  (** [users_map.get(key, {})] for an optional key. *)
Definition lookup_user (users_map : gmap string user) (key : option string)
    : option user := key ≫= fun k => users_map !! k.

  (** The [username] of the author of the referenced tweet. *)
Definition ref_author_username (users_map : gmap string user)
      (ref_tweets_map : gmap string tweet) (ref : referenced_tweet) : option string :=
    let ref_tweet := ref_tweets_map !! ref_id ref in
    let ref_author := lookup_user users_map (ref_tweet ≫= author_id) in
    ref_author ≫= username.

  (** The flags set by the [for ref in referenced_tweets] loop:
      [(is_retweet, is_reply, original_author, reply_to_handle)]. *)
Fixpoint ref_loop (users_map : gmap string user) (ref_tweets_map : gmap string tweet)
      (refs : list referenced_tweet) (acc : bool * bool * option string * option string)
    : bool * bool * option string * option string :=
    match refs with
    | [] => acc
    | ref :: rest =>
        let '(is_retweet, is_reply, original_author, reply_to_handle) := acc in
        if bool_decide (ref_type ref = "retweeted") then
          ref_loop users_map ref_tweets_map rest
            (true, is_reply, ref_author_username users_map ref_tweets_map ref,
             reply_to_handle)
        else if bool_decide (ref_type ref = "replied_to") then
          ref_loop users_map ref_tweets_map rest
            (is_retweet, true, original_author,
             ref_author_username users_map ref_tweets_map ref)
        else ref_loop users_map ref_tweets_map rest acc
    end.

Definition media_markers : list string := [ ".jpg"; ".png"; ".gif"; "pbs.twimg.com" ].

  (** The media URLs taken from the URL entities. *)
Definition media_of_entities (urls : option (list (option string))) : list string :=
    match urls with
    | Some ((_ :: _) as l) =>
        List.filter (fun expanded => existsb (fun ext => PyStr.contains ext expanded)
                                             media_markers)
                    (default "" <$> l)
    | _ => []
    end.

  (** [TwitterAPIProvider._transform_tweet] *)
Definition _transform_tweet (tw : tweet) (users_map : gmap string user)
      (ref_tweets_map : gmap string tweet) : dict :=
    let author := lookup_user users_map (author_id tw) in
    let '(is_retweet, is_reply, original_author, reply_to_handle) :=
      ref_loop users_map ref_tweets_map (referenced_tweets tw)
               (false, false, None, None) in
    let media_urls := media_of_entities (entity_urls tw) in
    <["reply_to_handle" := of_opt_str reply_to_handle]> (
    <["is_reply" := PBool is_reply]> (
    <["original_author" := of_opt_str original_author]> (
    <["is_retweet" := PBool is_retweet]> (
    <["media_urls" := if bool_decide (media_urls = []) then PNone else PList media_urls]> (
    <["replies" := of_opt_int (metrics tw ≫= reply_count)]> (
    <["retweets" := of_opt_int (metrics tw ≫= retweet_count)]> (
    <["likes" := of_opt_int (metrics tw ≫= like_count)]> (
    <["timestamp" := of_opt_str (created_at tw)]> (
    <["content" := of_opt_str (text tw)]> (
    <["author_name" := of_opt_str (author ≫= name)]> (
    <["author_handle" := of_opt_str (author ≫= username)]> (
    <["id" := PStr (id tw)]> ∅)))))))))))).

End Api.

(** ** The hourly scheduler ([web/scheduler_tasks.py]) *)
Module Scheduler.

Definition DUPLICATE_BRIEFING_HOURS : Z := 20.

  (** A row of the join of users, settings and subscriptions, already
      restricted to active users with an active or trialing subscription. *)
Record due_row : Type := DueRow {
    user_id : Z;
    schedule_hour : Z;
    timezone : string
  }.

  (** [_utc_hour_for_user], given the UTC offset of the zone in seconds
      ([None] when the zone is unknown: the hour is then read as UTC). The
      division by 3600, the remainder modulo 24 and the truncation of the
      source are exact for offsets of whole quarter hours. *)
Definition _utc_hour_for_user (utcoffset : string -> option Z)
      (schedule_hour : Z) (timezone : string) : Z :=
    match utcoffset timezone with
    | Some offset => ((schedule_hour * 3600 - offset) mod 86400) / 3600
    | None => schedule_hour
    end.

  (** The [for user, settings, subscription in rows] loop of
      [enqueue_due_users]: the user ids given to [redis.enqueue_job], in
      order. [now i] is the clock read in the [i]-th iteration. *)
Fixpoint enqueue_loop (utcoffset : string -> option Z) (current_utc_hour : Z)
      (now : nat -> Z) (redis : bool) (briefings : list Web.briefing)
      (i : nat) (rows : list due_row) : list Z :=
    match rows with
    | [] => []
    | row :: rest =>
        let continue := enqueue_loop utcoffset current_utc_hour now redis
                                     briefings (S i) rest in
        let user_utc_hour :=
          _utc_hour_for_user utcoffset (schedule_hour row) (timezone row) in
        if negb (user_utc_hour =? current_utc_hour) then continue else
        let cutoff := now i - Web.hours DUPLICATE_BRIEFING_HOURS in
        let recent :=
          List.filter (fun b => (Web.briefing_user_id b =? user_id row)
                                && (cutoff <=? Web.created_at b)) briefings in
        match recent with
        | _ :: _ => continue
        | [] => if redis then user_id row :: continue else continue
        end
    end.

Definition enqueue_due_users (utcoffset : string -> option Z) (current_utc_hour : Z)
      (now : nat -> Z) (redis : bool) (briefings : list Web.briefing)
      (rows : list due_row) : list Z :=
    enqueue_loop utcoffset current_utc_hour now redis briefings 0 rows.

End Scheduler.

(** The field set of the canonical tweet shape. *)
Definition canonical (d : dict) : Prop := dom d = list_to_set canonical_fields.

(** ** Reading batches, extraction steps and runs *)

(** The ids of a batch, and how often an id occurs in it. *)
Definition batch_ids (batch : list dict) : list pyval :=
  (fun t => dict_get t "id") <$> batch.

Definition occurrences (i : pyval) (batch : list dict) : nat :=
  length (List.filter (fun t => bool_decide (dict_get t "id" = i)) batch).

(** A batch as the acquisition loop builds it: the ids are pairwise
    distinct and truthy, and none is known to the oracle. *)
Definition clean_batch (stop_on_known : bool) (known_checker : option (pyval -> bool))
    (batch : list dict) : Prop :=
  NoDup (batch_ids batch)
  /\ Forall (fun t => truthy (dict_get t "id") = true
                      /\ is_known stop_on_known known_checker (dict_get t "id") = false)
            batch.

(** The invariant of the acquisition loop: the list is clean and its ids
    are among the seen ones. *)
Definition loop_inv (stop_on_known : bool) (known_checker : option (pyval -> bool))
    (st : loop_state) : Prop :=
  clean_batch stop_on_known known_checker (tweets st)
  /\ forall t, t ∈ tweets st -> dict_get t "id" ∈ seen_ids st.

(** The source attributes of the images that are not empty. *)
Definition image_sources (media_images : list element) : list string :=
  omap (fun img => nonempty (assoc "src" (el_attrs img))) media_images.

(** The handles the author loop accepts: a single path segment that is
    not a navigational one. *)
Definition plain_handle (h : string) : Prop :=
  PyStr.contains "/" h = false /\ is_navigational h = false.

(** A step of the extraction writes only the fields [fields]. *)
Definition writes_only (fields : list string) (f : dict -> Dom dict) : Prop :=
  forall (tweet_data : dict) (k : string),
    k ∉ fields -> dict_get (value (f tweet_data)) k = dict_get tweet_data k.

(** What a pipeline run may do to the database and return: the tables only
    grow; the run records added belong to the tenant; a briefing is added
    exactly when it is returned; the only exception let through is
    [SummaryGenerationError]. *)
Definition run_outcome (owner : Z) (db db' : Web.database)
    (r : result (option Web.briefing)) : Prop :=
  Web.web_tweets db `prefix_of` Web.web_tweets db'
  /\ Web.web_scrape_runs db `prefix_of` Web.web_scrape_runs db'
  /\ Forall (fun run => Web.run_user_id run = owner)
            (drop (length (Web.web_scrape_runs db)) (Web.web_scrape_runs db'))
  /\ match r with
     | Ok (Some b) => Web.briefings db' = Web.briefings db ++ [b]
                      /\ Web.briefing_user_id b = owner
     | Ok None => Web.briefings db' = Web.briefings db
     | Raise e => Web.briefings db' = Web.briefings db
                  /\ exists msg, e = SummaryGenerationError msg
     end.

(** Whether a row of the scheduler is due at its turn [i]: its hour matches
    and no briefing of its user is as recent as the cutoff read then. *)
Definition due (utcoffset : string -> option Z) (current_utc_hour : Z) (now : nat -> Z)
    (briefings : list Web.briefing) (i : nat) (row : Scheduler.due_row) : bool :=
  (Scheduler._utc_hour_for_user utcoffset (Scheduler.schedule_hour row)
                                (Scheduler.timezone row) =? current_utc_hour)
  && forallb (fun b => negb ((Web.briefing_user_id b =? Scheduler.user_id row)
                             && (now i - Web.hours Scheduler.DUPLICATE_BRIEFING_HOURS
                                 <=? Web.created_at b))) briefings.

(** ** Session checks ([XFeedScraper.check_session], [PlaywrightFeedProvider]) *)

(** What the browser shows after the navigation to the home feed: the URL
    it ended on and whether the compose button is there; or an error of the
    browser with its message. *)
Inductive landing : Type :=
  | Landed (current_url : string) (compose_button : bool)
  | BrowserError (msg : string).

(** The negative signal of both session checks: the URL of the login page
    or of the onboarding flow. *)
Definition redirected_to_login (current_url : string) : bool :=
  PyStr.contains "/login" current_url || PyStr.contains "/i/flow/" current_url.

(** [XFeedScraper.check_session] *)
Definition check_session (l : landing) : bool :=
  match l with
  | BrowserError _ => false
  | Landed current_url compose_button =>
      if redirected_to_login current_url then false
      else if compose_button then true
      else if PyStr.contains "x.com/home" current_url then true
      else false
  end.

Module PlaywrightProvider.

Definition SESSION_EXPIRED : string :=
  "X.com browser session expired. Run 'python login_helper.py' to re-login.".

(** [PlaywrightFeedProvider.fetch_feed]: the session check after the first
    navigation, then [scrape_feed] without stop and without oracle. The
    loop always returns; the empty list stands for a loop out of fuel. *)
Definition fetch_feed `{Platform} (l : landing) (pg : page) (max_tweets : Z)
  : result (list dict) :=
  match l with
  | BrowserError msg => Raise (OtherError msg)
  | Landed current_url _ =>
      if redirected_to_login current_url then Raise (SessionExpiredError SESSION_EXPIRED)
      else Ok (default [] (fst <$> scrape_feed max_tweets false None pg))
  end.

End PlaywrightProvider.

Module ApiProvider.

(** The parts of the timeline response [fetch_feed] reads: the tweets of
    [data], if the key is there, and the users and tweets of [includes],
    each user with its id. *)
Record response : Type := Response {
  data : option (list Api.tweet);
  includes_users : list (string * Api.user);
  includes_tweets : list Api.tweet
}.

(** [users_map[u["id"]] = u] and [ref_tweets_map[rt["id"]] = rt], in the
    order of the response. *)
Definition build_users_map (users : list (string * Api.user)) : gmap string Api.user :=
  fold_left (fun m u => <[u.1 := u.2]> m) users ∅.

Definition build_ref_tweets_map (tweets : list Api.tweet) : gmap string Api.tweet :=
  fold_left (fun m t => <[Api.id t := t]> m) tweets ∅.

(** [TwitterAPIProvider.fetch_feed] from the decoded response on. *)
Definition fetch_feed (r : response) : list dict :=
  match data r with
  | None => []
  | Some tweets =>
      let users_map := build_users_map (includes_users r) in
      let ref_tweets_map := build_ref_tweets_map (includes_tweets r) in
      (fun tw => Api._transform_tweet tw users_map ref_tweets_map) <$> tweets
  end.

(** Whether a reference of the type [kind] is among the references. *)
Definition has_type (kind : string) (refs : list Api.referenced_tweet) : bool :=
  existsb (fun ref => bool_decide (Api.ref_type ref = kind)) refs.

End ApiProvider.

(** ** Test doubles: a fake page and a fake platform *)
Module Fake.

  (** A link with an [href] and a text. *)
Definition link (href text : string) : element :=
    Element [("href", href)] text None [].

  (** An engagement button showing [text] in its inner span, without an
      aria-label. *)
Definition button (text : string) : element :=
    Element [] text None [("span span", [Element [] text None []])].

  (** An article with permalinks, profile links, an optional social
      context line and an optional like button. *)
Definition article (permalinks : list string) (user_links : list element)
      (social_context : option string) (like : option element) : element :=
    Element [] "" None
      [ (STATUS_LINK_SELECTOR, (fun h => link h "") <$> permalinks);
        (USER_LINK_SELECTOR, user_links);
        (SOCIAL_CONTEXT_SELECTOR,
         from_option (fun t => [Element [] t None []]) [] social_context);
        ("[data-testid='like']", from_option (fun b => [b]) [] like) ].

  (** A plain post of [@user] with the given status id. *)
Definition post (user status : string) : element :=
    article ["/" +:+ user +:+ "/status/" +:+ status] [link ("/" +:+ user) user]
            None None.

  (** A platform that knows [https://host/...] URLs and no timestamp. *)
Definition platform : Platform :=
    {| urlparse := fun s =>
         if PyStr.startswith s "https://"
         then Some ("https", PyStr.of_chars (drop 8 (PyStr.chars s)))
         else None;
       fromisoformat := fun _ => None |}.

  (** A page that renders the same articles on every pass. *)
Definition static_page (articles : list element) : page :=
    Page true (fun _ => Pass (Some articles) true).

  (** A repost: [@alice] reposted a post of [@bob]. The first profile link
      is the one of the social context line. *)
Definition repost : element :=
    article ["/bob/status/123"] [link "/alice" "Alice reposted"; link "/bob" "Bob"]
            (Some "Alice reposted") None.

  (** An oracle that knows the given ids. *)
Definition knows (ids : list string) : option (pyval -> bool) :=
    Some (fun i => bool_decide (i ∈ PStr <$> ids)).

  (** A record with only an id. *)
Definition record (i : string) : dict := <["id" := PStr i]> empty_tweet_data.

  (** A record without an id. *)
Definition anonymous : dict := <["content" := PStr "no permalink"]> empty_tweet_data.

Definition empty_db : Web.database := Web.Database [] [] [].

  (** The status id of the [n]-th post of an endless feed: [n + 1] ones. *)
Fixpoint ones (n : nat) : string :=
    match n with
    | O => "1"
    | S n' => String "1"%char (ones n')
    end.

  (** An endless feed: each scroll brings one more post into view. *)
Definition endless_page : page :=
    Page true (fun n => Pass (Some [post "bob" (ones n)]) true).

  (** A table of [n] rows stored one per clock tick, and one whose rows
      all carry the same storage time. *)
Definition ticking_table (n : nat) : list Cli.tweet :=
    (fun k => Cli.Tweet (ones k) ∅ (Z.of_nat k)) <$> seq 0 n.

Definition same_tick_table (n : nat) : list Cli.tweet :=
    (fun k => Cli.Tweet (ones k) ∅ 1700000000) <$> seq 0 n.

  (** A tenant on the API feed whose summarizer fails with [reason]. *)
Definition api_settings : Web.user_settings :=
    Web.UserSettings "api" 10 24 "openai" None "default" None.

Definition failing_world (reason : string) : Web.world :=
    Web.World (fun _ => Some api_settings)
              (fun _ _ => Ok [record "1"; record "2"])
              (fun _ _ => Raise (SessionExpiredError "expired"))
              true
              (fun _ _ => Raise (SummaryGenerationError reason))
              (fun rows => rows)
              100 101 102 103 104 105.

  (** A plain API tweet without entities, and one whose only URL entity
      is not a URL but names a picture. *)
Definition api_plain : Api.tweet :=
    Api.Tweet "1" (Some "u1") (Some "hello") (Some "2024-05-01T10:00:00.000Z")
              (Some (Api.PublicMetrics (Some 3) (Some 1) (Some 0))) [] None.

Definition api_odd_url : Api.tweet :=
    Api.Tweet "2" (Some "u1") (Some "look") None None [] (Some [Some "see photo.jpg"]).

  (** A post of [@bob] whose like button shows a compact count. *)
Definition liked_post : element :=
    article ["/bob/status/7"] [link "/bob" "Bob"] None (Some (button "1.2K")).

  (** A reply of [@bob] to [@carol]. *)
Definition reply_post : element :=
    Element [] "Bob Replying to @carol thanks" None
      [ (STATUS_LINK_SELECTOR, [link "/bob/status/8" ""]);
        (USER_LINK_SELECTOR, [link "/bob" "Bob"; link "/carol" "@carol"]) ].

  (** A tenant on the scraper feed whose browser session has expired. *)
Definition scraper_settings : Web.user_settings :=
    Web.UserSettings "scraper" 10 24 "openai" None "default" None.

Definition expired_world : Web.world :=
    Web.World (fun _ => Some scraper_settings)
              (fun _ _ => Ok [])
              (fun _ _ => Raise (SessionExpiredError "expired"))
              false
              (fun _ _ => Ok "summary")
              (fun rows => rows)
              100 101 102 103 104 105.

  (** A timeline response with two tweets and no includes. *)
Definition api_timeline : ApiProvider.response :=
    ApiProvider.Response (Some [api_plain; api_odd_url]) [] [].

  (** Two users due at 7 UTC, the first with a briefing five hours old. *)
Definition due_rows : list Scheduler.due_row :=
    [Scheduler.DueRow 1 8 "Europe/Berlin"; Scheduler.DueRow 2 7 "UTC"].

Definition utcoffset (tz : string) : option Z :=
    if bool_decide (tz = "Europe/Berlin") then Some 3600
    else if bool_decide (tz = "UTC") then Some 0 else None.

Definition old_briefings : list Web.briefing :=
    [ Web.Briefing 1 "a" 5 "openai" "default" (Web.hours 995);
      Web.Briefing 2 "b" 5 "openai" "default" (Web.hours 970) ].

End Fake.

(** * Properties *)

(** ** The trace monad *)

Lemma value_bind {A B : Type} (m : Dom A) (f : A -> Dom B) :
  value (m ≫= f) = value (f (value m)).
Proof. reflexivity. Qed.

Lemma calls_bind {A B : Type} (m : Dom A) (f : A -> Dom B) :
  calls (m ≫= f) = calls m ++ calls (f (value m)).
Proof. reflexivity. Qed.

Lemma Dom_eta {A : Type} (m : Dom A) : m = mkDom (value m) (calls m).
Proof. by destruct m. Qed.

(** ** Engagement counts *)

Lemma parse_compact_count_3M : parse_compact_count "3M" = Some 3000000.
Proof. reflexivity. Qed.

Lemma parse_compact_count_42 : parse_compact_count "42" = Some 42.
Proof. reflexivity. Qed.

Lemma parse_compact_count_thousands_separator :
  parse_compact_count "1,234" = Some 1234 /\ parse_compact_count "1.234" = Some 1234.
Proof. split; reflexivity. Qed.

Lemma parse_compact_count_unparseable :
  parse_compact_count "abc" = None /\ parse_compact_count "K" = None
  /\ parse_compact_count "1.2B" = None /\ parse_compact_count "-5" = None.
Proof. repeat split; reflexivity. Qed.

Lemma digits_val_nonneg (l : list ascii) (acc : Z) :
  0 <= acc ->
  0 <= fold_left (fun a c => 10 * a + PyStr.digit_val c) l acc.
Proof.
  revert acc. induction l as [|c l IH]; intros acc Hacc; simpl; [done|].
  apply IH. unfold PyStr.digit_val. lia.
Qed.

Lemma int_nonneg (s : string) (n : Z) : PyStr.int s = Some n -> 0 <= n.
Proof.
  unfold PyStr.int. destruct (PyStr.isdigit s); [|discriminate].
  intros [= <-]. apply digits_val_nonneg. lia.
Qed.

(** A count is never negative. *)
Lemma parse_compact_count_nonneg (text : string) (n : Z) :
  parse_compact_count text = Some n -> 0 <= n.
Proof.
  unfold parse_compact_count.
  generalize (PyStr.upper (PyStr.strip text)). intros t.
  assert (forall (c : string) (m : Z),
             0 <= m ->
             (if PyStr.isdigit c then (fun k => k * m) <$> PyStr.int c else None)
             = Some n -> 0 <= n) as Hcase.
  { intros c m Hm. destruct (PyStr.isdigit c); [|discriminate].
    destruct (PyStr.int c) as [k|] eqn:Hk; [|discriminate].
    apply int_nonneg in Hk. intros [= <-]. lia. }
  destruct (PyStr.endswith t "K"); [|destruct (PyStr.endswith t "M")];
    apply Hcase; lia.
Qed.

(** C1. The K/M fallback of [_extract_engagement] removes the decimal point
    before it multiplies: the text [1.2K] is read as the digits [12] times
    1000, that is 12000 and not 1200, both in the parser itself and through
    the like button of an article. ([3M] gives 3000000, [42] gives 42, and
    a text that is not a number gives no count.) *)
Theorem engagement_fallback_drops_decimal_point :
  parse_compact_count "1.2K" = Some 12000
  /\ value (_extract_engagement
              (Fake.article [] [] None (Some (Fake.button "1.2K"))) "like")
     = Some 12000
  /\ parse_compact_count "3M" = Some 3000000
  /\ parse_compact_count "42" = Some 42
  /\ parse_compact_count "n/a" = None.
Proof. repeat split; reflexivity. Qed.

(** ** Dictionaries *)

Lemma dict_get_insert (d : dict) (k k' : string) (v : pyval) :
  dict_get (<[k := v]> d) k' = if decide (k = k') then v else dict_get d k'.
Proof.
  unfold dict_get. rewrite lookup_insert. by case_decide.
Qed.

Lemma dict_get_insert_eq (d : dict) (k : string) (v : pyval) :
  dict_get (<[k := v]> d) k = v.
Proof. rewrite dict_get_insert. by case_decide. Qed.

Lemma dict_get_insert_ne (d : dict) (k k' : string) (v : pyval) :
  k ≠ k' -> dict_get (<[k := v]> d) k' = dict_get d k'.
Proof. intros. rewrite dict_get_insert. by case_decide. Qed.

(** ** Extraction: identity first, author resolution *)

(** Once the first profile link has given the author, the loop is left:
    [original_author] is never written when the author is not yet set. *)
Lemma author_loop_first_link (user_links : list element) (tweet_data : dict) :
  dict_get tweet_data "author_handle" = PNone ->
  dict_get (value (author_loop user_links tweet_data)) "original_author"
  = dict_get tweet_data "original_author".
Proof.
  intros Hnone. induction user_links as [|link rest IH]; [done|].
  cbn [author_loop]. rewrite value_bind.
  destruct (profile_handle _) as [handle|]; [|done].
  destruct (is_navigational handle); cbn [negb]; [done|].
  rewrite bool_decide_true by done.
  rewrite value_bind.
  destruct (value (query_selector link "span")); [rewrite value_bind|]; cbn [value mret Dom_ret];
    rewrite ?dict_get_insert_ne by done; done.
Qed.

Lemma search_status_nonempty (s i : string) :
  PyStr.search_status s = Some i -> i ≠ "".
Proof.
  unfold PyStr.search_status.
  destruct (PyStr.search_status_chars (PyStr.chars s)) as [ds|] eqn:Hs; [|done].
  intros [= <-].
  assert (ds ≠ []) as Hne.
  { clear -Hs. revert Hs. generalize (PyStr.chars s). intros l.
    induction l as [|c l IH]; intros Hs.
    - cbn in Hs. done.
    - cbn [PyStr.search_status_chars] in Hs.
      destruct (PyStr.prefix_chars _ _).
      + destruct (PyStr.span_chars _ _).1 eqn:E; [by apply IH|].
        by injection Hs as <-.
      + by apply IH. }
  destruct ds; [done|]. done.
Qed.

Lemma status_id_of_links_nonempty (links : list element) (i : string) :
  value (status_id_of_links links) = Some i -> i ≠ "".
Proof.
  induction links as [|link rest IH]; [done|].
  cbn [status_id_of_links]. rewrite value_bind.
  destruct (nonempty _) as [h|]; [|done].
  destruct (PyStr.search_status h) eqn:E; [|done].
  intros [= <-]. by eapply search_status_nonempty.
Qed.

Lemma _extract_tweet_id_nonempty (article : element) (i : string) :
  value (_extract_tweet_id article) = Some i -> i ≠ "".
Proof.
  unfold _extract_tweet_id. rewrite !value_bind.
  destruct (value (status_id_of_links _)) eqn:E.
  - intros [= <-]. by eapply status_id_of_links_nonempty.
  - rewrite value_bind. destruct (value (query_selector _ _)); [|done].
    rewrite value_bind. destruct (nonempty _); [|done].
    apply search_status_nonempty.
Qed.

Lemma author_loop_id (user_links : list element) (tweet_data : dict) :
  dict_get (value (author_loop user_links tweet_data)) "id" = dict_get tweet_data "id".
Proof.
  induction user_links as [|link rest IH]; [done|].
  cbn [author_loop]. rewrite value_bind.
  destruct (profile_handle _) as [handle|]; [|done].
  destruct (is_navigational handle); cbn [negb]; [done|].
  repeat case_bool_decide; repeat (destruct (truthy _)); cbn [andb];
    rewrite ?value_bind;
    try destruct (value (query_selector link "span")); rewrite ?value_bind;
    cbn [value mret Dom_ret]; rewrite ?dict_get_insert_ne by done; done.
Qed.

Lemma reply_loop_id (reply_links : list element) (tweet_data : dict) :
  dict_get (value (reply_loop reply_links tweet_data)) "id" = dict_get tweet_data "id".
Proof.
  induction reply_links as [|link rest IH]; [done|].
  cbn [reply_loop]. rewrite !value_bind.
  destruct (_ && _); [|done].
  cbn [value mret Dom_ret]. by rewrite !dict_get_insert_ne.
Qed.

Lemma _extract_reply_context_id (article : element) (tweet_data : dict) :
  dict_get (value (_extract_reply_context article tweet_data)) "id"
  = dict_get tweet_data "id".
Proof.
  unfold _extract_reply_context. rewrite !value_bind.
  set (td := value (if existsb _ _ then _ else _)).
  assert (dict_get td "id" = dict_get tweet_data "id") as Htd.
  { subst td. destruct (existsb _ _); [|done].
    rewrite value_bind. apply reply_loop_id. }
  destruct (negb _); [|done].
  rewrite value_bind. destruct (_ <? _)%nat; cbn [value mret Dom_ret];
    rewrite ?dict_get_insert_ne by done; done.
Qed.

Lemma _extract_author_info_id (article : element) (tweet_data : dict) :
  dict_get (value (_extract_author_info article tweet_data)) "id"
  = dict_get tweet_data "id".
Proof. unfold _extract_author_info. rewrite value_bind. apply author_loop_id. Qed.

(** The record [_parse_tweet] returns for an article with the id [i]. *)
Definition parsed `{Platform} (article : element) (i : option string) : dict :=
  value (extract_metrics_and_media article
    (value (extract_timestamp article
      (value (_extract_reply_context article
        (value (extract_content article
          (value (_extract_author_info article
            (value (check_retweet article
              (<["id" := of_opt_str i]> empty_tweet_data)))))))))))).

Lemma _parse_tweet_value `{Platform} (article : element) :
  value (_parse_tweet article)
  = let i := value (_extract_tweet_id article) in
    if negb (truthy (of_opt_str i)) then None else Some (parsed article i).
Proof.
  unfold _parse_tweet, parsed. rewrite value_bind. cbv zeta.
  rewrite dict_get_insert_eq. by destruct (negb _).
Qed.

Lemma check_retweet_id (article : element) (tweet_data : dict) :
  dict_get (value (check_retweet article tweet_data)) "id" = dict_get tweet_data "id".
Proof.
  unfold check_retweet. rewrite value_bind.
  destruct (value (query_selector _ _)); [|done].
  rewrite value_bind. destruct (_ || _); [|done].
  cbn [value mret Dom_ret]. by rewrite dict_get_insert_ne.
Qed.

Lemma extract_content_id (article : element) (tweet_data : dict) :
  dict_get (value (extract_content article tweet_data)) "id" = dict_get tweet_data "id".
Proof.
  unfold extract_content. rewrite value_bind.
  destruct (value (query_selector _ _)); [|done].
  rewrite value_bind. cbn [value mret Dom_ret]. by rewrite dict_get_insert_ne.
Qed.

Lemma extract_timestamp_id `{Platform} (article : element) (tweet_data : dict) :
  dict_get (value (extract_timestamp article tweet_data)) "id" = dict_get tweet_data "id".
Proof.
  unfold extract_timestamp. rewrite value_bind.
  destruct (value (query_selector _ _)); [|done].
  rewrite value_bind. cbn [value mret Dom_ret]. by rewrite dict_get_insert_ne.
Qed.

Lemma extract_metrics_and_media_value `{Platform} (article : element) (tweet_data : dict) :
  value (extract_metrics_and_media article tweet_data)
  = <["media_urls" := PList (value (_extract_media_urls article))]>
      (<["replies" := of_opt_int (value (_extract_engagement article "reply"))]>
         (<["retweets" := of_opt_int (value (_extract_engagement article "retweet"))]>
            (<["likes" := of_opt_int (value (_extract_engagement article "like"))]>
               tweet_data))).
Proof. reflexivity. Qed.

Lemma parsed_id `{Platform} (article : element) (i : option string) :
  dict_get (parsed article i) "id" = of_opt_str i.
Proof.
  unfold parsed. rewrite extract_metrics_and_media_value.
  rewrite !dict_get_insert_ne by done.
  rewrite extract_timestamp_id, _extract_reply_context_id, extract_content_id,
    _extract_author_info_id, check_retweet_id.
  apply dict_get_insert_eq.
Qed.

Lemma _parse_tweet_id `{Platform} (article : element) :
  match value (_extract_tweet_id article) with
  | None => _parse_tweet article = mkDom None (calls (_extract_tweet_id article))
  | Some i =>
      i ≠ "" /\
      exists tweet, value (_parse_tweet article) = Some tweet
                    /\ dict_get tweet "id" = PStr i
  end.
Proof.
  destruct (value (_extract_tweet_id article)) as [i|] eqn:E.
  - pose proof (_extract_tweet_id_nonempty _ _ E) as Hne. split; [done|].
    rewrite _parse_tweet_value, E. cbn [of_opt_str from_option truthy].
    rewrite bool_decide_false by done. cbn [negb].
    eexists. split; [done|]. apply parsed_id.
  - unfold _parse_tweet. rewrite (Dom_eta (_ ≫= _)).
    rewrite value_bind, calls_bind, E. cbv zeta. rewrite dict_get_insert_eq.
    cbn. by rewrite app_nil_r.
Qed.

Lemma _extract_author_info_first_link (article : element) (tweet_data : dict) :
  dict_get tweet_data "author_handle" = PNone ->
  dict_get (value (_extract_author_info article tweet_data)) "original_author"
  = dict_get tweet_data "original_author".
Proof.
  intros Hnone. unfold _extract_author_info. rewrite value_bind.
  by apply author_loop_first_link.
Qed.

(** C7. On a repost whose first profile link is the amplifier [@alice] and
    whose second is the original author [@bob], the engine leaves the loop
    at the first link: the record has [author_handle = alice] and no
    [original_author], where the claim has [author_handle = bob] and
    [original_author = alice]. *)
Theorem repost_author_is_first_link :
  (fun tweet => (dict_get tweet "is_retweet", dict_get tweet "author_handle",
                 dict_get tweet "original_author"))
    <$> value (@_parse_tweet Fake.platform Fake.repost)
  = Some (PBool true, PStr "alice", PNone).
Proof. vm_compute. reflexivity. Qed.

(** C5, extraction. Without an id the engine returns [None] having made
    only the calls of the id extraction; with an id the record carries it,
    and it is not empty. *)
Lemma _parse_tweet_examples :
  @_parse_tweet Fake.platform (Fake.article ["/bob/photo/1"] [Fake.link "/bob" "Bob"] None None)
  = mkDom None [QuerySelectorAll STATUS_LINK_SELECTOR; GetAttribute "href";
                QuerySelector "a time"]
  /\ (fun t => dict_get t "id") <$> value (@_parse_tweet Fake.platform (Fake.post "bob" "42"))
     = Some (PStr "42").
Proof. split; vm_compute; reflexivity. Qed.

(** ** The acquisition loop *)

Lemma known_run_cons (before : nat) (c : item_class) (cs : list item_class) :
  known_run before (c :: cs) = known_run (run_step before c) cs.
Proof.
  unfold known_run. cbn [after_last_new].
  destruct (after_last_new cs) as [r|]; [done|].
  destruct c; cbn; unfold count_known; cbn; lia.
Qed.

Section LoopFacts.
Context `{Platform}.
Variable max_tweets : Z.
Variable stop_on_known : bool.
Variable known_checker : option (pyval -> bool).

Local Abbreviation scan := (for_articles max_tweets stop_on_known known_checker).
Local Abbreviation class_of := (classify stop_on_known known_checker).
Local Abbreviation classes_of := (classes stop_on_known known_checker).
Local Abbreviation loop := (scrape_loop max_tweets stop_on_known known_checker).
Local Abbreviation step := (advance stop_on_known known_checker).
Local Abbreviation completes := (completes_run stop_on_known known_checker).

  (** One step of the [for] loop. *)
Lemma for_articles_cons (article : element) (rest : list element) (st : loop_state) :
    scan (article :: rest) st =
    if max_tweets <=? Z.of_nat (length (tweets st)) then Continue st
    else if completes st article then Return (tweets st)
    else scan rest (step st article).
  Proof.
    cbn [for_articles]. unfold completes_run, advance, classify, fresh_id.
    destruct (_ <=? _); [done|].
    destruct (value (_parse_tweet article)) as [tweet|]; [|done].
    destruct (truthy _ && _); [|done].
    destruct (is_known _ _ _); [|done].
    by destruct (_ <=? _)%nat.
  Qed.

Lemma advance_seen (st : loop_state) (article : element) :
    seen_ids (step st article) = see (seen_ids st) article.
  Proof.
    unfold advance, see, fresh_id.
    destruct (value (_parse_tweet article)); [|done].
    destruct (truthy _ && _); [|done]. by destruct (is_known _ _ _).
  Qed.

Lemma advance_run (st : loop_state) (article : element) :
    consecutive_known (step st article)
    = run_step (consecutive_known st) (class_of (seen_ids st) article).
  Proof.
    unfold advance, classify, fresh_id.
    destruct (value (_parse_tweet article)); [|done].
    destruct (truthy _ && _); [|done]. by destruct (is_known _ _ _).
  Qed.

Lemma advance_below (st : loop_state) (article : element) :
    (consecutive_known st < MAX_CONSECUTIVE_KNOWN)%nat ->
    completes st article = false ->
    (consecutive_known (step st article) < MAX_CONSECUTIVE_KNOWN)%nat.
  Proof.
    rewrite advance_run. unfold completes_run, MAX_CONSECUTIVE_KNOWN.
    destruct (class_of _ _); cbn [run_step]; [lia| |lia].
    intros _ Hc. apply Nat.leb_gt in Hc. lia.
  Qed.

Lemma completes_run_iff (st : loop_state) (article : element) :
    (consecutive_known st < MAX_CONSECUTIVE_KNOWN)%nat ->
    completes st article = true <->
    known_run (consecutive_known st) [class_of (seen_ids st) article]
    = MAX_CONSECUTIVE_KNOWN.
  Proof.
    unfold completes_run, MAX_CONSECUTIVE_KNOWN, known_run. intros Hc.
    destruct (class_of _ _), (consecutive_known st) as [|[|[|?]]];
      cbn; split; intros ?; try lia; done.
  Qed.

Lemma for_articles_app (pre post : list element) (st : loop_state) :
    scan (pre ++ post) st =
    match scan pre st with
    | Continue st' => scan post st'
    | Return ts => Return ts
    end.
  Proof.
    revert st. induction pre as [|a pre IH]; intros st; [done|].
    rewrite <- app_comm_cons, !for_articles_cons.
    destruct (_ <=? _) eqn:Hcap.
    { destruct post; [done|]. by rewrite for_articles_cons, Hcap. }
    destruct (completes st a); [done|apply IH].
  Qed.

  (** The early return happens exactly at the first article that completes
      an uninterrupted run of three known records. *)
Lemma for_articles_Return (articles : list element) (st : loop_state)
      (ts : list dict) :
    (consecutive_known st < MAX_CONSECUTIVE_KNOWN)%nat ->
    scan articles st = Return ts <->
    exists pre a post st',
      articles = pre ++ a :: post
      /\ scan pre st = Continue st'
      /\ Z.of_nat (length (tweets st')) < max_tweets
      /\ ts = tweets st'
      /\ known_run (consecutive_known st) (classes_of (seen_ids st) (pre ++ [a]))
         = MAX_CONSECUTIVE_KNOWN.
  Proof.
    intros Hc. split.
    - revert st Hc. induction articles as [|a rest IH]; intros st Hc; [done|].
      rewrite for_articles_cons.
      destruct (_ <=? _) eqn:Hcap; [done|]. apply Z.leb_gt in Hcap.
      destruct (completes st a) eqn:Hrun.
      + intros [= <-]. exists [], a, rest, st. repeat split; [done|].
        by apply completes_run_iff.
      + intros Hret.
        destruct (IH _ (advance_below _ _ Hc Hrun) Hret)
          as (pre & a0 & post & st' & -> & Hpre & Hroom & -> & Hk).
        exists (a :: pre), a0, post, st'. repeat split; [|done|].
        * rewrite for_articles_cons, (proj2 (Z.leb_gt _ _)), Hrun; done.
        * rewrite <- app_comm_cons. cbn [classes]. rewrite known_run_cons.
          by rewrite <- advance_seen, <- advance_run.
    - intros (pre & a & post & st' & -> & Hpre & Hroom & -> & Hk).
      rewrite for_articles_app, Hpre.
      rewrite for_articles_cons, (proj2 (Z.leb_gt _ _)) by done.
      enough (completes st' a = true) as -> by done.
      revert st Hc Hpre Hk. induction pre as [|b pre IH]; intros st Hc Hpre Hk.
      + injection Hpre as <-. by apply completes_run_iff.
      + rewrite for_articles_cons in Hpre.
        destruct (_ <=? _) eqn:Hcap.
        { injection Hpre as <-. apply Z.leb_le in Hcap. lia. }
        destruct (completes st b) eqn:Hrun; [done|].
        apply (IH _ (advance_below _ _ Hc Hrun) Hpre).
        rewrite <- app_comm_cons in Hk. cbn [classes] in Hk.
        rewrite known_run_cons in Hk. by rewrite advance_seen, advance_run.
  Qed.

Lemma advance_length (st : loop_state) (article : element) :
    (length (tweets st) <= length (tweets (step st article))
     <= S (length (tweets st)))%nat
    /\ scroll_count (step st article) = scroll_count st.
  Proof.
    unfold advance.
    destruct (fresh_id _ _), (value (_parse_tweet article));
      try destruct (is_known _ _ _); cbn; rewrite ?length_app; cbn; split; (lia || done).
  Qed.

  (** The [for] loop never takes the list beyond the cap. *)
Lemma for_articles_bound (articles : list element) (st : loop_state) :
    Z.of_nat (length (tweets st)) <= max_tweets ->
    match scan articles st with
    | Continue st' =>
        (length (tweets st) <= length (tweets st'))%nat
        /\ Z.of_nat (length (tweets st')) <= max_tweets
        /\ scroll_count st' = scroll_count st
    | Return ts => Z.of_nat (length ts) <= max_tweets
    end.
  Proof.
    revert st. induction articles as [|a rest IH]; intros st Hle; [done|].
    rewrite for_articles_cons.
    destruct (_ <=? _) eqn:Hcap; [done|]. apply Z.leb_gt in Hcap.
    destruct (completes _ _); [done|].
    destruct (advance_length st a) as [Hlen Hsc].
    specialize (IH (step st a)).
    destruct (scan rest _); [|apply IH; lia].
    destruct IH as (? & ? & ?); [lia|]. repeat split; [lia|done|congruence].
  Qed.

  (** The loop returns, with at most [max_tweets] records and after at most
      [max_scrolls] scrolls, as soon as the fuel covers the scroll budget. *)
Lemma scrape_loop_bound (pg : page) (fuel : nat) (st : loop_state) :
    Z.of_nat (length (tweets st)) <= max_tweets ->
    Z.of_nat (scroll_count st) <= max_scrolls max_tweets ->
    max_scrolls max_tweets <= Z.of_nat (scroll_count st) + Z.of_nat fuel ->
    exists ts n,
      loop pg fuel st = Some (ts, n)
      /\ Z.of_nat (length ts) <= max_tweets
      /\ Z.of_nat n <= max_scrolls max_tweets.
  Proof.
    revert st. induction fuel as [|fuel IH]; intros st Hlen Hsc Hfuel.
    - cbn [scrape_loop]. rewrite (proj2 (Z.ltb_ge (Z.of_nat (scroll_count st)) _)) by lia.
      rewrite andb_false_r. eauto.
    - cbn [scrape_loop].
      destruct (_ && _) eqn:Hguard; [|eauto].
      apply andb_true_iff in Hguard as [Hg1 Hg2]. apply Z.ltb_lt in Hg1, Hg2.
      pose proof (for_articles_bound (default [] (rendered (passes pg (scroll_count st)))) st Hlen) as Hb.
      destruct (scan _ st) as [st'|ts].
      + destruct Hb as (_ & Hlen' & Hsc').
        destruct (scroll_ok _).
        * apply IH; cbn; lia.
        * eexists _, _. split; [done|]. split; [done|]. lia.
      + eexists _, _. split; [done|]. split; [done|]. lia.
  Qed.

Lemma scrape_feed_bound (pg : page) :
    0 < max_tweets ->
    exists ts n,
      scrape_feed max_tweets stop_on_known known_checker pg = Some (ts, n)
      /\ Z.of_nat (length ts) <= max_tweets
      /\ Z.of_nat n <= max_tweets * 2.
  Proof.
    intros Hpos. unfold scrape_feed. destruct (goto_ok pg).
    - apply scrape_loop_bound; unfold max_scrolls, SCROLL_MULTIPLIER; cbn; lia.
    - eexists _, _. split; [done|]. cbn. lia.
  Qed.

  (** More fuel does not change what the loop returns. *)
Lemma scrape_loop_fuel (pg : page) (fuel fuel' : nat) (st : loop_state) r :
    (fuel <= fuel')%nat -> loop pg fuel st = Some r -> loop pg fuel' st = Some r.
  Proof.
    revert fuel' st. induction fuel as [|fuel IH]; intros fuel' st Hle.
    - cbn [scrape_loop]. destruct (_ && _) eqn:Hg; [done|].
      destruct fuel'; cbn [scrape_loop]; by rewrite Hg.
    - destruct fuel' as [|fuel']; [lia|]. cbn [scrape_loop].
      destruct (_ && _); [|done].
      destruct (scan _ st); [|done]. destruct (scroll_ok _); [|done].
      apply IH. lia.
  Qed.

Lemma fresh_id_Some (seen : gset pyval) (article : element) (i : pyval) :
    fresh_id seen article = Some i <-> record_id article = Some i /\ i ∉ seen.
  Proof.
    unfold record_id, fresh_id.
    destruct (value (_parse_tweet article)) as [tweet|]; [|by intuition].
    destruct (truthy _); cbn [andb]; [|by intuition].
    rewrite (bool_decide_false (_ ∈ ∅)) by set_solver. cbn [negb].
    case_bool_decide as Hin; cbn [negb]; split.
    - done.
    - intros [[= <-] Hn]. done.
    - intros [= <-]. done.
    - by intros [? _].
  Qed.

  (** A pass without known records runs to its end; it adds a record when
      it shows one that was not seen before, unless the cap is reached. *)
Lemma for_articles_productive (articles : list element) (st : loop_state) :
    (forall a i, a ∈ articles -> record_id a = Some i ->
                 is_known stop_on_known known_checker i = false) ->
    exists st',
      scan articles st = Continue st'
      /\ (forall i, i ∈ seen_ids st' ->
                    i ∈ seen_ids st \/ exists a, a ∈ articles /\ record_id a = Some i)
      /\ (length (tweets st) <= length (tweets st'))%nat
      /\ (forall a i, a ∈ articles -> record_id a = Some i -> i ∉ seen_ids st ->
                      (length (tweets st) < length (tweets st'))%nat
                      \/ max_tweets <= Z.of_nat (length (tweets st'))).
  Proof.
    revert st. induction articles as [|a rest IH]; intros st Hnew.
    { exists st. repeat split; [by left|done|]. intros ? ? Hin. by apply elem_of_nil in Hin. }
    rewrite for_articles_cons.
    destruct (_ <=? _) eqn:Hcap.
    { apply Z.leb_le in Hcap. exists st. repeat split; [by left|done|by right]. }
    assert (completes st a = false) as ->.
    { unfold completes_run, classify.
      destruct (fresh_id (seen_ids st) a) as [i|] eqn:Hf; [|done].
      apply fresh_id_Some in Hf as [Hf _]. by rewrite (Hnew a i); [|left|]. }
    destruct (IH (step st a)) as (st' & Hscan & Hseen & Hlen & Hprog).
    { intros b i Hb. apply Hnew. by right. }
    pose proof (advance_length st a) as [Hadv _].
    exists st'. split; [done|]. split; [|split; [lia|]].
    - intros i Hi. destruct (Hseen i Hi) as [Hs|(b & Hb & Hid)].
      + rewrite advance_seen in Hs. unfold see in Hs.
        destruct (fresh_id (seen_ids st) a) as [j|] eqn:Hf; [|by left].
        apply elem_of_union in Hs as [Hs|Hs]; [|by left].
        apply elem_of_singleton in Hs as ->. right. exists a.
        split; [by left|]. by apply fresh_id_Some in Hf as [? _].
      + right. exists b. split; [by right|done].
    - intros b i Hb Hid Hnot.
      destruct (decide (i ∈ seen_ids (step st a))) as [Hin|Hin].
      + left. enough (length (tweets (step st a)) = S (length (tweets st))) by lia.
        rewrite advance_seen in Hin. unfold see in Hin. unfold advance.
        destruct (fresh_id (seen_ids st) a) as [j|] eqn:Hf; [|done].
        apply fresh_id_Some in Hf as [Hf Hj].
        destruct (value (_parse_tweet a)) eqn:Hp.
        2:{ unfold record_id, fresh_id in Hf. by rewrite Hp in Hf. }
        rewrite (Hnew a j); [|by left|done]. cbn. rewrite length_app. cbn. lia.
      + apply elem_of_cons in Hb as [->|Hb].
        * exfalso. apply Hin. rewrite advance_seen. unfold see.
          rewrite (proj2 (fresh_id_Some (seen_ids st) a i)) by done.
          apply elem_of_union. left. by apply elem_of_singleton.
        * destruct (Hprog b i Hb Hid Hin); [left; lia|by right].
  Qed.

Lemma scrape_loop_exact (pg : page) (fuel : nat) (st : loop_state) :
    0 < max_tweets ->
    keeps_yielding max_tweets stop_on_known known_checker pg ->
    (forall i, i ∈ seen_ids st ->
               exists m b, (m < scroll_count st)%nat /\ b ∈ articles_of pg m
                           /\ record_id b = Some i) ->
    Z.of_nat (length (tweets st)) <= max_tweets ->
    (Z.of_nat (scroll_count st) <= Z.of_nat (length (tweets st))
     \/ Z.of_nat (length (tweets st)) = max_tweets) ->
    max_scrolls max_tweets <= Z.of_nat (scroll_count st) + Z.of_nat fuel ->
    exists ts n, loop pg fuel st = Some (ts, n) /\ Z.of_nat (length ts) = max_tweets.
  Proof.
    intros Hpos [_ Hfeed]. unfold max_scrolls, SCROLL_MULTIPLIER.
    revert st. induction fuel as [|fuel IH]; intros st Hseen Hlen Hprog Hfuel;
      cbn [scrape_loop]; unfold max_scrolls, SCROLL_MULTIPLIER;
      destruct (_ && _) eqn:Hguard.
    - apply andb_true_iff in Hguard as [_ Hg]. apply Z.ltb_lt in Hg. lia.
    - apply andb_false_iff in Hguard as [Hg|Hg]; apply Z.ltb_ge in Hg;
        eexists _, _; (split; [done|]); lia.
    - apply andb_true_iff in Hguard as [Hg1 Hg2]. apply Z.ltb_lt in Hg1, Hg2.
      assert (Z.of_nat (scroll_count st) < max_tweets) as Hn by lia.
      destruct (Hfeed _ Hn) as (Hscroll & Hnew & a & i & Ha & Hid & Hfresh).
      fold (articles_of pg (scroll_count st)).
      destruct (for_articles_productive (articles_of pg (scroll_count st)) st Hnew)
        as (st' & Hscan & Hseen' & Hmono & Hadd).
      pose proof (for_articles_bound
                    (articles_of pg (scroll_count st)) st Hlen) as Hb.
      rewrite Hscan in Hb |- *. destruct Hb as (_ & Hlen' & Hsc'). rewrite Hscroll.
      apply IH; cbn [tweets seen_ids scroll_count].
      + intros j Hj. destruct (Hseen' j Hj) as [Hs|(b & Hb & Hbj)].
        * destruct (Hseen j Hs) as (m & b & Hm & Hb & Hbj). exists m, b.
          split; [lia|done].
        * exists (scroll_count st), b. split; [lia|done].
      + done.
      + destruct (Hadd a i Ha Hid) as [Hlt|Hcap]; [|lia|lia].
        intros Hs. destruct (Hseen i Hs) as (m & b & Hm & Hb & Hbi).
        by apply (Hfresh m b).
      + lia.
    - apply andb_false_iff in Hguard as [Hg|Hg]; apply Z.ltb_ge in Hg;
        eexists _, _; (split; [done|]); lia.
  Qed.

Lemma scrape_feed_exact (pg : page) :
    0 < max_tweets ->
    keeps_yielding max_tweets stop_on_known known_checker pg ->
    exists ts n, scrape_feed max_tweets stop_on_known known_checker pg = Some (ts, n)
                 /\ Z.of_nat (length ts) = max_tweets.
  Proof.
    intros Hpos Hfeed. unfold scrape_feed. rewrite (proj1 Hfeed).
    apply scrape_loop_exact; [done|done| | | |].
    - intros i Hi. by apply not_elem_of_empty in Hi.
    - cbn [initial_state tweets length]. lia.
    - left. cbn [initial_state tweets length scroll_count]. lia.
    - cbn [initial_state scroll_count]. unfold max_scrolls, SCROLL_MULTIPLIER. lia.
  Qed.
End LoopFacts.



(** A known record between new records does not stop the loop: all three
    new records of the page are collected. *)
Lemma known_between_new_does_not_stop :
  let pg := Fake.static_page
              [Fake.post "ann" "1"; Fake.post "bob" "7"; Fake.post "cyd" "2";
               Fake.post "dan" "8"; Fake.post "eve" "3"; Fake.post "fay" "9"] in
  (fun r => (length r.1, r.2))
    <$> @scrape_feed Fake.platform 10 true (Fake.knows ["1"; "2"; "3"]) pg
  = Some (3%nat, 20%nat).
Proof. vm_compute. reflexivity. Qed.


Lemma endless_page_keeps_yielding :
  @keeps_yielding Fake.platform 10 true None Fake.endless_page.
Proof.
  split; [reflexivity|]. intros n Hn.
  split; [reflexivity|]. split; [by intros a i _ _|].
  exists (Fake.post "bob" (Fake.ones n)).
  do 10 (destruct n as [|n];
         [ eexists; split; [by left|]; split; [vm_compute; reflexivity|];
           intros m b Hm Hb;
           repeat (destruct m as [|m]; [|try lia]);
           try lia;
           apply list_elem_of_singleton in Hb as ->; vm_compute; congruence
         | ]).
  lia.
Qed.


(** ** Ingestion *)
Module WebFacts.
Import Web.

Lemma store_loop_spec `{Platform} now owner existing_ids raw_tweets pending new_count :
  store_loop now owner existing_ids raw_tweets pending new_count
  = (pending ++ (new_row now owner <$> List.filter (is_new existing_ids) raw_tweets),
     new_count + Z.of_nat (length (List.filter (is_new existing_ids) raw_tweets))).
Proof.
  revert pending new_count.
  induction raw_tweets as [|td rest IH]; intros pending new_count; cbn [store_loop List.filter].
  - rewrite app_nil_r. f_equal. cbn. lia.
  - replace (negb (truthy (dict_get td "id")) || bool_decide (dict_get td "id" ∈ existing_ids))
      with (negb (is_new existing_ids td))
      by (unfold is_new; destruct (truthy _), (bool_decide _); done).
    destruct (is_new existing_ids td); cbn [negb]; [|apply IH].
    rewrite IH. cbn [fmap list_fmap length]. rewrite <- app_assoc. f_equal. lia.
Qed.

Lemma elem_of_existing_ids db owner raw_tweets (i : pyval) :
  i ∈ existing_ids_of db owner raw_tweets <->
  exists r, r ∈ web_tweets db /\ tweet_id r = i /\ user_id r = owner
            /\ truthy i = true /\ exists td, td ∈ raw_tweets /\ dict_get td "id" = i.
Proof.
  unfold existing_ids_of. rewrite elem_of_list_to_set, list_elem_of_fmap.
  split.
  - intros (r & -> & Hr). apply list_elem_of_In, filter_In in Hr as [Hr Hc].
    apply andb_true_iff in Hc as [Hc1 Hc2]. apply bool_decide_eq_true in Hc1.
    apply list_elem_of_In, filter_In in Hc1 as [Hc1 Ht].
    apply list_elem_of_In, list_elem_of_fmap in Hc1 as (td & Htd & Hin).
    exists r. repeat split; [by apply list_elem_of_In|lia|done|]. by exists td.
  - intros (r & Hr & <- & Ho & Ht & td & Htd & Hid).
    exists r. split; [done|]. apply list_elem_of_In, filter_In. split; [by apply list_elem_of_In|].
    apply andb_true_iff. split; [|lia]. apply bool_decide_eq_true.
    apply list_elem_of_In, filter_In. split; [|done].
    apply list_elem_of_In, list_elem_of_fmap. by exists td.
Qed.


Lemma filter_is_new_nil (existing_ids : gset pyval) (raw_tweets : list dict) :
  (forall td, td ∈ raw_tweets -> truthy (dict_get td "id") = true ->
              dict_get td "id" ∈ existing_ids) ->
  List.filter (is_new existing_ids) raw_tweets = [].
Proof.
  induction raw_tweets as [|td rest IH]; intros Hall; [done|].
  cbn [List.filter]. rewrite IH by (intros; apply Hall; [by right|done]).
  unfold is_new. destruct (truthy (dict_get td "id")) eqn:Ht; [|done].
  rewrite bool_decide_true; [done|]. apply Hall; [by left|done].
Qed.

Lemma no_truthy_id (raw_tweets : list dict) :
  List.filter truthy ((fun t => dict_get t "id") <$> raw_tweets) = [] ->
  forall td, td ∈ raw_tweets -> truthy (dict_get td "id") = false.
Proof.
  induction raw_tweets as [|t rest IH]; intros Hnil td Hin; [by apply elem_of_nil in Hin|].
  cbn [fmap list_fmap List.filter] in Hnil.
  destruct (truthy (dict_get t "id")) eqn:Ht; [done|].
  apply elem_of_cons in Hin as [->|Hin]; [done|]. by apply IH.
Qed.

(** What a call of [_store_tweets_batch] that returns has done. *)
Lemma _store_tweets_batch_Ok `{Platform} now db owner raw_tweets n db' :
  _store_tweets_batch now db owner raw_tweets = Ok (n, db') ->
  let new := new_row now owner
               <$> List.filter (is_new (existing_ids_of db owner raw_tweets)) raw_tweets in
  web_tweets db' = web_tweets db ++ new
  /\ web_scrape_runs db' = web_scrape_runs db
  /\ briefings db' = briefings db
  /\ n = Z.of_nat (length new)
  /\ (unique_rows (web_tweets db) -> unique_rows (web_tweets db')).
Proof.
  unfold _store_tweets_batch. fold (existing_ids_of db owner raw_tweets).
  rewrite store_loop_spec. cbn [app].
  set (news := List.filter _ raw_tweets).
  case_bool_decide as Hids.
  - intros [= <- <-]. cbn zeta.
    assert (news = []) as ->.
    { apply filter_is_new_nil. intros td Hin Ht.
      by rewrite (no_truthy_id _ Hids td Hin) in Ht. }
    cbn. by rewrite app_nil_r.
  - rewrite Z.add_0_l. destruct (Z.of_nat (length news) =? 0) eqn:Hn; cbn [negb].
    + intros [= <- <-]. assert (news = []) as ->
        by (apply Z.eqb_eq in Hn; destruct news; [done|simpl length in Hn; lia]).
      cbn. by rewrite app_nil_r.
    + unfold commit_tweets. case_bool_decide as Hu; [|done].
      intros [= <- <-]. cbn. rewrite length_fmap. done.
Qed.

(** A second call with the same batch finds every id of the batch. *)
Lemma _store_tweets_batch_again `{Platform} now now' db owner raw_tweets n db' :
  _store_tweets_batch now db owner raw_tweets = Ok (n, db') ->
  _store_tweets_batch now' db' owner raw_tweets = Ok (0, db').
Proof.
  intros Hfirst. apply _store_tweets_batch_Ok in Hfirst as (Hrows & _ & _ & _ & _).
  unfold _store_tweets_batch. fold (existing_ids_of db' owner raw_tweets).
  rewrite store_loop_spec. cbn [app].
  case_bool_decide as Hids; [done|].
  rewrite filter_is_new_nil; [done|].
  intros td Hin Ht. apply elem_of_existing_ids.
  destruct (decide (dict_get td "id" ∈ existing_ids_of db owner raw_tweets)) as [Hex|Hex].
  - apply elem_of_existing_ids in Hex as (r & Hr & Hid & Ho & _ & _).
    exists r. rewrite Hrows. repeat split; [set_solver|done|done|done|by exists td].
  - exists (new_row now owner td). rewrite Hrows.
    repeat split; [|done|by exists td].
    apply elem_of_app. right. apply list_elem_of_fmap. exists td. split; [done|].
    apply list_elem_of_In, filter_In. split; [by apply list_elem_of_In|].
    unfold is_new. rewrite Ht. by rewrite bool_decide_false.
Qed.

(** A batch without a repeated id is always committed. *)
Lemma _store_tweets_batch_distinct `{Platform} now db owner raw_tweets :
  unique_rows (web_tweets db) ->
  NoDup (List.filter truthy ((fun t => dict_get t "id") <$> raw_tweets)) ->
  exists n db', _store_tweets_batch now db owner raw_tweets = Ok (n, db').
Proof.
  intros Hdb Hbatch. unfold _store_tweets_batch.
  fold (existing_ids_of db owner raw_tweets).
  rewrite store_loop_spec. cbn [app].
  case_bool_decide as Hids; [by eexists _, _|].
  destruct (negb _); [|by eexists _, _].
  unfold commit_tweets. rewrite bool_decide_true; [by eexists _, _|].
  unfold unique_rows. rewrite fmap_app. apply NoDup_app. split; [done|]. split.
  - intros [i u] Hold Hnew.
    apply list_elem_of_fmap in Hold as (r & Hkey & Hr).
    apply list_elem_of_fmap in Hnew as (r' & Hkey' & Hr').
    apply list_elem_of_fmap in Hr' as (td & -> & Htd).
    apply list_elem_of_In, filter_In in Htd as [Htd Hnew].
    unfold is_new in Hnew. apply andb_true_iff in Hnew as [Ht Hnew].
    apply negb_true_iff, bool_decide_eq_false in Hnew. apply Hnew.
    injection Hkey as -> ->. injection Hkey' as Hi Hu. cbn in Hi, Hu.
    apply elem_of_existing_ids. exists r.
    repeat split; [done..|].
    exists td. split; [by apply list_elem_of_In|done].
  - clear Hids. revert Hbatch. generalize (existing_ids_of db owner raw_tweets).
    intros ex. induction raw_tweets as [|td rest IH]; intros Hbatch; [constructor|].
    cbn [fmap list_fmap List.filter] in Hbatch |- *.
    unfold is_new at 1.
    destruct (truthy (dict_get td "id")) eqn:Ht; cbn [andb]; [|by apply IH].
    apply NoDup_cons in Hbatch as [Hnotin Hbatch].
    destruct (negb _); [|by apply IH].
    cbn [fmap list_fmap]. apply NoDup_cons. split; [|by apply IH].
    intros Hin. apply Hnotin.
    apply list_elem_of_fmap in Hin as (r & Hkey & Hr).
    apply list_elem_of_fmap in Hr as (td' & -> & Htd').
    apply list_elem_of_In, filter_In in Htd' as [Htd' Hnew'].
    unfold is_new in Hnew'. apply andb_true_iff in Hnew' as [Ht' _].
    injection Hkey as Hi. cbn in Hi. rewrite Hi.
    apply list_elem_of_In, filter_In. split; [|done].
    apply list_elem_of_In, list_elem_of_fmap. exists td'.
    split; [done|by apply list_elem_of_In].
Qed.

(** The rows a call adds all carry an id. *)
Lemma _store_tweets_batch_ids `{Platform} now db owner raw_tweets :
  match _store_tweets_batch now db owner raw_tweets with
  | Ok (_, db') =>
      exists new, web_tweets db' = web_tweets db ++ new
                  /\ Forall (fun r => truthy (tweet_id r) = true) new
  | Raise _ => True
  end.
Proof.
  destruct (_store_tweets_batch now db owner raw_tweets) as [[n db']|] eqn:Hcall; [|done].
  apply _store_tweets_batch_Ok in Hcall as (Hrows & _).
  eexists. split; [exact Hrows|].
  apply Forall_fmap, List.Forall_forall. intros td Htd.
  apply filter_In in Htd as [_ Hnew]. unfold is_new in Hnew.
  by apply andb_true_iff in Hnew as [Ht _].
Qed.

(** C2, as stated, fails on a batch that repeats an id the tenant does not
    have yet: both inserts are sent, the commit is refused, and the second
    call meets the same refusal instead of returning 0. *)
Lemma ingest_again_repeated_id :
  @ingest_again Fake.platform 0 1 Fake.empty_db 7 [Fake.record "1"; Fake.record "1"]
  = Raise IntegrityError.
Proof. vm_compute. reflexivity. Qed.

(** C2, amended. When a call of [_store_tweets_batch] returns, a second
    call with the same batch and tenant returns 0 and leaves the database
    as it is; the pairs of id and tenant stay unique. *)
Theorem ingest_idempotent `{Platform} (now now' : Z) (db db' : database) (owner : Z)
    (raw_tweets : list dict) (n : Z) :
  unique_rows (web_tweets db) ->
  _store_tweets_batch now db owner raw_tweets = Ok (n, db') ->
  _store_tweets_batch now' db' owner raw_tweets = Ok (0, db')
  /\ unique_rows (web_tweets db').
Proof.
  intros Hunique Hfirst. split.
  - by eapply _store_tweets_batch_again.
  - apply _store_tweets_batch_Ok in Hfirst as (_ & _ & _ & _ & Hkeep). by apply Hkeep.
Qed.

Lemma ingest_idempotent_witness :
  let batch := [Fake.record "1"; Fake.anonymous; Fake.record "2"] in
  exists db',
    unique_rows (web_tweets Fake.empty_db)
    /\ @_store_tweets_batch Fake.platform 5 Fake.empty_db 7 batch = Ok (2, db')
    /\ @_store_tweets_batch Fake.platform 9 db' 7 batch = Ok (0, db')
    /\ length (web_tweets db') = 2%nat.
Proof.
  intros batch. eexists.
  assert (unique_rows (web_tweets Fake.empty_db)) as Hunique by constructor.
  assert (@_store_tweets_batch Fake.platform 5 Fake.empty_db 7 batch = Ok (2, _))
    as Hfirst by (vm_compute; reflexivity).
  split; [exact Hunique|]. split; [exact Hfirst|].
  split; [|reflexivity].
  exact (proj1 (@ingest_idempotent Fake.platform 5 9 _ _ 7 batch 2 Hunique Hfirst)).
Defined.

End WebFacts.

(** C5. An article from which no id can be read gives [None], and the only
    calls made to the page are those of the id extraction: no other
    extraction is attempted. A record that is returned carries its id, a
    non-empty string. And the rows [_store_tweets_batch] adds all carry an
    id: a record without one is never stored. *)
Theorem records_without_id_are_discarded `{Platform} :
  (forall article,
      match value (_extract_tweet_id article) with
      | None => _parse_tweet article = mkDom None (calls (_extract_tweet_id article))
      | Some i =>
          i ≠ "" /\
          exists tweet, value (_parse_tweet article) = Some tweet
                        /\ dict_get tweet "id" = PStr i
      end)
  /\ (forall now db owner raw_tweets,
         match Web._store_tweets_batch now db owner raw_tweets with
         | Ok (_, db') =>
             exists new, Web.web_tweets db' = Web.web_tweets db ++ new
                         /\ Forall (fun r => truthy (Web.tweet_id r) = true) new
         | Raise _ => True
         end).
Proof.
  split.
  - apply _parse_tweet_id.
  - apply WebFacts._store_tweets_batch_ids.
Qed.

(** A batch with a record without id: only the two others are stored. *)
Lemma anonymous_record_not_stored :
  (fun r => Web.tweet_id <$> Web.web_tweets r.2)
    <$> (match @Web._store_tweets_batch Fake.platform 5 Fake.empty_db 7
                 [Fake.record "1"; Fake.anonymous; Fake.record "2"] with
         | Ok r => Some r
         | Raise _ => None
         end)
  = Some [PStr "1"; PStr "2"].
Proof. vm_compute. reflexivity. Qed.

(** ** Retention *)
Module CliFacts.
Import Cli.

Global Instance desc_trans : Transitive desc.
Proof. unfold desc. intros x y z ? ?. lia. Qed.

Global Instance desc_total : Total desc.
Proof. unfold desc. intros x y. lia. Qed.

Lemma filter_length_Permutation {A : Type} (f : A -> bool) (l l' : list A) :
  l ≡ₚ l' -> length (List.filter f l) = length (List.filter f l').
Proof.
  induction 1 as [|x l l' _ IH|x y l|l l' l'' _ IH1 _ IH2]; cbn [List.filter].
  - done.
  - destruct (f x); cbn; by rewrite IH.
  - by destruct (f x), (f y).
  - by rewrite IH1.
Qed.

Lemma filter_length_fmap {A B : Type} (g : A -> B) (f : B -> bool) (l : list A) :
  length (List.filter f (g <$> l)) = length (List.filter (fun a => f (g a)) l).
Proof.
  induction l as [|a l IH]; [done|]. cbn [fmap list_fmap List.filter].
  destruct (f (g a)); cbn; by rewrite <- IH.
Qed.

Lemma filter_all {A : Type} (f : A -> bool) (l : list A) :
  (forall x, x ∈ l -> f x = true) -> List.filter f l = l.
Proof.
  induction l as [|a l IH]; intros Hall; [done|]. cbn [List.filter].
  rewrite (Hall a) by left. f_equal. apply IH. intros. apply Hall. by right.
Qed.

(** In a list of distinct times in descending order, the times before the
    one at position [k] are exactly the ones after that position. *)
Lemma older_than_nth (s : list Z) (k : nat) (c : Z) :
  StronglySorted desc s -> NoDup s -> s !! k = Some c ->
  List.filter (fun x => x <? c) s = drop (S k) s.
Proof.
  intros Hs. revert k. induction Hs as [|x s Hs IH Hx]; intros k Hnd Hk; [done|].
  apply NoDup_cons in Hnd as [Hnotin Hnd].
  assert (forall y, y ∈ s -> y < x) as Hlt.
  { intros y Hy. pose proof (proj1 (List.Forall_forall _ _) Hx y (proj1 (list_elem_of_In _ _) Hy)) as Hle.
    unfold desc in Hle. assert (y ≠ x) by (intros ->; done). lia. }
  cbn [List.filter]. destruct k as [|k]; cbn in Hk.
  - injection Hk as <-. rewrite Z.ltb_irrefl. cbn [drop].
    apply filter_all. intros y Hy. apply Z.ltb_lt. by apply Hlt.
  - assert (c < x) as Hc by (apply Hlt; by eapply list_elem_of_lookup_2).
    rewrite (proj2 (Z.ltb_ge _ _)) by lia. cbn [drop]. by apply IH.
Qed.

Lemma filter_split_length {A : Type} (f : A -> bool) (l : list A) :
  (length (List.filter f l) + length (List.filter (fun x => negb (f x)) l)
   = length l)%nat.
Proof.
  induction l as [|a l IH]; [done|]. cbn [List.filter]. destruct (f a); cbn; lia.
Qed.


(** The trim deletes the rows stored strictly before the cutoff, the
    storage time of the [keep_count]-th most recent row. *)
Lemma cleanup_old_tweets_cutoff (keep_count : Z) (table : list tweet) :
  1 <= keep_count ->
  keep_count < Z.of_nat (length table) ->
  exists cutoff,
    order_desc (scraped_at <$> table) !! Z.to_nat (keep_count - 1) = Some cutoff
    /\ cleanup_old_tweets keep_count table
       = (Z.of_nat (length (List.filter (fun t => scraped_at t <? cutoff) table)),
          List.filter (fun t => negb (scraped_at t <? cutoff)) table).
Proof.
  intros Hkeep Hlt. unfold cleanup_old_tweets.
  rewrite (proj2 (Z.leb_gt _ _)) by done.
  assert (length (order_desc (scraped_at <$> table)) = length table) as Hlen.
  { unfold order_desc. by rewrite merge_sort_Permutation, length_fmap. }
  destruct (_ !! _) as [cutoff|] eqn:Hk; [by exists cutoff|].
  apply lookup_ge_None in Hk. lia.
Qed.

(** With distinct storage times and a positive [keep_count], the trim
    deletes all but the [keep_count] most recent rows. *)
Lemma cleanup_old_tweets_distinct (keep_count : Z) (table : list tweet) :
  1 <= keep_count ->
  NoDup (scraped_at <$> table) ->
  let '(deleted, remaining) := cleanup_old_tweets keep_count table in
  deleted = Z.max 0 (Z.of_nat (length table) - keep_count)
  /\ Z.of_nat (length remaining) = Z.min keep_count (Z.of_nat (length table))
  /\ (exists kept, remaining = List.filter kept table)
  /\ forall r d, r ∈ remaining -> d ∈ table -> d ∉ remaining ->
                 scraped_at d < scraped_at r.
Proof.
  intros Hkeep Hnd. unfold cleanup_old_tweets.
  destruct (_ <=? _) eqn:Hle.
  { apply Z.leb_le in Hle. split; [lia|]. split; [lia|]. split; [|done].
    exists (fun _ => true). symmetry. by apply filter_all. }
  apply Z.leb_gt in Hle.
  set (s := order_desc (scraped_at <$> table)).
  assert (s ≡ₚ scraped_at <$> table) as Hperm by apply merge_sort_Permutation.
  assert (length s = length table) as Hlen by (by rewrite Hperm, length_fmap).
  destruct (s !! Z.to_nat (keep_count - 1)) as [cutoff|] eqn:Hk.
  2:{ apply lookup_ge_None in Hk. lia. }
  assert (length (List.filter (fun t => scraped_at t <? cutoff) table)
          = (length table - S (Z.to_nat (keep_count - 1)))%nat) as Hdel.
  { rewrite <- (filter_length_fmap scraped_at (fun x => x <? cutoff)).
    rewrite <- (filter_length_Permutation _ _ _ Hperm).
    rewrite (older_than_nth s (Z.to_nat (keep_count - 1)) cutoff);
      [by rewrite length_drop, Hlen| |by rewrite Hperm|done].
    apply StronglySorted_merge_sort; apply _. }
  pose proof (filter_split_length (fun t => scraped_at t <? cutoff) table) as Hsum.
  split; [lia|]. split; [lia|]. split; [by eexists|].
  intros r d Hr Hd Hnot.
  apply list_elem_of_In, filter_In in Hr as [_ Hr].
  apply negb_true_iff, Z.ltb_ge in Hr.
  destruct (scraped_at d <? cutoff) eqn:Hlt; [apply Z.ltb_lt in Hlt; lia|].
  exfalso. apply Hnot. apply list_elem_of_In, filter_In.
  split; [by apply list_elem_of_In|]. by rewrite Hlt.
Qed.

(** C6, as stated, fails when storage times coincide: of 150 rows stamped
    with the same time none is older than the 100th most recent, and the
    trim deletes nothing. *)
Lemma trim_same_tick_deletes_nothing :
  (cleanup_old_tweets 100 (Fake.same_tick_table 150)).1 = 0
  /\ length (cleanup_old_tweets 100 (Fake.same_tick_table 150)).2 = 150%nat.
Proof. split; vm_compute; reflexivity. Qed.

(** C6, amended. With [keep_count >= 1]: a table of at most [keep_count]
    rows is left as it is and 0 is returned; otherwise the rows stored
    strictly before the [keep_count]-th most recent storage time are
    deleted and their number returned; and when the storage times are
    pairwise distinct, exactly the rows beyond the [keep_count] most
    recent are deleted. *)
Theorem trim_keeps_most_recent (keep_count : Z) (table : list tweet) :
  1 <= keep_count ->
  (Z.of_nat (length table) <= keep_count ->
   cleanup_old_tweets keep_count table = (0, table))
  /\ (keep_count < Z.of_nat (length table) ->
      exists cutoff,
        order_desc (scraped_at <$> table) !! Z.to_nat (keep_count - 1) = Some cutoff
        /\ cleanup_old_tweets keep_count table
           = (Z.of_nat (length (List.filter (fun t => scraped_at t <? cutoff) table)),
              List.filter (fun t => negb (scraped_at t <? cutoff)) table))
  /\ (NoDup (scraped_at <$> table) ->
      let '(deleted, remaining) := cleanup_old_tweets keep_count table in
      deleted = Z.max 0 (Z.of_nat (length table) - keep_count)
      /\ Z.of_nat (length remaining) = Z.min keep_count (Z.of_nat (length table))
      /\ (exists kept, remaining = List.filter kept table)
      /\ forall r d, r ∈ remaining -> d ∈ table -> d ∉ remaining ->
                     scraped_at d < scraped_at r).
Proof.
  intros Hkeep. split; [|split].
  - intros Hle. unfold cleanup_old_tweets. by rewrite (proj2 (Z.leb_le _ _)).
  - by apply cleanup_old_tweets_cutoff.
  - by apply cleanup_old_tweets_distinct.
Qed.

(** 150 rows stored at distinct times, trimmed to 100: 50 are deleted and
    100 remain. *)
Lemma trim_keeps_most_recent_witness :
  1 <= 100
  /\ NoDup (scraped_at <$> Fake.ticking_table 150)
  /\ (cleanup_old_tweets 100 (Fake.ticking_table 150)).1 = 50
  /\ length (cleanup_old_tweets 100 (Fake.ticking_table 150)).2 = 100%nat.
Proof.
  assert (1 <= 100) as Hkeep by discriminate.
  assert (NoDup (scraped_at <$> Fake.ticking_table 150)) as Hdistinct
    by (apply (bool_decide_unpack _); vm_compute; exact I).
  split; [exact Hkeep|]. split; [exact Hdistinct|].
  pose proof (proj2 (proj2 (trim_keeps_most_recent 100 (Fake.ticking_table 150) Hkeep))
                Hdistinct) as Htrim.
  destruct (cleanup_old_tweets 100 (Fake.ticking_table 150)) as [deleted remaining].
  destruct Htrim as (Hdeleted & Hremaining & _).
  cbn [fst snd]. split.
  - rewrite Hdeleted. reflexivity.
  - apply Nat2Z.inj. rewrite Hremaining. reflexivity.
Defined.

End CliFacts.

(** ** The orchestrator *)
Module PipelineFacts.
Import Web.

Lemma run_user_pipeline_fetched `{Platform} w owner db settings raw_tweets :
  settings_of w owner = Some settings ->
  fetched w owner settings raw_tweets ->
  run_user_pipeline w owner db = store_and_summarize w db owner settings raw_tweets.
Proof.
  intros Hs Hf. unfold run_user_pipeline. rewrite Hs.
  destruct Hf as [[Hsrc Hf]|(Hsrc & Hd & Hf)]; rewrite Hsrc; cbn.
  - by rewrite Hf.
  - by rewrite Hd, Hf.
Qed.




End PipelineFacts.

(** ** The canonical shape of records *)

Lemma canonical_empty : canonical empty_tweet_data.
Proof.
  unfold canonical, empty_tweet_data, canonical_fields.
  rewrite !dom_insert_L, dom_empty_L. cbn [list_to_set].
  apply set_eq. intros k.
  rewrite !elem_of_union, !elem_of_singleton, elem_of_empty. tauto.
Qed.

Lemma canonical_insert (d : dict) (k : string) (v : pyval) :
  k ∈ canonical_fields -> canonical d -> canonical (<[k := v]> d).
Proof.
  unfold canonical. intros Hk Hd. rewrite dom_insert_lookup_L; [done|].
  apply elem_of_dom. rewrite Hd. by apply elem_of_list_to_set.
Qed.

Ltac canonical_key :=
  unfold canonical_fields; repeat (first [by left | right]).

Lemma api_canonical tw um rm : canonical (Api._transform_tweet tw um rm).
Proof.
  unfold Api._transform_tweet.
  destruct (Api.ref_loop _ _ _ _) as [[[? ?] ?] ?].
  unfold canonical. rewrite <- canonical_empty. unfold empty_tweet_data.
  by rewrite !dom_insert_L, dom_empty_L.
Qed.

Lemma author_loop_canonical (user_links : list element) (tweet_data : dict) :
  canonical tweet_data -> canonical (value (author_loop user_links tweet_data)).
Proof.
  intros Hd. induction user_links as [|link rest IH]; [done|].
  cbn [author_loop]. rewrite value_bind.
  destruct (profile_handle _) as [handle|]; [|done].
  destruct (is_navigational handle); cbn [negb]; [done|].
  repeat case_bool_decide; repeat (destruct (truthy _)); cbn [andb];
    rewrite ?value_bind;
    try destruct (value (query_selector link "span")); rewrite ?value_bind;
    cbn [value mret Dom_ret];
    repeat (apply canonical_insert; [canonical_key|]); done.
Qed.

Lemma reply_loop_canonical (reply_links : list element) (tweet_data : dict) :
  canonical tweet_data -> canonical (value (reply_loop reply_links tweet_data)).
Proof.
  intros Hd. induction reply_links as [|link rest IH]; [done|].
  cbn [reply_loop]. rewrite !value_bind.
  destruct (_ && _); [|done].
  cbn [value mret Dom_ret]. repeat (apply canonical_insert; [canonical_key|]). done.
Qed.

Lemma _extract_reply_context_canonical (article : element) (tweet_data : dict) :
  canonical tweet_data -> canonical (value (_extract_reply_context article tweet_data)).
Proof.
  intros Hd. unfold _extract_reply_context. rewrite !value_bind.
  set (td := value (if existsb _ _ then _ else _)).
  assert (canonical td) as Htd.
  { subst td. destruct (existsb _ _); [|done].
    rewrite value_bind. by apply reply_loop_canonical. }
  destruct (negb _); [|done].
  rewrite value_bind. destruct (_ <? _)%nat; cbn [value mret Dom_ret];
    repeat (apply canonical_insert; [canonical_key|]); done.
Qed.

Lemma media_loop_validated `{Platform} (media_images : list element) (urls : list string) :
  Forall (fun u => validate_url u = true) urls ->
  Forall (fun u => validate_url u = true) (value (media_loop media_images urls)).
Proof.
  revert urls. induction media_images as [|img rest IH]; intros urls Hurls; [done|].
  cbn [media_loop]. rewrite value_bind.
  destruct (nonempty _) as [src|]; [|by apply IH].
  destruct (validate_url src) eqn:Hv; [|by apply IH].
  apply IH. apply Forall_app. split; [done|]. by constructor.
Qed.

Lemma _extract_author_info_canonical (article : element) (tweet_data : dict) :
  canonical tweet_data -> canonical (value (_extract_author_info article tweet_data)).
Proof.
  intros Hd. unfold _extract_author_info. rewrite value_bind.
  by apply author_loop_canonical.
Qed.

Lemma check_retweet_canonical (article : element) (tweet_data : dict) :
  canonical tweet_data -> canonical (value (check_retweet article tweet_data)).
Proof.
  intros Hd. unfold check_retweet. rewrite value_bind.
  destruct (value (query_selector _ _)); [|done].
  rewrite value_bind. destruct (_ || _); [|done].
  cbn [value mret Dom_ret]. apply canonical_insert; [canonical_key|done].
Qed.

Lemma extract_content_canonical (article : element) (tweet_data : dict) :
  canonical tweet_data -> canonical (value (extract_content article tweet_data)).
Proof.
  intros Hd. unfold extract_content. rewrite value_bind.
  destruct (value (query_selector _ _)); [|done].
  rewrite value_bind. cbn [value mret Dom_ret].
  apply canonical_insert; [canonical_key|done].
Qed.

Lemma extract_timestamp_canonical `{Platform} (article : element) (tweet_data : dict) :
  canonical tweet_data -> canonical (value (extract_timestamp article tweet_data)).
Proof.
  intros Hd. unfold extract_timestamp. rewrite value_bind.
  destruct (value (query_selector _ _)); [|done].
  rewrite value_bind. cbn [value mret Dom_ret].
  apply canonical_insert; [canonical_key|done].
Qed.

Lemma parsed_canonical `{Platform} (article : element) (i : option string) :
  canonical (parsed article i).
Proof.
  unfold parsed. rewrite extract_metrics_and_media_value.
  do 4 (apply canonical_insert; [canonical_key|]).
  apply extract_timestamp_canonical, _extract_reply_context_canonical,
    extract_content_canonical, _extract_author_info_canonical,
    check_retweet_canonical.
  apply canonical_insert; [canonical_key|apply canonical_empty].
Qed.

Lemma _parse_tweet_canonical `{Platform} (article : element) (tweet : dict) :
  value (_parse_tweet article) = Some tweet ->
  canonical tweet
  /\ exists urls, dict_get tweet "media_urls" = PList urls
                  /\ Forall (fun u => validate_url u = true) urls.
Proof.
  rewrite _parse_tweet_value. cbv zeta.
  destruct (negb _); [done|]. intros [= <-]. split; [apply parsed_canonical|].
  unfold parsed. rewrite extract_metrics_and_media_value.
  eexists. rewrite dict_get_insert_eq. split; [done|].
  unfold _extract_media_urls. rewrite value_bind. by apply media_loop_validated.
Qed.


(** The URLs of the live-API provider are chosen by their markers only. *)
Lemma api_media_urls_not_validated :
  dict_get (Api._transform_tweet Fake.api_odd_url ∅ ∅) "media_urls"
  = PList ["see photo.jpg"]
  /\ @validate_url Fake.platform "see photo.jpg" = false.
Proof. split; vm_compute; reflexivity. Qed.


(** ** The scheduler *)
Module SchedulerFacts.
Import Scheduler.

(** A user is enqueued only from a row read when no briefing of that user
    is as recent as the cutoff. *)
Lemma enqueue_loop_no_recent_briefing (utcoffset : string -> option Z)
    (current_utc_hour : Z) (now : nat -> Z) (redis : bool)
    (briefings : list Web.briefing) (i : nat) (rows : list due_row) (uid : Z) :
  uid ∈ enqueue_loop utcoffset current_utc_hour now redis briefings i rows ->
  exists (j : nat) (row : due_row),
    rows !! j = Some row
    /\ user_id row = uid
    /\ _utc_hour_for_user utcoffset (schedule_hour row) (timezone row) = current_utc_hour
    /\ forall b, b ∈ briefings -> Web.briefing_user_id b = uid ->
                 Web.created_at b
                 < now (i + j)%nat - Web.hours DUPLICATE_BRIEFING_HOURS.
Proof.
  revert i. induction rows as [|row rest IH]; intros i Hin.
  { by apply elem_of_nil in Hin. }
  cbn [enqueue_loop] in Hin.
  assert (uid ∈ enqueue_loop utcoffset current_utc_hour now redis briefings (S i) rest ->
          exists (j : nat) (row0 : due_row),
            (row :: rest) !! j = Some row0
            /\ user_id row0 = uid
            /\ _utc_hour_for_user utcoffset (schedule_hour row0) (timezone row0)
               = current_utc_hour
            /\ forall b, b ∈ briefings -> Web.briefing_user_id b = uid ->
                         Web.created_at b
                         < now (i + j)%nat - Web.hours DUPLICATE_BRIEFING_HOURS)
    as Hrest.
  { intros Hin'. destruct (IH _ Hin') as (j & row0 & Hj & Hrow & Hhour & Hold).
    exists (S j), row0. repeat split; try done.
    intros b Hb Hu. replace (i + S j)%nat with (S i + j)%nat by lia. by apply Hold. }
  destruct (negb _) eqn:Hhour; [by apply Hrest|].
  apply negb_false_iff, Z.eqb_eq in Hhour.
  destruct (List.filter _ briefings) as [|b0 recent] eqn:Hrecent; [|by apply Hrest].
  destruct redis; [|by apply Hrest].
  apply elem_of_cons in Hin as [->|Hin]; [|by apply Hrest].
  exists 0%nat, row. repeat split; try done.
  intros b Hb Hu. rewrite Nat.add_0_r.
  destruct (Z.ltb_spec (Web.created_at b)
              (now i - Web.hours DUPLICATE_BRIEFING_HOURS)) as [Hlt|Hge]; [done|].
  exfalso.
  assert (In b (List.filter
                  (fun b => (Web.briefing_user_id b =? user_id row)
                            && (now i - Web.hours DUPLICATE_BRIEFING_HOURS
                                <=? Web.created_at b)) briefings)) as Hfil.
  { apply filter_In. split; [by apply list_elem_of_In|].
    apply andb_true_iff. split; [by apply Z.eqb_eq|by apply Z.leb_le]. }
  by rewrite Hrecent in Hfil.
Qed.

(** C10. Every user id [enqueue_due_users] hands to the queue comes from a
    row whose schedule hour is the current hour and for which, at the time
    the row was handled, every briefing of that user was older than 20
    hours: a user with a briefing created within the last 20 hours is never
    enqueued. *)
Theorem no_enqueue_with_recent_briefing (utcoffset : string -> option Z)
    (current_utc_hour : Z) (now : nat -> Z) (redis : bool)
    (briefings : list Web.briefing) (rows : list due_row) (uid : Z) :
  uid ∈ enqueue_due_users utcoffset current_utc_hour now redis briefings rows ->
  exists (j : nat) (row : due_row),
    rows !! j = Some row
    /\ user_id row = uid
    /\ _utc_hour_for_user utcoffset (schedule_hour row) (timezone row) = current_utc_hour
    /\ forall b, b ∈ briefings -> Web.briefing_user_id b = uid ->
                 Web.created_at b < now j - Web.hours 20.
Proof.
  intros Hin. apply enqueue_loop_no_recent_briefing in Hin.
  destruct Hin as (j & row & Hj & Hrow & Hhour & Hold).
  exists j, row. repeat split; try done.
Qed.

(** Two users due at 7 UTC, the first with a briefing from 5 hours ago, the
    second with one from 30 hours ago: only the second is enqueued. *)
Lemma no_enqueue_with_recent_briefing_witness :
  let rows := [DueRow 1 8 "Europe/Berlin"; DueRow 2 7 "UTC"] in
  let utcoffset := fun tz => if bool_decide (tz = "Europe/Berlin") then Some 3600
                             else if bool_decide (tz = "UTC") then Some 0 else None in
  let now := fun _ : nat => Web.hours 1000 in
  let briefings := [ Web.Briefing 1 "a" 5 "openai" "default" (Web.hours 995);
                     Web.Briefing 2 "b" 5 "openai" "default" (Web.hours 970) ] in
  enqueue_due_users utcoffset 7 now true briefings rows = [2]
  /\ exists (j : nat) (row : due_row),
       rows !! j = Some row /\ user_id row = 2
       /\ forall b, b ∈ briefings -> Web.briefing_user_id b = 2 ->
                    Web.created_at b < now j - Web.hours 20.
Proof.
  intros rows utcoffset now briefings.
  assert (enqueue_due_users utcoffset 7 now true briefings rows = [2]) as Hrun
    by reflexivity.
  split; [exact Hrun|].
  assert (2 ∈ enqueue_due_users utcoffset 7 now true briefings rows) as Hin
    by (rewrite Hrun; apply list_elem_of_singleton; reflexivity).
  destruct (no_enqueue_with_recent_briefing utcoffset 7 now true briefings rows 2 Hin)
    as (j & row & Hj & Hrow & _ & Hold).
  exists j, row. split; [exact Hj|]. split; [exact Hrow|exact Hold].
Defined.

End SchedulerFacts.

(** * Further properties of the code *)

(** ** The acquisition loop: what a run returns *)

Section LoopInvariant.
Context `{Platform}.
Variable max_tweets : Z.
Variable stop_on_known : bool.
Variable known_checker : option (pyval -> bool).

Local Abbreviation scan := (for_articles max_tweets stop_on_known known_checker).
Local Abbreviation loop := (scrape_loop max_tweets stop_on_known known_checker).
Local Abbreviation step := (advance stop_on_known known_checker).
Local Abbreviation clean := (clean_batch stop_on_known known_checker).
Local Abbreviation inv := (loop_inv stop_on_known known_checker).

Lemma advance_inv (st : loop_state) (article : element) :
  inv st -> inv (step st article).
Proof.
  intros [[Hnd Hall] Hseen]. unfold advance, fresh_id.
  destruct (value (_parse_tweet article)) as [tweet|]; [|done].
  destruct (truthy (dict_get tweet "id")) eqn:Ht; cbn [andb]; [|done].
  case_bool_decide as Hin; cbn [negb]; [done|].
  destruct (is_known _ _ _) eqn:Hk.
  - split; [done|]. cbn. intros t Ht'. apply elem_of_union. right. by apply Hseen.
  - split; [split|]; cbn [tweets seen_ids].
    + unfold batch_ids. rewrite fmap_app. apply NoDup_app. split; [done|]. split.
      * intros i Hi Hi'. cbn in Hi'. apply list_elem_of_singleton in Hi' as ->.
        apply list_elem_of_fmap in Hi as (t & Hid & Ht'). apply Hin.
        rewrite Hid. by apply Hseen.
      * cbn. apply NoDup_singleton.
    + apply Forall_app. split; [done|]. by repeat constructor.
    + intros t [Ht'|Ht']%elem_of_app; apply elem_of_union.
      * right. by apply Hseen.
      * left. apply list_elem_of_singleton in Ht' as ->. by apply elem_of_singleton.
Qed.

Lemma for_articles_inv (articles : list element) (st : loop_state) :
  inv st ->
  match scan articles st with
  | Continue st' => inv st'
  | Return ts => clean ts
  end.
Proof.
  revert st. induction articles as [|a rest IH]; intros st Hinv; [done|].
  rewrite for_articles_cons.
  destruct (_ <=? _); [done|].
  destruct (completes_run _ _ _ _); [apply Hinv|].
  by apply IH, advance_inv.
Qed.

Lemma scrape_loop_inv (pg : page) (fuel : nat) (st : loop_state) ts n :
  inv st -> loop pg fuel st = Some (ts, n) -> clean ts.
Proof.
  revert st. induction fuel as [|fuel IH]; intros st Hinv; cbn [scrape_loop].
  - destruct (_ && _); [done|]. intros [= <- <-]. apply Hinv.
  - destruct (_ && _); [|intros [= <- <-]; apply Hinv].
    pose proof (for_articles_inv (default [] (rendered (passes pg (scroll_count st))))
                  st Hinv) as Hpass.
    destruct (scan _ st) as [st'|ts']; [|by intros [= <- <-]].
    destruct (scroll_ok _); [|intros [= <- <-]; apply Hpass].
    apply IH. destruct Hpass as [Hc Hs]. by split.
Qed.

Lemma scrape_feed_clean (pg : page) ts n :
  scrape_feed max_tweets stop_on_known known_checker pg = Some (ts, n) -> clean ts.
Proof.
  unfold scrape_feed. destruct (goto_ok pg).
  - apply scrape_loop_inv. split; [split; [constructor|constructor]|].
    intros t Ht. by apply elem_of_nil in Ht.
  - intros [= <- <-]. split; constructor.
Qed.

(** The loop returns for every [max_tweets], also one that is not
    positive: then with the empty list. *)
Lemma scrape_feed_total (pg : page) :
  exists ts n,
    scrape_feed max_tweets stop_on_known known_checker pg = Some (ts, n)
    /\ Z.of_nat (length ts) <= Z.max 0 max_tweets.
Proof.
  destruct (Z.lt_ge_cases 0 max_tweets) as [Hpos|Hneg].
  - destruct (scrape_feed_bound max_tweets stop_on_known known_checker pg Hpos)
      as (ts & n & Hrun & Hlen & _).
    exists ts, n. split; [done|]. lia.
  - exists [], 0%nat. split; [|cbn; lia].
    unfold scrape_feed. destruct (goto_ok pg); [|done].
    destruct (Z.to_nat _); cbn [scrape_loop initial_state tweets length];
      by rewrite (proj2 (Z.ltb_ge _ _)).
Qed.
End LoopInvariant.

(** X1. [scrape_feed] returns for every page and every [max_tweets], with
    at most [max(0, max_tweets)] records; the ids of the records returned
    are pairwise distinct and truthy, and none of them is an id the oracle
    knows (when [stop_on_known] is set and an oracle is given). *)
Theorem scrape_feed_returns_clean_batch `{Platform} (max_tweets : Z) (stop_on_known : bool)
    (known_checker : option (pyval -> bool)) (pg : page) :
  exists ts n,
    scrape_feed max_tweets stop_on_known known_checker pg = Some (ts, n)
    /\ Z.of_nat (length ts) <= Z.max 0 max_tweets
    /\ clean_batch stop_on_known known_checker ts.
Proof.
  destruct (scrape_feed_total max_tweets stop_on_known known_checker pg)
    as (ts & n & Hrun & Hlen).
  exists ts, n. split; [done|]. split; [done|]. by eapply scrape_feed_clean.
Qed.

Lemma for_articles_never_known `{Platform} max_tweets stop_on_known known_checker
    articles st :
  (forall i, is_known stop_on_known known_checker i = false) ->
  for_articles max_tweets stop_on_known known_checker articles st
  = for_articles max_tweets false None articles st
  /\ exists st', for_articles max_tweets stop_on_known known_checker articles st
                 = Continue st'.
Proof.
  intros Hnever. revert st. induction articles as [|a rest IH]; intros st; [by eauto|].
  cbn [for_articles]. destruct (_ <=? _); [by eauto|].
  destruct (value (_parse_tweet a)); [|apply IH].
  destruct (_ && _); [|apply IH]. rewrite Hnever. cbn [is_known andb]. apply IH.
Qed.

Lemma scrape_loop_never_known `{Platform} max_tweets stop_on_known known_checker
    pg fuel st :
  (forall i, is_known stop_on_known known_checker i = false) ->
  scrape_loop max_tweets stop_on_known known_checker pg fuel st
  = scrape_loop max_tweets false None pg fuel st.
Proof.
  intros Hnever. revert st.
  induction fuel as [|fuel IH]; intros st; cbn [scrape_loop]; [done|].
  destruct (_ && _); [|done].
  rewrite (proj1 (for_articles_never_known max_tweets _ _ _ st Hnever)).
  destruct (for_articles _ _ _ _ _); [|done]. destruct (scroll_ok _); [apply IH|done].
Qed.

(** X2. Without [stop_on_known] the oracle is never consulted, and with
    [stop_on_known] but without an oracle nothing is ever known: both runs
    are the run without stop and without oracle, and their [for] loop is
    never left by [return]. *)
Theorem scrape_feed_oracle_unused `{Platform} (max_tweets : Z)
    (known_checker : option (pyval -> bool)) (pg : page) :
  scrape_feed max_tweets false known_checker pg = scrape_feed max_tweets false None pg
  /\ scrape_feed max_tweets true None pg = scrape_feed max_tweets false None pg
  /\ forall articles st,
       exists st', for_articles max_tweets false known_checker articles st = Continue st'.
Proof.
  split; [|split].
  - unfold scrape_feed. destruct (goto_ok pg); [|done].
    by apply scrape_loop_never_known.
  - unfold scrape_feed. destruct (goto_ok pg); [|done].
    by apply scrape_loop_never_known.
  - intros articles st. by apply for_articles_never_known.
Qed.

(** ** Extraction: what a record holds *)

Lemma _parse_tweet_Some `{Platform} (article : element) (tweet : dict) :
  value (_parse_tweet article) = Some tweet ->
  exists i, value (_extract_tweet_id article) = Some i
            /\ tweet = parsed article (Some i).
Proof.
  rewrite _parse_tweet_value. cbv zeta.
  destruct (value (_extract_tweet_id article)) as [i|]; [|done].
  destruct (negb _); [done|]. intros [= <-]. by exists i.
Qed.

Lemma chars_of_chars (l : list ascii) : PyStr.chars (PyStr.of_chars l) = l.
Proof. apply list_ascii_of_string_of_list_ascii. Qed.

Lemma span_chars_all (p : ascii -> bool) (l : list ascii) :
  forallb p (PyStr.span_chars p l).1 = true.
Proof.
  induction l as [|c l IH]; [done|]. cbn [PyStr.span_chars].
  destruct (p c) eqn:Hp; [|done].
  destruct (PyStr.span_chars p l) as [a b]. cbn in *. by rewrite Hp, IH.
Qed.

Lemma search_status_digits (s i : string) :
  PyStr.search_status s = Some i -> PyStr.isdigit i = true.
Proof.
  unfold PyStr.search_status.
  destruct (PyStr.search_status_chars (PyStr.chars s)) as [ds|] eqn:Hs; [|done].
  intros [= <-].
  assert (ds ≠ [] /\ forallb PyStr.is_digit ds = true) as [Hne Hall].
  { revert Hs. generalize (PyStr.chars s). intros l.
    induction l as [|c l IH]; intros Hs.
    - cbn in Hs. done.
    - cbn [PyStr.search_status_chars] in Hs.
      destruct (PyStr.prefix_chars _ _).
      + pose proof (span_chars_all PyStr.is_digit (drop 8 (c :: l))) as Hd.
        destruct (PyStr.span_chars _ _).1 eqn:E; [by apply IH|].
        injection Hs as <-. done.
      + by apply IH. }
  unfold PyStr.isdigit. rewrite chars_of_chars. by destruct ds.
Qed.

Lemma status_id_of_links_digits (links : list element) (i : string) :
  value (status_id_of_links links) = Some i -> PyStr.isdigit i = true.
Proof.
  induction links as [|link rest IH]; [done|].
  cbn [status_id_of_links]. rewrite value_bind.
  destruct (nonempty _) as [h|]; [|done].
  destruct (PyStr.search_status h) eqn:E; [|done].
  intros [= <-]. by eapply search_status_digits.
Qed.

Lemma _extract_tweet_id_digits (article : element) (i : string) :
  value (_extract_tweet_id article) = Some i -> PyStr.isdigit i = true.
Proof.
  unfold _extract_tweet_id. rewrite !value_bind.
  destruct (value (status_id_of_links _)) eqn:E.
  - intros [= <-]. by eapply status_id_of_links_digits.
  - rewrite value_bind. destruct (value (query_selector _ _)); [|done].
    rewrite value_bind. destruct (nonempty _); [|done].
    apply search_status_digits.
Qed.

(** X3. The id of a record [_parse_tweet] returns is a string of decimal
    digits (the number after [/status/] in a permalink), never another
    kind of value. *)
Theorem _parse_tweet_id_digits `{Platform} (article : element) (tweet : dict) :
  value (_parse_tweet article) = Some tweet ->
  exists i, dict_get tweet "id" = PStr i /\ PyStr.isdigit i = true.
Proof.
  intros Hparse. apply _parse_tweet_Some in Hparse as (i & Hid & ->). exists i.
  split; [by rewrite parsed_id|]. by eapply _extract_tweet_id_digits.
Qed.

Lemma _parse_tweet_id_digits_witness :
  let article := Fake.post "bob" "42" in
  let tweet := @parsed Fake.platform article (Some "42") in
  value (@_parse_tweet Fake.platform article) = Some tweet
  /\ exists i, dict_get tweet "id" = PStr i /\ PyStr.isdigit i = true.
Proof.
  intros article tweet.
  assert (value (@_parse_tweet Fake.platform article) = Some tweet) as Hparse.
  { rewrite _parse_tweet_value.
    replace (value (_extract_tweet_id article)) with (Some "42") by (vm_compute; reflexivity).
    reflexivity. }
  split; [exact Hparse|].
  exact (@_parse_tweet_id_digits Fake.platform article tweet Hparse).
Defined.

Lemma _extract_engagement_nonneg (article : element) (metric_type : string) (n : Z) :
  value (_extract_engagement article metric_type) = Some n -> 0 <= n.
Proof.
  unfold _extract_engagement. rewrite value_bind.
  destruct (value (query_selector _ _)) as [button|]; [|done].
  rewrite value_bind.
  destruct (_ ≫= _) as [number|].
  - cbn [value mret Dom_ret]. apply int_nonneg.
  - rewrite value_bind. destruct (value (query_selector _ _)) as [span|]; [|done].
    rewrite value_bind. destruct (nonempty _) as [text|]; [|done].
    cbn [value mret Dom_ret]. apply parse_compact_count_nonneg.
Qed.

Lemma of_opt_int_count (o : option Z) :
  (forall n, o = Some n -> 0 <= n) ->
  of_opt_int o = PNone \/ exists n, of_opt_int o = PInt n /\ 0 <= n.
Proof.
  intros Hall. destruct o as [n|]; [|by left]. right. exists n.
  split; [done|]. by apply Hall.
Qed.

Lemma parsed_counts `{Platform} (article : element) (i : option string) (k : string) :
  k ∈ ["likes"; "retweets"; "replies"] ->
  dict_get (parsed article i) k = PNone
  \/ exists n, dict_get (parsed article i) k = PInt n /\ 0 <= n.
Proof.
  intros Hk. unfold parsed. rewrite extract_metrics_and_media_value.
  repeat (apply elem_of_cons in Hk as [->|Hk]);
    [ rewrite !dict_get_insert_ne by done
    | rewrite !dict_get_insert_ne by done
    | rewrite !dict_get_insert_ne by done
    | by apply elem_of_nil in Hk ];
    rewrite dict_get_insert_eq; apply of_opt_int_count, _extract_engagement_nonneg.
Qed.

(** X4. In a record [_parse_tweet] returns, each of [likes], [retweets]
    and [replies] is [None] or an integer that is not negative, whatever
    the buttons of the article show. *)
Theorem _parse_tweet_counts_nonneg `{Platform} (article : element) (tweet : dict)
    (k : string) :
  value (_parse_tweet article) = Some tweet ->
  k ∈ ["likes"; "retweets"; "replies"] ->
  dict_get tweet k = PNone \/ exists n, dict_get tweet k = PInt n /\ 0 <= n.
Proof.
  intros Hparse Hk. apply _parse_tweet_Some in Hparse as (i & _ & ->).
  by apply parsed_counts.
Qed.

Lemma _parse_tweet_counts_nonneg_witness :
  let tweet := @parsed Fake.platform Fake.liked_post (Some "7") in
  value (@_parse_tweet Fake.platform Fake.liked_post) = Some tweet
  /\ "likes" ∈ ["likes"; "retweets"; "replies"]
  /\ (dict_get tweet "likes" = PNone
      \/ exists n, dict_get tweet "likes" = PInt n /\ 0 <= n).
Proof.
  intros tweet.
  assert (value (@_parse_tweet Fake.platform Fake.liked_post) = Some tweet) as Hparse.
  { rewrite _parse_tweet_value.
    replace (value (_extract_tweet_id Fake.liked_post)) with (Some "7") by (vm_compute; reflexivity).
    reflexivity. }
  assert ("likes" ∈ ["likes"; "retweets"; "replies"]) as Hk by (left; reflexivity).
  split; [exact Hparse|]. split; [exact Hk|].
  exact (@_parse_tweet_counts_nonneg Fake.platform Fake.liked_post tweet "likes" Hparse Hk).
Defined.

Lemma media_loop_filter `{Platform} (media_images : list element) (urls : list string) :
  value (media_loop media_images urls)
  = urls ++ List.filter validate_url (image_sources media_images).
Proof.
  revert urls. induction media_images as [|img rest IH]; intros urls.
  - cbn. by rewrite app_nil_r.
  - cbn [media_loop]. rewrite value_bind. cbn [value get_attribute].
    unfold image_sources. cbn [omap list_omap].
    destruct (nonempty _) as [src|]; [|apply IH].
    cbn [List.filter]. destruct (validate_url src).
    + rewrite IH. by rewrite <- app_assoc.
    + apply IH.
Qed.

(** X5. The media URLs of an article are the [src] attributes of its
    [tweetPhoto] images that are not empty and pass [validate_url], in the
    order of the page; duplicates are kept. *)
Theorem _extract_media_urls_validated_sources `{Platform} (article : element) :
  value (_extract_media_urls article)
  = List.filter validate_url
      (image_sources (default [] (assoc "[data-testid='tweetPhoto'] img"
                                        (el_select article)))).
Proof. unfold _extract_media_urls. rewrite value_bind. by rewrite media_loop_filter. Qed.

Lemma profile_handle_no_slash (href : option string) (h : string) :
  profile_handle href = Some h -> PyStr.contains "/" h = false.
Proof.
  unfold profile_handle. destruct (nonempty href) as [s|]; [|done].
  destruct (PyStr.startswith s "/"); cbn [andb]; [|done].
  destruct (PyStr.contains "/" (PyStr.tail s)) eqn:E; cbn [negb]; [done|].
  by intros [= <-].
Qed.

Lemma author_loop_handle (user_links : list element) (tweet_data : dict) :
  dict_get tweet_data "author_handle" = PNone ->
  let result := value (author_loop user_links tweet_data) in
  (result = tweet_data)
  \/ exists h, dict_get result "author_handle" = PStr h /\ plain_handle h.
Proof.
  intros Hnone. induction user_links as [|link rest IH]; [by left|].
  cbn [author_loop]. rewrite value_bind.
  destruct (profile_handle _) as [handle|] eqn:Hp; [|done].
  destruct (is_navigational handle) eqn:Hnav; cbn [negb]; [done|].
  rewrite bool_decide_true by done. right. exists handle.
  rewrite value_bind.
  split; [|split; [by eapply profile_handle_no_slash|done]].
  destruct (value (query_selector link "span")); [rewrite value_bind|];
    cbn [value mret Dom_ret];
    rewrite ?dict_get_insert_ne by done; by rewrite dict_get_insert_eq.
Qed.

Ltac other_key :=
  match goal with
  | H : ?k ∉ _ |- _ ≠ ?k => intros <-; apply H; repeat (first [by left | right])
  end.

Ltac not_field :=
  let Hin := fresh "Hin" in
  intros Hin;
  repeat (apply elem_of_cons in Hin as [Hin|Hin]; [discriminate Hin|]);
  by apply elem_of_nil in Hin.

Lemma check_retweet_writes (article : element) :
  writes_only ["is_retweet"] (check_retweet article).
Proof.
  intros td k Hk. unfold check_retweet. rewrite value_bind.
  destruct (value (query_selector _ _)); [|done].
  rewrite value_bind. destruct (_ || _); [|done].
  cbn [value mret Dom_ret]. rewrite dict_get_insert_ne; [done|other_key].
Qed.

Lemma author_loop_writes (user_links : list element) :
  writes_only ["author_handle"; "author_name"; "original_author"] (author_loop user_links).
Proof.
  intros td k Hk. induction user_links as [|link rest IH]; [done|].
  cbn [author_loop]. rewrite value_bind.
  destruct (profile_handle _) as [handle|]; [|done].
  destruct (is_navigational handle); cbn [negb]; [done|].
  repeat case_bool_decide; repeat (destruct (truthy _)); cbn [andb];
    rewrite ?value_bind;
    try destruct (value (query_selector link "span")); rewrite ?value_bind;
    cbn [value mret Dom_ret];
    repeat (rewrite dict_get_insert_ne; [|other_key]); done.
Qed.

Lemma _extract_author_info_writes (article : element) :
  writes_only ["author_handle"; "author_name"; "original_author"]
              (_extract_author_info article).
Proof.
  intros td k Hk. unfold _extract_author_info. rewrite value_bind.
  by apply author_loop_writes.
Qed.

Lemma extract_content_writes (article : element) :
  writes_only ["content"] (extract_content article).
Proof.
  intros td k Hk. unfold extract_content. rewrite value_bind.
  destruct (value (query_selector _ _)); [|done].
  rewrite value_bind. cbn [value mret Dom_ret].
  rewrite dict_get_insert_ne; [done|other_key].
Qed.

Lemma reply_loop_writes (reply_links : list element) :
  writes_only ["is_reply"; "reply_to_handle"] (reply_loop reply_links).
Proof.
  intros td k Hk. induction reply_links as [|link rest IH]; [done|].
  cbn [reply_loop]. rewrite !value_bind.
  destruct (_ && _); [|done].
  cbn [value mret Dom_ret]. repeat (rewrite dict_get_insert_ne; [|other_key]). done.
Qed.

Lemma _extract_reply_context_writes (article : element) :
  writes_only ["is_reply"; "reply_to_handle"] (_extract_reply_context article).
Proof.
  intros td k Hk. unfold _extract_reply_context. rewrite !value_bind.
  set (td' := value (if existsb _ _ then _ else _)).
  assert (dict_get td' k = dict_get td k) as Htd.
  { subst td'. destruct (existsb _ _); [|done].
    rewrite value_bind. by apply reply_loop_writes. }
  destruct (negb _); [|done].
  rewrite value_bind. destruct (_ <? _)%nat; cbn [value mret Dom_ret]; [|done].
  rewrite dict_get_insert_ne; [done|other_key].
Qed.

Lemma extract_timestamp_writes `{Platform} (article : element) :
  writes_only ["timestamp"] (extract_timestamp article).
Proof.
  intros td k Hk. unfold extract_timestamp. rewrite value_bind.
  destruct (value (query_selector _ _)); [|done].
  rewrite value_bind. cbn [value mret Dom_ret].
  rewrite dict_get_insert_ne; [done|other_key].
Qed.

Lemma extract_metrics_and_media_writes `{Platform} (article : element) :
  writes_only ["likes"; "retweets"; "replies"; "media_urls"]
              (extract_metrics_and_media article).
Proof.
  intros td k Hk. rewrite extract_metrics_and_media_value.
  repeat (rewrite dict_get_insert_ne; [|other_key]). done.
Qed.

Lemma parsed_author_handle `{Platform} (article : element) (i : option string) :
  dict_get (parsed article i) "author_handle" = PNone
  \/ exists h, dict_get (parsed article i) "author_handle" = PStr h /\ plain_handle h.
Proof.
  set (td := value (check_retweet article (<["id" := of_opt_str i]> empty_tweet_data))).
  set (links := value (query_selector_all article USER_LINK_SELECTOR)).
  assert (dict_get (parsed article i) "author_handle"
          = dict_get (value (author_loop links td)) "author_handle") as Hframe.
  { unfold parsed.
    rewrite extract_metrics_and_media_writes by not_field.
    rewrite extract_timestamp_writes by not_field.
    rewrite _extract_reply_context_writes by not_field.
    rewrite extract_content_writes by not_field.
    unfold _extract_author_info. by rewrite value_bind. }
  assert (dict_get td "author_handle" = PNone) as Hnone.
  { subst td. rewrite check_retweet_writes by not_field. by rewrite dict_get_insert_ne. }
  pose proof (author_loop_handle links td Hnone) as Hloop.
  cbv zeta in Hloop. destruct Hloop as [Heq|(h & Hh & Hplain)].
  - left. by rewrite Hframe, Heq.
  - right. exists h. by rewrite Hframe.
Qed.

(** X6. The author handle of a record [_parse_tweet] returns is [None] or
    a single path segment (no slash in it) that is not one of the
    navigational names ([home], [explore], ...). *)
Theorem _parse_tweet_author_handle_plain `{Platform} (article : element) (tweet : dict) :
  value (_parse_tweet article) = Some tweet ->
  dict_get tweet "author_handle" = PNone
  \/ exists h, dict_get tweet "author_handle" = PStr h /\ plain_handle h.
Proof.
  intros Hparse. apply _parse_tweet_Some in Hparse as (i & _ & ->).
  apply parsed_author_handle.
Qed.

Lemma _parse_tweet_author_handle_plain_witness :
  let article := Fake.post "bob" "42" in
  let tweet := @parsed Fake.platform article (Some "42") in
  value (@_parse_tweet Fake.platform article) = Some tweet
  /\ (dict_get tweet "author_handle" = PNone
      \/ exists h, dict_get tweet "author_handle" = PStr h /\ plain_handle h).
Proof.
  intros article tweet.
  assert (value (@_parse_tweet Fake.platform article) = Some tweet) as Hparse.
  { rewrite _parse_tweet_value.
    replace (value (_extract_tweet_id article)) with (Some "42") by (vm_compute; reflexivity).
    reflexivity. }
  split; [exact Hparse|].
  exact (@_parse_tweet_author_handle_plain Fake.platform article tweet Hparse).
Defined.

(** X7. Each step of [_parse_tweet] writes only its own fields of the
    record: the repost check [is_retweet]; the author resolution
    [author_handle], [author_name] and [original_author]; the content
    step [content]; the reply context [is_reply] and [reply_to_handle];
    the timestamp step [timestamp]; the metrics and media step [likes],
    [retweets], [replies] and [media_urls]. In particular none of them
    touches [id]. *)
Theorem extraction_steps_write_own_fields `{Platform} (article : element) :
  writes_only ["is_retweet"] (check_retweet article)
  /\ writes_only ["author_handle"; "author_name"; "original_author"]
                 (_extract_author_info article)
  /\ writes_only ["content"] (extract_content article)
  /\ writes_only ["is_reply"; "reply_to_handle"] (_extract_reply_context article)
  /\ writes_only ["timestamp"] (extract_timestamp article)
  /\ writes_only ["likes"; "retweets"; "replies"; "media_urls"]
                 (extract_metrics_and_media article).
Proof.
  split; [apply check_retweet_writes|].
  split; [apply _extract_author_info_writes|].
  split; [apply extract_content_writes|].
  split; [apply _extract_reply_context_writes|].
  split; [apply extract_timestamp_writes|apply extract_metrics_and_media_writes].
Qed.

Lemma parsed_original_author `{Platform} (article : element) (i : option string) :
  dict_get (parsed article i) "original_author" = PNone.
Proof.
  unfold parsed.
  rewrite extract_metrics_and_media_writes by not_field.
  rewrite extract_timestamp_writes by not_field.
  rewrite _extract_reply_context_writes by not_field.
  rewrite extract_content_writes by not_field.
  rewrite _extract_author_info_first_link.
  - rewrite check_retweet_writes by not_field. by rewrite dict_get_insert_ne.
  - rewrite check_retweet_writes by not_field. by rewrite dict_get_insert_ne.
Qed.

(** X8. No record [_parse_tweet] returns has an [original_author]: the
    field is [None] for every article, repost or not. *)
Theorem _parse_tweet_original_author_none `{Platform} (article : element) (tweet : dict) :
  value (_parse_tweet article) = Some tweet ->
  dict_get tweet "original_author" = PNone.
Proof.
  intros Hparse. apply _parse_tweet_Some in Hparse as (i & _ & ->).
  apply parsed_original_author.
Qed.

Lemma _parse_tweet_original_author_none_witness :
  let tweet := @parsed Fake.platform Fake.repost (Some "123") in
  value (@_parse_tweet Fake.platform Fake.repost) = Some tweet
  /\ dict_get tweet "is_retweet" = PBool true
  /\ dict_get tweet "original_author" = PNone.
Proof.
  intros tweet.
  assert (value (@_parse_tweet Fake.platform Fake.repost) = Some tweet) as Hparse.
  { rewrite _parse_tweet_value.
    replace (value (_extract_tweet_id Fake.repost)) with (Some "123") by (vm_compute; reflexivity).
    reflexivity. }
  split; [exact Hparse|]. split; [vm_compute; reflexivity|].
  exact (@_parse_tweet_original_author_none Fake.platform Fake.repost tweet Hparse).
Defined.

(** The reply loop sets the handle and the flag together, and never to the
    author of the record. *)
Lemma reply_loop_target (reply_links : list element) (tweet_data : dict) :
  let result := value (reply_loop reply_links tweet_data) in
  result = tweet_data
  \/ (dict_get result "is_reply" = PBool true
      /\ exists h, dict_get result "reply_to_handle" = PStr h
                   /\ PStr h ≠ dict_get tweet_data "author_handle").
Proof.
  induction reply_links as [|link rest IH]; [by left|].
  cbn [reply_loop]. rewrite !value_bind.
  destruct (_ && _) eqn:Hc; [|done].
  right. cbn [value mret Dom_ret].
  apply andb_true_iff in Hc as [_ Hc]. apply negb_true_iff, bool_decide_eq_false in Hc.
  split.
  - rewrite dict_get_insert_ne by done. apply dict_get_insert_eq.
  - eexists. split; [apply dict_get_insert_eq|done].
Qed.

Lemma _extract_reply_context_target (article : element) (tweet_data : dict) :
  dict_get tweet_data "reply_to_handle" = PNone ->
  let result := value (_extract_reply_context article tweet_data) in
  dict_get result "reply_to_handle" ≠ PNone ->
  dict_get result "is_reply" = PBool true
  /\ dict_get result "reply_to_handle" ≠ dict_get result "author_handle".
Proof.
  intros Hnone result. subst result.
  pose proof (_extract_reply_context_writes article tweet_data "author_handle") as Hauthor.
  rewrite Hauthor by not_field.
  clear Hauthor.
  unfold _extract_reply_context. rewrite !value_bind.
  set (td := value (if existsb _ _ then _ else _)).
  assert (td = tweet_data
          \/ (dict_get td "is_reply" = PBool true
              /\ exists h, dict_get td "reply_to_handle" = PStr h
                           /\ PStr h ≠ dict_get tweet_data "author_handle")) as Htd.
  { subst td. destruct (existsb _ _); [|by left].
    rewrite value_bind. apply reply_loop_target. }
  destruct Htd as [Htd|(Hflag & h & Hh & Hne)].
  - rewrite Htd. destruct (negb _).
    + rewrite value_bind. destruct (_ <? _)%nat; cbn [value mret Dom_ret];
        rewrite ?dict_get_insert_ne by done; by rewrite Hnone.
    + cbn [value mret Dom_ret]. by rewrite Hnone.
  - rewrite Hflag. cbn [truthy negb value mret Dom_ret]. intros _.
    by rewrite Hflag, Hh.
Qed.

Lemma parsed_reply `{Platform} (article : element) (i : option string) :
  dict_get (parsed article i) "reply_to_handle" ≠ PNone ->
  dict_get (parsed article i) "is_reply" = PBool true
  /\ dict_get (parsed article i) "reply_to_handle"
     ≠ dict_get (parsed article i) "author_handle".
Proof.
  unfold parsed.
  rewrite !(extract_metrics_and_media_writes article _ _) by not_field.
  rewrite !(extract_timestamp_writes article _ _) by not_field.
  apply _extract_reply_context_target.
  rewrite extract_content_writes by not_field.
  rewrite _extract_author_info_writes by not_field.
  rewrite check_retweet_writes by not_field. by rewrite dict_get_insert_ne.
Qed.

(** X9. A record of [_parse_tweet] that names a reply target is flagged as
    a reply, and the target is never the author of the record itself. *)
Theorem _parse_tweet_reply_target `{Platform} (article : element) (tweet : dict) :
  value (_parse_tweet article) = Some tweet ->
  dict_get tweet "reply_to_handle" ≠ PNone ->
  dict_get tweet "is_reply" = PBool true
  /\ dict_get tweet "reply_to_handle" ≠ dict_get tweet "author_handle".
Proof.
  intros Hparse. apply _parse_tweet_Some in Hparse as (i & _ & ->).
  apply parsed_reply.
Qed.

Lemma _parse_tweet_reply_target_witness :
  let tweet := @parsed Fake.platform Fake.reply_post (Some "8") in
  value (@_parse_tweet Fake.platform Fake.reply_post) = Some tweet
  /\ dict_get tweet "reply_to_handle" = PStr "carol"
  /\ dict_get tweet "is_reply" = PBool true
  /\ dict_get tweet "reply_to_handle" ≠ dict_get tweet "author_handle".
Proof.
  intros tweet.
  assert (value (@_parse_tweet Fake.platform Fake.reply_post) = Some tweet) as Hparse.
  { rewrite _parse_tweet_value.
    replace (value (_extract_tweet_id Fake.reply_post)) with (Some "8") by (vm_compute; reflexivity).
    reflexivity. }
  assert (dict_get tweet "reply_to_handle" = PStr "carol") as Htarget
    by (vm_compute; reflexivity).
  split; [exact Hparse|]. split; [exact Htarget|].
  apply (@_parse_tweet_reply_target Fake.platform Fake.reply_post tweet Hparse).
  rewrite Htarget. discriminate.
Defined.

(** ** Ingestion: what a call stores, and when it fails *)
Module StoreFacts.
Import Web WebFacts.

Lemma filter_length_le {A : Type} (f : A -> bool) (l : list A) :
  (length (List.filter f l) <= length l)%nat.
Proof. induction l as [|a l IH]; [done|]. cbn. destruct (f a); cbn; lia. Qed.

(** X10. What a returning call of [_store_tweets_batch] has done: it has
    appended rows after the rows that were there, one for each record it
    counts and never more than the batch has records, all of them rows of
    the tenant stamped with the time of the call; the run records and the
    briefings are as before. *)
Theorem _store_tweets_batch_appends `{Platform} now db owner raw_tweets n db' :
  _store_tweets_batch now db owner raw_tweets = Ok (n, db') ->
  exists new,
    web_tweets db' = web_tweets db ++ new
    /\ n = Z.of_nat (length new)
    /\ (length new <= length raw_tweets)%nat
    /\ Forall (fun r => user_id r = owner /\ scraped_at r = now) new
    /\ web_scrape_runs db' = web_scrape_runs db
    /\ briefings db' = briefings db.
Proof.
  intros Hcall. apply _store_tweets_batch_Ok in Hcall as (Hrows & Hruns & Hb & Hn & _).
  eexists. split; [exact Hrows|]. split; [exact Hn|]. split; [|split; [|done]].
  - rewrite length_fmap. apply filter_length_le.
  - apply Forall_fmap, List.Forall_forall. by intros td _.
Qed.

Lemma _store_tweets_batch_appends_witness :
  let batch := [Fake.record "1"; Fake.anonymous; Fake.record "2"] in
  exists db' new,
    @_store_tweets_batch Fake.platform 5 Fake.empty_db 7 batch = Ok (2, db')
    /\ web_tweets db' = web_tweets Fake.empty_db ++ new
    /\ 2 = Z.of_nat (length new)
    /\ Forall (fun r => user_id r = 7 /\ scraped_at r = 5) new.
Proof.
  intros batch. eexists.
  assert (@_store_tweets_batch Fake.platform 5 Fake.empty_db 7 batch = Ok (2, _))
    as Hcall by (vm_compute; reflexivity).
  destruct (@_store_tweets_batch_appends Fake.platform 5 _ 7 batch 2 _ Hcall)
    as (new & Hrows & Hn & _ & Hnew & _).
  exists new. split; [exact Hcall|]. split; [exact Hrows|]. split; [exact Hn|exact Hnew].
Defined.

(** X11. After a returning call every record of the batch that has an id
    is stored for the tenant; and when no row of the tenant carried that
    id before, the row built from the record is there, whatever rows other
    tenants hold under the same id. *)
Theorem _store_tweets_batch_stores `{Platform} now db owner raw_tweets n db' td :
  _store_tweets_batch now db owner raw_tweets = Ok (n, db') ->
  td ∈ raw_tweets -> truthy (dict_get td "id") = true ->
  (exists r, r ∈ web_tweets db' /\ tweet_id r = dict_get td "id" /\ user_id r = owner)
  /\ ((forall r, r ∈ web_tweets db -> user_id r = owner -> tweet_id r ≠ dict_get td "id") ->
      new_row now owner td ∈ web_tweets db').
Proof.
  intros Hcall Htd Ht.
  apply _store_tweets_batch_Ok in Hcall as (Hrows & _).
  assert (dict_get td "id" ∉ existing_ids_of db owner raw_tweets ->
          new_row now owner td ∈ web_tweets db') as Hnew.
  { intros Hex. rewrite Hrows. apply elem_of_app. right.
    apply list_elem_of_fmap. exists td. split; [done|].
    apply list_elem_of_In, filter_In. split; [by apply list_elem_of_In|].
    unfold is_new. rewrite Ht. by rewrite bool_decide_false. }
  split.
  - destruct (decide (dict_get td "id" ∈ existing_ids_of db owner raw_tweets)) as [Hex|Hex].
    + apply elem_of_existing_ids in Hex as (r & Hr & Hid & Ho & _).
      exists r. rewrite Hrows. split; [|done]. apply elem_of_app. by left.
    + exists (new_row now owner td). split; [by apply Hnew|done].
  - intros Hfree. apply Hnew. intros Hex.
    apply elem_of_existing_ids in Hex as (r & Hr & Hid & Ho & _).
    by apply (Hfree r).
Qed.

Lemma _store_tweets_batch_stores_witness :
  let batch := [Fake.record "1"; Fake.anonymous; Fake.record "2"] in
  exists db',
    @_store_tweets_batch Fake.platform 5 Fake.empty_db 7 batch = Ok (2, db')
    /\ Fake.record "2" ∈ batch
    /\ truthy (dict_get (Fake.record "2") "id") = true
    /\ @new_row Fake.platform 5 7 (Fake.record "2") ∈ web_tweets db'.
Proof.
  intros batch. eexists.
  assert (@_store_tweets_batch Fake.platform 5 Fake.empty_db 7 batch = Ok (2, _))
    as Hcall by (vm_compute; reflexivity).
  assert (Fake.record "2" ∈ batch) as Hin by (right; right; left).
  assert (truthy (dict_get (Fake.record "2") "id") = true) as Ht by reflexivity.
  split; [exact Hcall|]. split; [exact Hin|]. split; [exact Ht|].
  apply (proj2 (@_store_tweets_batch_stores Fake.platform 5 _ 7 batch 2 _ _ Hcall Hin Ht)).
  intros r Hr. by apply elem_of_nil in Hr.
Defined.

Lemma occurrences_elem (i : pyval) (batch : list dict) :
  (1 <= occurrences i batch)%nat <-> i ∈ batch_ids batch.
Proof.
  unfold occurrences, batch_ids. induction batch as [|t rest IH]; cbn.
  - split; [lia|]. by intros ?%elem_of_nil.
  - case_bool_decide as Hid; cbn.
    + split; [|lia]. intros _. rewrite Hid. by left.
    + rewrite IH. split; [by right|]. by intros [?|?]%elem_of_cons.
Qed.

Lemma NoDup_occurrences (batch : list dict) :
  NoDup (batch_ids batch) <-> forall i, (occurrences i batch <= 1)%nat.
Proof.
  induction batch as [|t rest IH].
  - split; [by cbn; lia|constructor].
  - change (batch_ids (t :: rest)) with (dict_get t "id" :: batch_ids rest).
    rewrite NoDup_cons, IH. split.
    + intros [Hnotin Hrest] i. unfold occurrences. cbn [List.filter].
      case_bool_decide as Hid; [|apply Hrest]. cbn [length].
      destruct (decide (1 <= occurrences i rest)%nat) as [Hocc|Hocc].
      * apply occurrences_elem in Hocc. by rewrite <- Hid in Hocc.
      * unfold occurrences in Hocc. lia.
    + intros Hall. split.
      * intros Hin%occurrences_elem. specialize (Hall (dict_get t "id")).
        unfold occurrences in Hall, Hin. cbn [List.filter] in Hall.
        rewrite bool_decide_true in Hall by done. cbn in Hall. lia.
      * intros i. specialize (Hall i). unfold occurrences in Hall |- *.
        cbn [List.filter] in Hall. destruct (bool_decide _); cbn in Hall; lia.
Qed.

Lemma occurrences_filter (p : dict -> bool) (i : pyval) (batch : list dict) :
  (occurrences i (List.filter p batch) <= occurrences i batch)%nat
  /\ ((forall t, t ∈ batch -> dict_get t "id" = i -> p t = true) ->
      occurrences i (List.filter p batch) = occurrences i batch).
Proof.
  unfold occurrences. induction batch as [|t rest [IH1 IH2]]; [done|]. split.
  - cbn [List.filter]. destruct (p t); cbn [List.filter]; destruct (bool_decide _); cbn; lia.
  - intros Hall.
    specialize (IH2 (fun t' Hin Hid => Hall t' (list_elem_of_further _ _ _ Hin) Hid)).
    cbn [List.filter]. case_bool_decide as Hid.
    + rewrite (Hall t) by (done || by left). cbn [List.filter length].
      rewrite bool_decide_true by done. cbn [length]. by rewrite IH2.
    + destruct (p t); [|done]. cbn [List.filter]. by rewrite bool_decide_false.
Qed.

Lemma repeated_id (batch : list dict) :
  ¬ NoDup (batch_ids batch) -> exists i, (2 <= occurrences i batch)%nat.
Proof.
  intros Hdup. induction batch as [|t rest IH]; [by destruct Hdup; constructor|].
  destruct (decide (dict_get t "id" ∈ batch_ids rest)) as [Hin|Hnotin].
  - exists (dict_get t "id"). apply occurrences_elem in Hin.
    unfold occurrences in *. cbn [List.filter]. rewrite bool_decide_true by done.
    cbn. lia.
  - destruct IH as [i Hi].
    + intros Hnd. apply Hdup.
      change (batch_ids (t :: rest)) with (dict_get t "id" :: batch_ids rest).
      by apply NoDup_cons.
    + exists i. unfold occurrences in *. cbn [List.filter].
      destruct (bool_decide _); cbn; lia.
Qed.

(** The pending rows of a call are free of the stored ones; the commit is
    refused exactly when two of them share an id. *)
Lemma _store_tweets_batch_pending `{Platform} now db owner raw_tweets :
  unique_rows (web_tweets db) ->
  let news := List.filter (is_new (existing_ids_of db owner raw_tweets)) raw_tweets in
  (NoDup (batch_ids news) ->
   exists n db', _store_tweets_batch now db owner raw_tweets = Ok (n, db'))
  /\ (¬ NoDup (batch_ids news) ->
      _store_tweets_batch now db owner raw_tweets = Raise IntegrityError).
Proof.
  intros Hdb news.
  assert (unique_rows (web_tweets db ++ (new_row now owner <$> news))
          <-> NoDup (batch_ids news)) as Huniq.
  { unfold unique_rows. rewrite fmap_app, NoDup_app.
    assert (NoDup (uq_tweet_user <$> (new_row now owner <$> news))
            <-> NoDup (batch_ids news)) as Hnew.
    { unfold batch_ids. rewrite <- list_fmap_compose.
      change (uq_tweet_user ∘ new_row now owner)
        with ((fun i : pyval => (i, owner)) ∘ (fun t : dict => dict_get t "id")).
      rewrite list_fmap_compose. split.
      - by apply NoDup_fmap_1.
      - apply NoDup_fmap_2. by intros ?? [= ->]. }
    rewrite Hnew. split; [by intros (_ & _ & ?)|]. intros Hnd.
    split; [done|]. split; [|done].
    intros [i u] Hold Hin.
    apply list_elem_of_fmap in Hold as (r & Hkey & Hr).
    apply list_elem_of_fmap in Hin as (r' & Hkey' & Hr').
    apply list_elem_of_fmap in Hr' as (td & -> & Htd).
    apply list_elem_of_In, filter_In in Htd as [Htd Hisnew].
    unfold is_new in Hisnew. apply andb_true_iff in Hisnew as [Ht Hisnew].
    apply negb_true_iff, bool_decide_eq_false in Hisnew. apply Hisnew.
    injection Hkey as -> ->. injection Hkey' as Hi Hu. cbn in Hi, Hu.
    apply elem_of_existing_ids. exists r.
    repeat split; [done..|].
    exists td. split; [by apply list_elem_of_In|done]. }
  unfold _store_tweets_batch. fold (existing_ids_of db owner raw_tweets).
  rewrite store_loop_spec. cbn [app]. fold news. split.
  - intros Hnd. case_bool_decide; [by eexists _, _|].
    destruct (negb _); [|by eexists _, _].
    unfold commit_tweets. rewrite bool_decide_true by by apply Huniq.
    by eexists _, _.
  - intros Hdup.
    assert (news ≠ []) as Hne.
    { intros Hnil. apply Hdup. rewrite Hnil. constructor. }
    case_bool_decide as Hids.
    { exfalso. apply Hne. apply filter_is_new_nil. intros td Htd Ht.
      by rewrite (no_truthy_id raw_tweets Hids td Htd) in Ht. }
    destruct news as [|t0 news'] eqn:Hnews; [done|].
    rewrite <- Hnews in *.
    assert (negb (0 + Z.of_nat (length news) =? 0) = true) as ->.
    { rewrite Hnews. cbn [length]. apply negb_true_iff, Z.eqb_neq. lia. }
    unfold commit_tweets. rewrite bool_decide_false; [done|].
    intros Hu. by apply Hdup, Huniq.
Qed.



Lemma NoDup_filter_bool {A : Type} (f : A -> bool) (l : list A) :
  NoDup l -> NoDup (List.filter f l).
Proof.
  induction 1 as [|x l Hx Hl IH]; [constructor|]. cbn. destruct (f x); [|done].
  constructor; [|done]. intros Hin. apply Hx.
  by apply list_elem_of_In, filter_In in Hin as [?%list_elem_of_In _].
Qed.

(** A batch built by the acquisition loop is always committed. *)
Lemma clean_batch_commits `{Platform} stop_on_known known_checker now db owner batch :
  clean_batch stop_on_known known_checker batch ->
  unique_rows (web_tweets db) ->
  exists n db',
    _store_tweets_batch now db owner batch = Ok (n, db')
    /\ 0 <= n <= Z.of_nat (length batch).
Proof.
  intros [Hnd _] Hdb.
  destruct (_store_tweets_batch_distinct now db owner batch Hdb) as (n & db' & Hok).
  { by apply NoDup_filter_bool. }
  exists n, db'. split; [done|].
  apply _store_tweets_batch_Ok in Hok as (_ & _ & _ & -> & _).
  rewrite length_fmap.
  pose proof (filter_length_le (is_new (existing_ids_of db owner batch)) batch). lia.
Qed.



End StoreFacts.

(** ** The orchestrator: what a run may do *)
Module RunFacts.
Import Web.

Lemma run_outcome_refl owner db : run_outcome owner db db (Ok None).
Proof.
  repeat split; try done. rewrite drop_all. constructor.
Qed.

Lemma run_outcome_log owner now db started found new source st :
  run_outcome owner db (_log_scrape_run now db owner started found new source st) (Ok None).
Proof.
  repeat split; cbn; try done.
  - by apply prefix_app_r.
  - rewrite drop_app_length. by repeat constructor.
Qed.

Lemma run_outcome_trans owner db1 db2 db3 r :
  run_outcome owner db1 db2 (Ok None) -> run_outcome owner db2 db3 r ->
  run_outcome owner db1 db3 r.
Proof.
  intros (Ht1 & Hr1 & Hf1 & Hb1) (Ht2 & Hr2 & Hf2 & Hb2).
  split; [by etrans|]. split; [by etrans|]. split.
  - destruct Hr1 as [k1 Hk1], Hr2 as [k2 Hk2]. rewrite Hk2, Hk1 in Hf2 |- *.
    rewrite Hk1 in Hf1. rewrite drop_app_length in Hf1.
    rewrite drop_app_length in Hf2.
    rewrite <- app_assoc. rewrite drop_app_length. by apply Forall_app.
  - destruct r as [[b|]|e]; by rewrite <- Hb1.
Qed.

Lemma pipeline_failed_outcome w db owner source e :
  let '(db', r) := pipeline_failed w db owner source e in run_outcome owner db db' r.
Proof.
  destruct e; cbn; try apply run_outcome_log.
  repeat split; try done; [by rewrite drop_all|by eexists].
Qed.

Lemma summarize_and_store_outcome w db owner settings found new dicts :
  let '(db', r) := summarize_and_store w db owner settings found new dicts in
  run_outcome owner db db' r.
Proof.
  unfold summarize_and_store.
  destruct (generate_summary w dicts settings) as [summary|e].
  - repeat split; cbn; try done. by rewrite drop_all.
  - destruct e; try apply (pipeline_failed_outcome w db owner _ _).
    apply run_outcome_log.
Qed.

Lemma store_and_summarize_outcome `{Platform} w db owner settings raw_tweets :
  let '(db', r) := store_and_summarize w db owner settings raw_tweets in
  run_outcome owner db db' r.
Proof.
  unfold store_and_summarize. destruct raw_tweets as [|t raw]; [apply run_outcome_log|].
  destruct (_store_tweets_batch _ _ _ _) as [[n db1]|e] eqn:Hstore;
    [|apply pipeline_failed_outcome].
  apply WebFacts._store_tweets_batch_Ok in Hstore as (Hrows & Hruns & Hbr & _ & _).
  assert (run_outcome owner db db1 (Ok None)) as H1.
  { repeat split; try done.
    - rewrite Hrows. by apply prefix_app_r.
    - by rewrite Hruns.
    - rewrite Hruns, drop_all. constructor. }
  set (db2 := _log_scrape_run _ db1 _ _ _ _ _ _).
  assert (run_outcome owner db db2 (Ok None)) as H2.
  { eapply run_outcome_trans; [exact H1|apply run_outcome_log]. }
  destruct (recent_tweets w db2 owner settings) as [|r recent]; [done|].
  pose proof (summarize_and_store_outcome w db2 owner settings
                (Z.of_nat (length (t :: raw))) n (tweet_dict <$> r :: recent)) as H3.
  destruct (summarize_and_store _ _ _ _ _ _ _) as [db3 res].
  by eapply run_outcome_trans.
Qed.


(** X15. An expired scraper session is logged twice: the handler of
    [SessionExpiredError] writes a run record [error: <message>] and
    re-raises, and the outer handler writes a second record with the same
    status; the run returns [None], leaves the tweets and briefings as they
    were, and lets no exception through. *)
Theorem session_expired_logged_twice `{Platform} w owner db settings msg :
  settings_of w owner = Some settings ->
  feed_source settings = "scraper" ->
  disable_playwright w = false ->
  playwright_fetch_feed w owner (max_tweets settings) = Raise (SessionExpiredError msg) ->
  run_user_pipeline w owner db
  = (Database (web_tweets db)
       (web_scrape_runs db
        ++ [ ScrapeRun owner (t_started w) (t_logged w) 0 0 "scraper" ("error: " +:+ msg);
             ScrapeRun owner (t_started w) (t_failed w) 0 0 "scraper" ("error: " +:+ msg) ])
       (briefings db),
     Ok None).
Proof.
  intros Hs Hsrc Hd Hf. unfold run_user_pipeline. rewrite Hs, Hsrc, Hd, Hf.
  rewrite bool_decide_false by done. rewrite bool_decide_true by done.
  unfold pipeline_failed, _log_scrape_run.
  cbn [web_tweets web_scrape_runs briefings exn_str]. by rewrite <- app_assoc.
Qed.

Lemma session_expired_logged_twice_witness :
  let w := Fake.expired_world in
  settings_of w 7 = Some Fake.scraper_settings
  /\ feed_source Fake.scraper_settings = "scraper"
  /\ disable_playwright w = false
  /\ playwright_fetch_feed w 7 (max_tweets Fake.scraper_settings)
     = Raise (SessionExpiredError "expired")
  /\ status <$> web_scrape_runs (@run_user_pipeline Fake.platform w 7 Fake.empty_db).1
     = ["error: expired"; "error: expired"].
Proof.
  intros w.
  assert (settings_of w 7 = Some Fake.scraper_settings) as Hs by reflexivity.
  assert (feed_source Fake.scraper_settings = "scraper") as Hsrc by reflexivity.
  assert (disable_playwright w = false) as Hd by reflexivity.
  assert (playwright_fetch_feed w 7 (max_tweets Fake.scraper_settings)
          = Raise (SessionExpiredError "expired")) as Hf by reflexivity.
  split; [exact Hs|]. split; [exact Hsrc|]. split; [exact Hd|]. split; [exact Hf|].
  rewrite (@session_expired_logged_twice Fake.platform w 7 Fake.empty_db
             Fake.scraper_settings "expired" Hs Hsrc Hd Hf).
  reflexivity.
Defined.

End RunFacts.

(** ** Retention: what the trim keeps *)
Module TrimFacts.
Import Cli CliFacts.

Lemma order_desc_sorted (times : list Z) : StronglySorted desc (order_desc times).
Proof. apply StronglySorted_merge_sort; apply _. Qed.

Lemma order_desc_perm (times : list Z) : order_desc times ≡ₚ times.
Proof. apply merge_sort_Permutation. Qed.

(** In a descending list, the time at position [k] and the [k] before it
    are all at least that time. *)
Lemma sorted_at_least (s : list Z) (k : nat) (c : Z) :
  StronglySorted desc s -> s !! k = Some c ->
  (S k <= length (List.filter (fun x => negb (x <? c)%Z) s))%nat.
Proof.
  intros Hs. revert k. induction Hs as [|x s Hs IH Hx]; intros k Hk; [done|].
  cbn [List.filter]. destruct k as [|k]; cbn in Hk.
  - injection Hk as <-. rewrite Z.ltb_irrefl. cbn. lia.
  - assert (c <= x) as Hc.
    { apply (proj1 (List.Forall_forall _ _) Hx c).
      apply list_elem_of_In. by eapply list_elem_of_lookup_2. }
    rewrite (proj2 (Z.ltb_ge _ _)) by lia. cbn. specialize (IH k Hk). lia.
Qed.

(** ... and at most [k] times are later than it. *)
Lemma sorted_later (s : list Z) (k : nat) (c : Z) :
  StronglySorted desc s -> s !! k = Some c ->
  (length (List.filter (fun x => (c <? x)%Z) s) <= k)%nat.
Proof.
  intros Hs. revert k. induction Hs as [|x s Hs IH Hx]; intros k Hk; [done|].
  cbn [List.filter]. destruct k as [|k]; cbn in Hk.
  - injection Hk as <-. rewrite Z.ltb_irrefl.
    assert (List.filter (fun y => x <? y) s = []) as ->; [|done].
    clear IH Hs. induction s as [|y s IHs]; [done|]. cbn.
    apply Forall_cons in Hx as [Hy Hx]. unfold desc in Hy.
    rewrite (proj2 (Z.ltb_ge _ _)) by lia. by apply IHs.
  - specialize (IH k Hk). destruct (c <? x); cbn; lia.
Qed.

Lemma table_filter_length (f : Z -> bool) (table : list tweet) :
  length (List.filter (fun t => f (scraped_at t)) table)
  = length (List.filter f (order_desc (scraped_at <$> table))).
Proof.
  rewrite (filter_length_Permutation f _ _ (order_desc_perm _)).
  by rewrite filter_length_fmap.
Qed.



(** X17. Trimming is idempotent: a second trim with the same [keep_count]
    right after the first deletes nothing and returns 0. *)
Theorem cleanup_old_tweets_again (keep_count : Z) (table : list tweet) :
  1 <= keep_count ->
  cleanup_old_tweets keep_count (cleanup_old_tweets keep_count table).2
  = (0, (cleanup_old_tweets keep_count table).2).
Proof.
  intros Hkeep.
  destruct (Z.le_gt_cases (Z.of_nat (length table)) keep_count) as [Hle|Hgt].
  { unfold cleanup_old_tweets at 2 3. rewrite (proj2 (Z.leb_le _ _)) by done.
    cbn [snd]. unfold cleanup_old_tweets. by rewrite (proj2 (Z.leb_le _ _)). }
  destruct (cleanup_old_tweets_cutoff keep_count table Hkeep) as (c & Hc & ->); [lia|].
  cbn [snd]. set (table' := List.filter _ table).
  destruct (Z.le_gt_cases (Z.of_nat (length table')) keep_count) as [Hle'|Hgt'].
  { unfold cleanup_old_tweets. by rewrite (proj2 (Z.leb_le _ _)). }
  destruct (cleanup_old_tweets_cutoff keep_count table' Hkeep) as (c' & Hc' & ->); [lia|].
  assert (forall t, t ∈ table' -> c <= scraped_at t) as Hall.
  { intros t Ht. apply list_elem_of_In, filter_In in Ht as [_ Ht].
    by apply negb_true_iff, Z.ltb_ge in Ht. }
  assert (c' <= c) as Hcc.
  { destruct (Z.le_gt_cases c' c) as [|Hlt]; [done|]. exfalso.
    pose proof (sorted_at_least _ _ c' (order_desc_sorted _) Hc') as Hmany.
    rewrite <- (table_filter_length (fun x => negb (x <? c'))) in Hmany.
    pose proof (sorted_later _ _ c (order_desc_sorted _) Hc) as Hfew.
    rewrite <- (table_filter_length (fun x => c <? x)) in Hfew.
    assert (length (List.filter (fun t => negb (scraped_at t <? c')%Z) table')
            <= length (List.filter (fun t => (c <? scraped_at t)%Z) table))%nat; [|lia].
    subst table'. clear -Hlt. induction table as [|t table IH]; [done|].
    cbn [List.filter].
    destruct (scraped_at t <? c) eqn:E1; cbn [negb List.filter].
    - apply Z.ltb_lt in E1. rewrite (proj2 (Z.ltb_ge c (scraped_at t))) by lia. done.
    - apply Z.ltb_ge in E1.
      destruct (scraped_at t <? c') eqn:E2; cbn [negb].
      + destruct (c <? scraped_at t); cbn; lia.
      + apply Z.ltb_ge in E2. rewrite (proj2 (Z.ltb_lt c (scraped_at t))) by lia.
        cbn. lia. }
  assert (List.filter (fun t => scraped_at t <? c') table' = []) as ->.
  { clear -Hall Hcc. induction table' as [|t l IH]; [done|]. cbn.
    rewrite (proj2 (Z.ltb_ge _ _)); [|specialize (Hall t ltac:(by left)); lia].
    apply IH. intros. apply Hall. by right. }
  f_equal. apply filter_all. intros t Ht. specialize (Hall t Ht).
  apply negb_true_iff, Z.ltb_ge. lia.
Qed.

Lemma cleanup_old_tweets_again_witness :
  1 <= 3
  /\ (cleanup_old_tweets 3 (Fake.ticking_table 8)).1 = 5
  /\ cleanup_old_tweets 3 (cleanup_old_tweets 3 (Fake.ticking_table 8)).2
     = (0, (cleanup_old_tweets 3 (Fake.ticking_table 8)).2).
Proof.
  assert (1 <= 3) as Hkeep by discriminate.
  split; [exact Hkeep|]. split; [vm_compute; reflexivity|].
  exact (cleanup_old_tweets_again 3 (Fake.ticking_table 8) Hkeep).
Defined.

End TrimFacts.

(** ** The live-API provider: flags and batches *)
Module ApiFacts.
Import Api ApiProvider.

(** The flags after the loop over the references: each flag is set exactly
    when a reference of its type occurs, and an author is given only
    together with its flag. *)
Lemma ref_loop_flags users_map ref_tweets_map refs
    (is_retweet is_reply : bool) (original_author reply_to_handle : option string) :
  (original_author ≠ None -> is_retweet = true) ->
  (reply_to_handle ≠ None -> is_reply = true) ->
  let '(rt, rp, oa, rh) :=
    ref_loop users_map ref_tweets_map refs
             (is_retweet, is_reply, original_author, reply_to_handle) in
  rt = is_retweet || has_type "retweeted" refs
  /\ rp = is_reply || has_type "replied_to" refs
  /\ (oa ≠ None -> rt = true)
  /\ (rh ≠ None -> rp = true).
Proof.
  revert is_retweet is_reply original_author reply_to_handle.
  induction refs as [|ref rest IH]; intros rt rp oa rh Hoa Hrh.
  - cbn. by rewrite !orb_false_r.
  - cbn [ref_loop has_type existsb].
    case_bool_decide as Hrt.
    + specialize (IH true rp (ref_author_username users_map ref_tweets_map ref) rh
                     (fun _ => eq_refl) Hrh).
      destruct (ref_loop _ _ _ _) as [[[rt' rp'] oa'] rh'].
      destruct IH as (-> & -> & ? & ?). fold (has_type "retweeted" rest).
      fold (has_type "replied_to" rest).
      rewrite bool_decide_false by (rewrite Hrt; done).
      repeat split; try done. by rewrite orb_true_r.
    + case_bool_decide as Hrp.
      * specialize (IH rt true oa (ref_author_username users_map ref_tweets_map ref)
                       Hoa (fun _ => eq_refl)).
        destruct (ref_loop _ _ _ _) as [[[rt' rp'] oa'] rh'].
        destruct IH as (-> & -> & ? & ?). fold (has_type "retweeted" rest).
        fold (has_type "replied_to" rest).
        repeat split; try done. by rewrite orb_true_r.
      * specialize (IH rt rp oa rh Hoa Hrh).
        destruct (ref_loop _ _ _ _) as [[[rt' rp'] oa'] rh'].
        destruct IH as (-> & -> & ? & ?). fold (has_type "retweeted" rest).
        fold (has_type "replied_to" rest). done.
Qed.

(** X18. In a record of [_transform_tweet], [is_retweet] is set exactly
    when the tweet references a [retweeted] tweet and [is_reply] exactly
    when it references a [replied_to] tweet; a record that names an
    original author is flagged as a repost and one that names a reply
    target is flagged as a reply. *)
Theorem _transform_tweet_flags (tw : tweet) (users_map : gmap string user)
    (ref_tweets_map : gmap string tweet) :
  let record := _transform_tweet tw users_map ref_tweets_map in
  dict_get record "is_retweet" = PBool (has_type "retweeted" (referenced_tweets tw))
  /\ dict_get record "is_reply" = PBool (has_type "replied_to" (referenced_tweets tw))
  /\ (dict_get record "original_author" ≠ PNone -> dict_get record "is_retweet" = PBool true)
  /\ (dict_get record "reply_to_handle" ≠ PNone -> dict_get record "is_reply" = PBool true).
Proof.
  unfold _transform_tweet.
  pose proof (ref_loop_flags users_map ref_tweets_map (referenced_tweets tw)
                false false None None ltac:(done) ltac:(done)) as Hflags.
  destruct (ref_loop _ _ _ _) as [[[rt rp] oa] rh].
  destruct Hflags as (-> & -> & Hoa & Hrh). cbn [orb] in *.
  cbv zeta. rewrite !dict_get_insert_eq.
  repeat (rewrite dict_get_insert_ne by done; rewrite ?dict_get_insert_eq).
  repeat split; try done.
  - intros Hne. rewrite Hoa; [done|]. by destruct oa.
  - intros Hne. rewrite Hrh; [done|]. by destruct rh.
Qed.

Lemma _transform_tweet_id (tw : tweet) users_map ref_tweets_map :
  dict_get (_transform_tweet tw users_map ref_tweets_map) "id" = PStr (id tw).
Proof.
  unfold _transform_tweet. destruct (ref_loop _ _ _ _) as [[[? ?] ?] ?].
  rewrite !dict_get_insert_ne by done. apply dict_get_insert_eq.
Qed.

Lemma fetch_feed_batch_ids (r : response) :
  batch_ids (fetch_feed r) = (fun tw => PStr (id tw)) <$> default [] (data r).
Proof.
  unfold fetch_feed, batch_ids. destruct (data r) as [tweets|]; [|done].
  cbn [default]. rewrite <- list_fmap_compose. apply list_fmap_ext.
  intros _ tw _. cbn. apply _transform_tweet_id.
Qed.

(** X19. [fetch_feed] of the API provider returns one record for each
    tweet under [data], in the order of the response and with the id of
    the tweet, and the empty list when the response has no [data]; the
    code itself does not cap the batch at [max_tweets]. *)
Theorem fetch_feed_one_record_per_tweet (r : response) :
  batch_ids (fetch_feed r) = (fun tw => PStr (id tw)) <$> default [] (data r)
  /\ length (fetch_feed r) = length (default [] (data r))
  /\ (data r = None -> fetch_feed r = []).
Proof.
  split; [apply fetch_feed_batch_ids|]. split.
  - unfold fetch_feed. destruct (data r); [|done]. cbn. by rewrite length_fmap.
  - unfold fetch_feed. by intros ->.
Qed.



End ApiFacts.

(** ** The scheduler: who is enqueued *)
Module DueFacts.
Import Scheduler.

(** X23. For a known zone [_utc_hour_for_user] is an hour of the day, from
    0 to 23, whatever the schedule hour, and it is the schedule hour itself
    when the zone has no offset; for an unknown zone the schedule hour is
    returned unchanged. *)
Theorem _utc_hour_for_user_range (utcoffset : string -> option Z) (schedule_hour : Z)
    (timezone : string) :
  match utcoffset timezone with
  | Some offset =>
      0 <= _utc_hour_for_user utcoffset schedule_hour timezone < 24
      /\ (offset = 0 -> 0 <= schedule_hour < 24 ->
          _utc_hour_for_user utcoffset schedule_hour timezone = schedule_hour)
  | None => _utc_hour_for_user utcoffset schedule_hour timezone = schedule_hour
  end.
Proof.
  unfold _utc_hour_for_user. destruct (utcoffset timezone) as [offset|]; [|done].
  pose proof (Z.mod_pos_bound (schedule_hour * 3600 - offset) 86400 ltac:(lia)) as Hm.
  split.
  - split; [apply Z.div_pos; lia|]. apply Z.div_lt_upper_bound; lia.
  - intros -> Hh. rewrite Z.sub_0_r. rewrite Z.mod_small by lia.
    by rewrite Z.div_mul.
Qed.

Lemma filter_nil_forallb {A : Type} (f : A -> bool) (l : list A) :
  List.filter f l = [] <-> forallb (fun x => negb (f x)) l = true.
Proof.
  induction l as [|a l IH]; [done|]. cbn. destruct (f a); cbn; [|done].
  split; done.
Qed.

Lemma enqueue_loop_step utcoffset current_utc_hour now redis briefings i row rest :
  enqueue_loop utcoffset current_utc_hour now redis briefings i (row :: rest)
  = (if due utcoffset current_utc_hour now briefings i row && redis
     then [user_id row] else [])
    ++ enqueue_loop utcoffset current_utc_hour now redis briefings (S i) rest.
Proof.
  cbn [enqueue_loop]. unfold due.
  destruct (_ =? current_utc_hour); cbn [negb andb]; [|done].
  destruct (List.filter _ briefings) as [|b0 recent] eqn:Hrecent.
  - apply filter_nil_forallb in Hrecent. rewrite Hrecent. by destruct redis.
  - assert (forallb (fun b => negb ((Web.briefing_user_id b =? user_id row)
                                     && (now i - Web.hours DUPLICATE_BRIEFING_HOURS
                                         <=? Web.created_at b))) briefings = false) as ->.
    { apply not_true_is_false. intros Hall. apply filter_nil_forallb in Hall.
      by rewrite Hall in Hrecent. }
    done.
Qed.

Lemma enqueue_loop_complete utcoffset current_utc_hour now briefings i rows j row :
  rows !! j = Some row ->
  due utcoffset current_utc_hour now briefings (i + j) row = true ->
  user_id row ∈ enqueue_loop utcoffset current_utc_hour now true briefings i rows.
Proof.
  revert i j. induction rows as [|r rest IH]; intros i j Hj Hdue; [done|].
  rewrite enqueue_loop_step. apply elem_of_app. destruct j as [|j]; cbn in Hj.
  - injection Hj as ->. rewrite Nat.add_0_r in Hdue. rewrite Hdue. left. by left.
  - right. apply (IH (S i) j Hj). by replace (S i + j)%nat with (i + S j)%nat by lia.
Qed.

Lemma enqueue_loop_sublist utcoffset current_utc_hour now redis briefings i rows :
  enqueue_loop utcoffset current_utc_hour now redis briefings i rows
    `sublist_of` (user_id <$> rows)
  /\ (redis = false ->
      enqueue_loop utcoffset current_utc_hour now redis briefings i rows = []).
Proof.
  revert i. induction rows as [|r rest IH]; intros i; [done|].
  rewrite enqueue_loop_step. destruct (IH (S i)) as [Hsub Hnone]. split.
  - cbn [fmap list_fmap]. destruct (_ && _); cbn [app].
    + by apply sublist_skip.
    + by apply sublist_cons.
  - intros ->. rewrite andb_false_r. by apply Hnone.
Qed.

(** X21. No due user is skipped: when there is a queue, a row whose hour
    matches the current UTC hour and whose user has no briefing as recent
    as 20 hours before the clock read at its turn is enqueued. *)
Theorem enqueue_due_users_complete utcoffset current_utc_hour now briefings rows
    (j : nat) (row : due_row) :
  rows !! j = Some row ->
  due utcoffset current_utc_hour now briefings j row = true ->
  user_id row ∈ enqueue_due_users utcoffset current_utc_hour now true briefings rows.
Proof. intros Hj Hdue. by apply (enqueue_loop_complete _ _ _ _ 0%nat rows j row). Qed.

Lemma enqueue_due_users_complete_witness :
  let now := fun _ : nat => Web.hours 1000 in
  Fake.due_rows !! 1%nat = Some (DueRow 2 7 "UTC")
  /\ due Fake.utcoffset 7 now Fake.old_briefings 1 (DueRow 2 7 "UTC") = true
  /\ 2 ∈ enqueue_due_users Fake.utcoffset 7 now true Fake.old_briefings Fake.due_rows.
Proof.
  intros now.
  assert (Fake.due_rows !! 1%nat = Some (DueRow 2 7 "UTC")) as Hj by reflexivity.
  assert (due Fake.utcoffset 7 now Fake.old_briefings 1 (DueRow 2 7 "UTC") = true) as Hdue
    by reflexivity.
  split; [exact Hj|]. split; [exact Hdue|].
  exact (enqueue_due_users_complete Fake.utcoffset 7 now Fake.old_briefings Fake.due_rows
           1 (DueRow 2 7 "UTC") Hj Hdue).
Defined.

(** X22. The users [enqueue_due_users] enqueues are users of the rows, in
    the order of the rows and each row at most once; without a queue
    nobody is enqueued. *)
Theorem enqueue_due_users_sublist utcoffset current_utc_hour now redis briefings rows :
  enqueue_due_users utcoffset current_utc_hour now redis briefings rows
    `sublist_of` (user_id <$> rows)
  /\ enqueue_due_users utcoffset current_utc_hour now false briefings rows = [].
Proof.
  split.
  - apply enqueue_loop_sublist.
  - by apply enqueue_loop_sublist.
Qed.

End DueFacts.

(** ** Session checks *)

(** X24. [check_session] accepts exactly a page that was not sent to the
    login page or the onboarding flow and that shows the compose button or
    is still on [x.com/home]; an error of the browser is never a valid
    session. *)
Theorem check_session_accepts (l : landing) :
  check_session l = true <->
  exists current_url compose_button,
    l = Landed current_url compose_button
    /\ redirected_to_login current_url = false
    /\ (compose_button = true \/ PyStr.contains "x.com/home" current_url = true).
Proof.
  split.
  - destruct l as [url btn|msg]; cbn; [|done].
    destruct (redirected_to_login url) eqn:Hred; [done|].
    intros Hok. exists url, btn. split; [done|]. split; [done|].
    destruct btn; [by left|]. right.
    by destruct (PyStr.contains "x.com/home" url).
  - intros (url & btn & -> & Hred & Hsign). cbn. rewrite Hred.
    destruct Hsign as [->| ->]; [done|]. by destruct btn.
Qed.

(** X25. [fetch_feed] of the scraper provider: an error of the browser
    propagates; a page sent to the login page or the onboarding flow
    raises [SessionExpiredError] before any scrolling, and [check_session]
    rejects the same page; otherwise the call returns a batch of at most
    [max(0, max_tweets)] records with pairwise distinct, truthy ids. *)
Theorem playwright_fetch_feed_outcome `{Platform} (l : landing) (pg : page)
    (max_tweets : Z) :
  match l with
  | BrowserError msg =>
      PlaywrightProvider.fetch_feed l pg max_tweets = Raise (OtherError msg)
  | Landed current_url compose_button =>
      if redirected_to_login current_url
      then PlaywrightProvider.fetch_feed l pg max_tweets
           = Raise (SessionExpiredError PlaywrightProvider.SESSION_EXPIRED)
           /\ check_session l = false
      else exists ts,
          PlaywrightProvider.fetch_feed l pg max_tweets = Ok ts
          /\ Z.of_nat (length ts) <= Z.max 0 max_tweets
          /\ clean_batch false None ts
  end.
Proof.
  destruct l as [url btn|msg]; [|done].
  unfold PlaywrightProvider.fetch_feed, check_session.
  destruct (redirected_to_login url); [done|].
  destruct (scrape_feed_total max_tweets false None pg) as (ts & n & Hrun & Hlen).
  exists ts. rewrite Hrun. repeat split; try done; by eapply scrape_feed_clean.
Qed.
